(** * news-dashboard: ingestion, enrichment and archive pipeline

    A shallow embedding of the parts of [daily_report.py], [utility.py] and
    [weekly_report.py] that decide the ledger, fetcher, retry, enrichment,
    archive and trend-analysis properties, followed by the theorems about
    them.

    Conventions of the embedding:
    - Python [int] is [Z]. A [str] is kept as its UTF-8 encoding, one
      [ascii] per byte; [len] of a [str] is [py.len], the number of its
      characters (code points), and [len] of a list is [List.length].
    - A statement that may raise is a function into [option]: [None] is
      "an exception was raised", [Some v] is normal completion with [v].
    - A Python [dict] used as a map (the ledger, the archive directory) is a
      stdpp [gmap]; a [dict] used as a JSON object is an association list.
    - [datetime] values are exact integers of microseconds; [time.time()] and
      [os.path.getmtime] are exact rationals of seconds (float rounding of
      the clock arithmetic is not modelled).
    - Everything the program obtains from outside (feeds, downloads, the
      Gemini service, the clock, the scheduler) is an explicit argument. *)

From Stdlib Require Import ZArith QArith Lia Lqa Ascii.
From Stdlib Require Import Floats.PrimFloat Floats.SpecFloat Floats.FloatOps.
From Stdlib Require Import Numbers.Cyclic.Int63.Uint63.
From stdpp Require Import base option list gmap strings fin_maps pretty sorting.

(* ===================================================================== *)
(** * Python values *)
(* ===================================================================== *)

Module py.

(** The values [json.load] / [json.loads] produce and [json.dump] accepts.
    Numbers are integers here; the program itself never computes a float
    that it stores. An object is a [dict]: its keys are distinct and kept
    in insertion order. *)
#[warnings="-register-all"]
Inductive json : Type :=
| JNull
| JBool (b : bool)
| JInt (n : Z)
| JStr (s : string)
| JArr (items : list json)
| JObj (fields : list (string * json)).

(** [d[key]] on an object's fields: first binding of [key]. *)
Fixpoint assoc (key : string) (fields : list (string * json)) : option json :=
  match fields with
  | [] => None
  | (k, v) :: rest => if String.eqb k key then Some v else assoc key rest
  end.

(** [x.get(key, default)]: defined on dicts only; on any other value the
    attribute lookup [.get] raises [AttributeError]. *)
Definition get (x : json) (key : string) (default : json) : option json :=
  match x with
  | JObj fields => Some (match assoc key fields with Some v => v | None => default end)
  | _ => None
  end.

(** Truthiness of a string: [if s:] holds iff [s] is not empty. *)
Definition truthy_str (s : string) : bool :=
  match s with EmptyString => false | String _ _ => true end.

(** [len(s)] for a string: the number of its characters. In UTF-8 a byte
    [10xxxxxx] continues a character and every other byte starts one. *)
Definition is_continuation (c : Ascii.ascii) : bool :=
  let n := Ascii.nat_of_ascii c in (128 <=? n) && (n <? 192).

Fixpoint len (s : string) : nat :=
  match s with
  | EmptyString => 0
  | String c rest => (if is_continuation c then 0 else 1) + len rest
  end.

(** [str.strip()] removes leading and trailing white space: the
    characters for which [str.isspace()] holds. These are U+0009..U+000D
    and U+001C..U+0020, one byte each ([is_space]); U+0085 and U+00A0, the
    bytes C2 85 and C2 A0 ([is_space2]); and U+1680 (E1 9A 80),
    U+2000..U+200A, U+2028, U+2029 and U+202F (E2 80 followed by 80..8A,
    A8, A9 or AF), U+205F (E2 81 9F) and U+3000 (E3 80 80)
    ([is_space3]). *)
Definition is_space (c : Ascii.ascii) : bool :=
  let n := Ascii.nat_of_ascii c in
  ((9 <=? n) && (n <=? 13)) || ((28 <=? n) && (n <=? 32)).

Definition is_space2 (c d : Ascii.ascii) : bool :=
  let c := Ascii.nat_of_ascii c in
  let d := Ascii.nat_of_ascii d in
  (c =? 194) && ((d =? 133) || (d =? 160)).

Definition is_space3 (c d e : Ascii.ascii) : bool :=
  let c := Ascii.nat_of_ascii c in
  let d := Ascii.nat_of_ascii d in
  let e := Ascii.nat_of_ascii e in
  ((c =? 225) && (d =? 154) && (e =? 128))
  || ((c =? 226) && (d =? 128)
      && (((128 <=? e) && (e <=? 138)) || (e =? 168) || (e =? 169) || (e =? 175)))
  || ((c =? 226) && (d =? 129) && (e =? 159))
  || ((c =? 227) && (d =? 128) && (e =? 128)).

Fixpoint lstrip (s : string) : string :=
  match s with
  | EmptyString => EmptyString
  | String c rest =>
      if is_space c then lstrip rest
      else
        match rest with
        | EmptyString => s
        | String d rest2 =>
            if is_space2 c d then lstrip rest2
            else
              match rest2 with
              | EmptyString => s
              | String e rest3 => if is_space3 c d e then lstrip rest3 else s
              end
        end
  end.

(** A string made of white space only. No white-space character starts
    with a continuation byte, so a suffix that is blank starts at a
    character boundary. *)
Definition blank (s : string) : bool :=
  match lstrip s with EmptyString => true | String _ _ => false end.

Fixpoint rstrip (s : string) : string :=
  match s with
  | EmptyString => EmptyString
  | String c rest => if blank s then EmptyString else String c (rstrip rest)
  end.

Definition strip (s : string) : string := rstrip (lstrip s).

(** [s.replace(old, new)] for a non-empty [old]: leftmost non-overlapping
    occurrences; [skip] counts the bytes of a match still to drop. *)
Fixpoint replace_from (old new : string) (skip : nat) (s : string) : string :=
  match s with
  | EmptyString => EmptyString
  | String c rest =>
      match skip with
      | S k => replace_from old new k rest
      | O =>
          if String.prefix old s
          then new +:+ replace_from old new (String.length old - 1) rest
          else String c (replace_from old new 0 rest)
      end
  end.

Definition replace (old new s : string) : string := replace_from old new 0 s.

(** [t in s] for two strings: [t] occurs in [s]. *)
Fixpoint is_substring (t s : string) : bool :=
  String.prefix t s ||
  match s with
  | EmptyString => false
  | String _ rest => is_substring t rest
  end.

(** [x in s] where [s] is a string: [x] must be a string too, or
    [TypeError] is raised. *)
Definition in_str (x : json) (s : string) : option bool :=
  match x with
  | JStr t => Some (is_substring t s)
  | _ => None
  end.

(** [len(x)]: defined on strings, lists and dicts. *)
Definition has_len (x : json) : bool :=
  match x with
  | JStr _ | JArr _ | JObj _ => true
  | _ => false
  end.

(** [list.extend(x)] appends what iterating over [x] yields: the items of
    a list, the keys of a dict, the characters of a string; any other
    value is not iterable ([TypeError]). *)
Definition continues (s : string) : bool :=
  match s with String d _ => is_continuation d | EmptyString => false end.

Fixpoint chars (s : string) : list json :=
  match s with
  | EmptyString => []
  | String c rest =>
      match chars rest with
      | JStr first :: others =>
          if continues rest then JStr (String c first) :: others
          else JStr (String c EmptyString) :: JStr first :: others
      | others => JStr (String c EmptyString) :: others
      end
  end.

Definition iter (x : json) : option (list json) :=
  match x with
  | JArr items => Some items
  | JObj fields => Some (map (fun kv => JStr (fst kv)) fields)
  | JStr s => Some (chars s)
  | _ => None
  end.

(** [l[:k]] for an integer [k]: the first [k] items when [k >= 0], all but
    the last [-k] items when [k < 0]. *)
Definition slice_to {A} (k : Z) (l : list A) : list A :=
  if (0 <=? k)%Z then firstn (Z.to_nat k) l
  else firstn (length l - Z.to_nat (- k)) l.

End py.

Import py.

(* ===================================================================== *)
(** * Dates and times *)
(* ===================================================================== *)

Module dt.

Local Open Scope Z_scope.

(** A [datetime.datetime]: the wall-clock reading in microseconds since
    1970-01-01T00:00:00 of its own time zone, and its UTC offset in
    microseconds ([None] for a naive datetime, one without [tzinfo]). *)
Record datetime : Type := { wall : Z; utcoffset : option Z }.

Definition us_per_day : Z := 86400 * 1000000.

(** [datetime.now(timezone.utc)] when the clock reads [t] microseconds
    since the epoch. *)
Definition now_utc (t : Z) : datetime := {| wall := t; utcoffset := Some 0 |}.

(** [d - timedelta(days=n)] keeps the time zone. *)
Definition minus_days (d : datetime) (n : Z) : datetime :=
  {| wall := wall d - n * us_per_day; utcoffset := utcoffset d |}.

(** The instant an aware datetime denotes, in microseconds since the epoch. *)
Definition instant (d : datetime) : option Z :=
  match utcoffset d with Some off => Some (wall d - off) | None => None end.

(** [a > b]: aware datetimes compare by instant, naive ones by wall clock;
    comparing a naive with an aware datetime raises [TypeError]. *)
Definition gt (a b : datetime) : option bool :=
  match utcoffset a, utcoffset b with
  | Some oa, Some ob => Some (wall b - ob <? wall a - oa)
  | None, None => Some (wall b <? wall a)
  | _, _ => None
  end.

(** [d.date()] as the number of days since 1970-01-01 (a [datetime.date]);
    [date - timedelta(days=i)] is then plain subtraction. *)
Definition date (d : datetime) : Z := wall d / us_per_day.

End dt.

(** What the program takes from its libraries and the host, kept abstract:
    the ISO-8601 codec of [datetime], [strftime('%Y-%m-%d')] on a date, the
    JSON text parser applied to a model response, and the UTC offset (in
    microseconds) that the [US/Eastern] zone has at a given instant. *)
Class Platform : Type := {
  fromisoformat : string -> option dt.datetime;
  isoformat : dt.datetime -> string;
  strftime_ymd : Z -> string;
  json_loads : string -> option json;
  eastern_utcoffset : Z -> Z
}.

(** [datetime.now(pytz.timezone('US/Eastern'))] at clock reading [t]. *)
Definition now_eastern {P : Platform} (t : Z) : dt.datetime :=
  {| dt.wall := (t + eastern_utcoffset t)%Z; dt.utcoffset := Some (eastern_utcoffset t) |}.

(* ===================================================================== *)
(** * The retry loop shared by every Gemini call *)
(* ===================================================================== *)

Module retry.

Inductive log_level : Type := INFO | WARNING | ERROR.

(** What a wrapper does to the outside world, in order. *)
Inductive event : Type :=
| Call                      (* model.generate_content(prompt) *)
| Sleep (seconds : Q)       (* time.sleep(seconds) *)
| Log (level : log_level).  (* logging.info / warning / error *)

(** One invocation of [model.generate_content(prompt)] followed by the read
    of [response.text]. *)
Inductive api_outcome : Type :=
| ApiError                  (* generate_content raised *)
| NoText                    (* a response came back, reading .text raised *)
| Text (s : string).        (* response.text *)

(** [random.uniform(a, b)] is [a + (b - a) * random.random()]; [r] is the
    value [random.random()] returned. *)
Definition uniform (a b r : Q) : Q := Qplus a (Qmult (Qminus b a) r).

(** [(2 ** attempt) + random.uniform(0, 1)] *)
Definition backoff (attempt : Z) (r : Q) : Q :=
  Qplus (inject_Z (2 ^ attempt)) (uniform 0 1 r).

(** How many times the service was invoked in a trace. *)
Fixpoint calls (tr : list event) : nat :=
  match tr with
  | [] => 0
  | Call :: rest => S (calls rest)
  | _ :: rest => calls rest
  end.

Section loop.
Context {T : Type}.
(** [max_retries], the [try] block as a function of the current value of
    [attempt] (the events it performs, then the value it returns, or
    [None] when it raises), what happens between a failed attempt and
    the next one, and the value returned once the attempts are used up. *)
Variable max_retries : Z.
Variable try_block : Z -> list event * option T.
Variable before_retry : Z -> list event.
Variable sentinel : T.

(** <<
    attempt = 0
    while attempt < max_retries:
        try:
            ...; return value
        except Exception as e:
            attempt += 1
            if attempt >= max_retries:
                logging.error(...); return sentinel
            ...; time.sleep(...)
    return sentinel
    >>
    [fuel] bounds the number of iterations; [None] is "fuel ran out". *)
Fixpoint while_attempt (fuel : nat) (attempt : Z) : option (list event * T) :=
  match fuel with
  | O => None
  | S fuel' =>
      if (attempt <? max_retries)%Z then
        let '(done, result) := try_block attempt in
        match result with
        | Some value => Some (done, value)
        | None =>
            let attempt := (attempt + 1)%Z in
            if (attempt >=? max_retries)%Z then
              Some (done ++ [Log ERROR], sentinel)
            else
              match while_attempt fuel' attempt with
              | Some (rest, value) => Some (done ++ before_retry attempt ++ rest, value)
              | None => None
              end
        end
      else Some ([], sentinel)
  end.

(** The loop started at [attempt = 0], with one more iteration than it
    can ever need ([retry_fuel_enough] below: the fuel never runs out,
    so the last branch is never taken). *)
Definition run : list event * T :=
  match while_attempt (S (Z.to_nat max_retries)) 0 with
  | Some outcome => outcome
  | None => ([], sentinel)
  end.
End loop.

(** The values [random.random()] returns during a call, by the place of the
    draw: [rng (2 * a)] is drawn inside the [try] block of the attempt made
    at [attempt = a] (only [generate_axios_summary] draws there), and
    [rng (2 * a + 1)] for the back-off that follows it. *)
Definition draw_in_try (rng : nat -> Q) (attempt : Z) : Q :=
  rng (2 * Z.to_nat attempt)%nat.
Definition draw_for_backoff (rng : nat -> Q) (attempt : Z) : Q :=
  rng (2 * Z.to_nat (attempt - 1) + 1)%nat.

(** [time.sleep((2 ** attempt) + random.uniform(0, 1))] before the next
    attempt, preceded by a warning where the source logs one. *)
Definition sleep_before_retry (warn : bool) (rng : nat -> Q) (attempt : Z) : list event :=
  (if warn then [Log WARNING] else [])
  ++ [Sleep (backoff attempt (draw_for_backoff rng attempt))].

End retry.

Import retry.

(* ===================================================================== *)
(** * Records of the pipeline *)
(* ===================================================================== *)

(** An entry of a parsed feed. Every field may be missing
    ([entry.get(key, default)]). *)
Module entry.
Record t : Type := {
  link : option string;
  title : option string;
  summary : option string;
  published : option string
}.
End entry.

(** A candidate article, the dict built in [fetch_news_from_sources]. *)
Module candidate.
Record t : Type := {
  source : string;
  title : string;
  link : string;
  date : string;
  summary_text : string;
  is_full_text : bool
}.
End candidate.

(** An enriched article, the dict built in [process_single_article];
    [generate_pdf] later stores a ['pdf_link'] in the same dict. *)
Module article.
Record t : Type := {
  source : string;
  date : string;
  title : string;
  summary : string;
  link : string;
  is_full_text : bool;
  sentiment : json;
  entities : json;
  pdf_link : option Z
}.

(** The JSON object [json.dump] writes for the dict, keys in insertion
    order. *)
Definition to_json (a : t) : json :=
  JObj ([("source", JStr (source a)); ("date", JStr (date a));
         ("title", JStr (title a)); ("summary", JStr (summary a));
         ("link", JStr (link a)); ("is_full_text", JBool (is_full_text a));
         ("sentiment", sentiment a); ("entities", entities a)]
        ++ match pdf_link a with
           | Some n => [("pdf_link", JInt n)]
           | None => []
           end).

Definition set_pdf_link (n : Z) (a : t) : t :=
  {| source := source a; date := date a; title := title a;
     summary := summary a; link := link a; is_full_text := is_full_text a;
     sentiment := sentiment a; entities := entities a; pdf_link := Some n |}.
End article.

(** A file of the archive directory: what [json.load] returns on it ([None]
    when reading or decoding raises), what [os.path.getmtime] returns
    ([None] when it raises) and whether [os.remove] succeeds on it. *)
Record file : Type := {
  content : option json;
  mtime : option Q;
  removable : bool
}.

(** The persisted state: [processed_urls.json] ([None] when the file is
    missing or is not JSON, the two cases the loader catches) and the
    [daily_news_data] directory by file name ([None] when it does not
    exist). *)
Record disk : Type := {
  processed_urls_json : option json;
  daily_news_data : option (gmap string file)
}.

(** [a < b] on rationals, as a boolean. *)
Definition Qltb (a b : Q) : bool := negb (Qle_bool b a).

(* ===================================================================== *)
(** * utility.py *)
(* ===================================================================== *)

Module utility.
Section with_platform.
Context {P : Platform}.

(** [response.text.strip().replace("```json", "").replace("```", "")] *)
Definition cleaned_text (text : string) : string :=
  py.replace "```" "" (py.replace "```json" "" (py.strip text)).

(** The [try] block of [analyze_content]. *)
Definition analyze_content_try (api : nat -> api_outcome) (attempt : Z)
  : list event * option json :=
  match api (Z.to_nat attempt) with
  | Text s => ([Call], json_loads (cleaned_text s))
  | _ => ([Call], None)
  end.

Definition analyze_content_failed : json :=
  JObj [("sentiment", JStr "Unknown"); ("entities", JObj [])].

(** [analyze_content(full_article_text, max_retries=3)]. The article text
    only enters the prompt; [api n] is what the [n]-th invocation of the
    service does during this call and [rng] the random draws of the call.
    The result is the trace of the call and the value returned. *)
Definition analyze_content (api : nat -> api_outcome) (rng : nat -> Q)
    (max_retries : Z) : list event * json :=
  let '(tr, v) := retry.run max_retries (analyze_content_try api)
                    (sleep_before_retry false rng) analyze_content_failed in
  (Log INFO :: tr, v).

(** [generate_hedge_fund_takeaways(summarized_articles, time_frame,
    max_retries=3)]: the articles and the time frame only enter the
    prompt, which reads ['source'], ['title'] and ['summary'] of each
    article. Python's [None] is [None]. *)
Definition takeaways_try (api : nat -> api_outcome) (attempt : Z)
  : list event * option (option string) :=
  match api (Z.to_nat attempt) with
  | Text s => ([Call; Log INFO], Some (Some s))
  | NoText => ([Call; Log INFO], None)
  | ApiError => ([Call], None)
  end.

Definition generate_hedge_fund_takeaways (api : nat -> api_outcome)
    (rng : nat -> Q) (summarized_articles : list article.t) (max_retries : Z)
  : list event * option string :=
  let '(tr, v) := retry.run max_retries (takeaways_try api)
                    (sleep_before_retry true rng) None in
  (Log INFO :: tr, v).

(** [get_company_selections(articles, max_retries=3)]: returns
    [data.get('companies')], which is [None] ([JNull]) when the key is
    missing; [len(data.get('companies', []))] is evaluated first, inside
    the [try]. *)
Definition company_selections_try (api : nat -> api_outcome) (attempt : Z)
  : list event * option json :=
  match api (Z.to_nat attempt) with
  | Text s =>
      match data ← json_loads (cleaned_text s);
            listed ← py.get data "companies" (JArr []);
            if py.has_len listed then py.get data "companies" JNull else None
      with
      | Some companies => ([Call; Log INFO], Some companies)
      | None => ([Call], None)
      end
  | _ => ([Call], None)
  end.

Definition get_company_selections (api : nat -> api_outcome) (rng : nat -> Q)
    (articles : list article.t) (max_retries : Z) : list event * json :=
  let '(tr, v) := retry.run max_retries (company_selections_try api)
                    (sleep_before_retry false rng) JNull in
  (Log INFO :: tr, v).

(** [generate_investment_memo(articles, company_info, financial_data,
    max_retries=3)]; the result is [None] when building the prompt raises,
    [Some (trace, memo)] otherwise. Before the loop, and outside any [try],
    the function reads [company_info.get('ticker')] and selects the
    articles whose summary mentions the ticker or the name:
    [company_info.get('ticker') in a['summary'] or
     company_info.get('name') in a['summary']]. *)
Definition mentions (company_info : json) (a : article.t) : option bool :=
  ticker ← py.get company_info "ticker" JNull;
  by_ticker ← py.in_str ticker (article.summary a);
  if by_ticker : bool then Some true
  else name ← py.get company_info "name" JNull;
       py.in_str name (article.summary a).

Definition memo_context (company_info : json) (articles : list article.t)
  : option (list article.t) :=
  _ ← py.get company_info "ticker" JNull;
  flags ← mapM (mentions company_info) articles;
  Some (map fst (filter (fun af => snd af = true) (zip articles flags))).

Definition memo_try (api : nat -> api_outcome) (attempt : Z)
  : list event * option (option string) :=
  match api (Z.to_nat attempt) with
  | Text s => ([Call; Log INFO], Some (Some s))
  | NoText => ([Call; Log INFO], None)
  | ApiError => ([Call], None)
  end.

Definition generate_investment_memo (api : nat -> api_outcome) (rng : nat -> Q)
    (articles : list article.t) (company_info financial_data : json)
    (max_retries : Z) : option (list event * option string) :=
  _ ← memo_context company_info articles;
  let '(tr, v) := retry.run max_retries (memo_try api)
                    (sleep_before_retry false rng) None in
  Some (Log INFO :: tr, v).

(** [f"news_{date_str}.json"] for a day. *)
Definition archive_name (day : Z) : string :=
  "news_" +:+ strftime_ymd day +:+ ".json".

(** The body of the loop over [range(days_to_analyze)]: what the file of
    day [today - i] adds to [all_articles]. *)
Definition load_day (data_dir : option (gmap string file)) (today i : Z)
  : list json :=
  let target_date := (today - i)%Z in
  let json_filename := archive_name target_date in
  match data_dir ≫= (.!! json_filename) with
  | Some f =>                                  (* os.path.exists *)
      match content f ≫= py.iter with
      | Some daily_articles => daily_articles  (* all_articles.extend *)
      | None => []                             (* except Exception: logged *)
      end
  | None => []
  end.

(** [load_archived_news(data_dir, days_to_analyze)] when the clock reads
    [now] microseconds since the epoch. *)
Definition load_archived_news (data_dir : option (gmap string file))
    (now : Z) (days_to_analyze : Z) : list json :=
  let today := dt.date (dt.now_utc now) in
  concat (map (load_day data_dir today) (seqZ 0 days_to_analyze)).

(** One iteration of the loop over [os.listdir(directory)], on the
    directory as it is so far and the count of deleted files. *)
Definition sweep (cutoff : Q) (filename : string) (f : file)
    (acc : gmap string file * Z) : gmap string file * Z :=
  match mtime f with
  | Some modified =>
      if Qltb modified cutoff then
        if removable f
        then (delete filename (fst acc), (snd acc + 1)%Z)
        else acc                               (* os.remove raised: logged *)
      else acc
  | None => acc                                (* getmtime raised: logged *)
  end.

(** [cleanup_old_files(directory, days_to_keep)] when [time.time()] reads
    [now] seconds: the directory afterwards and [files_deleted]. *)
Definition cleanup_old_files (directory : option (gmap string file))
    (days_to_keep : Z) (now : Q) : option (gmap string file) * Z :=
  match directory with
  | None => (None, 0%Z)                        (* not os.path.isdir: return *)
  | Some files =>
      let cutoff := Qminus now (inject_Z (days_to_keep * 86400)) in
      let '(kept, files_deleted) := map_fold (sweep cutoff) (files, 0%Z) files in
      (Some kept, files_deleted)
  end.

End with_platform.
End utility.

(* ===================================================================== *)
(** * daily_report.py *)
(* ===================================================================== *)

Module news_source.
Record t : Type := { name : string; url : string }.
End news_source.

(** Everything a run of the daily report obtains from outside. *)
Record world : Type := {
  (** [feedparser.parse(rss_url).entries] *)
  feedparser_parse : string -> list entry.t;
  (** [Article(url).download(); .parse(); .text], [None] when this raises *)
  newspaper_text : string -> option string;
  (** the Gemini service during the summarization, resp. the analysis, of
      the [i]-th submitted article: outcome of the [n]-th invocation *)
  summary_api : nat -> nat -> api_outcome;
  analysis_api : nat -> nat -> api_outcome;
  takeaways_api : nat -> api_outcome;
  random_random : nat -> Q;
  (** the order in which [as_completed] yields the submitted futures *)
  completion_order : list nat;
  (** clock readings, microseconds since the epoch: at the purge, when the
      [k]-th completed result is recorded, when the archive file is named *)
  clock_purge : Z;
  clock_completed : nat -> Z;
  clock_archive : Z;
  (** [generate_pdf], the e-mail step and the removal of the temporary file
      all return ([false]: one of them raises); the link id [pdf.add_link()]
      gave the [i]-th article of the list *)
  report_steps_return : bool;
  pdf_add_link : nat -> Z;
  (** last-modified time the host gives the archive file, and [time.time()]
      in [cleanup_old_files], in seconds *)
  archive_mtime : Q;
  clock_cleanup : Q
}.

(** How a run ends: it returns, or an exception leaves [run_news_report]. *)
Inductive run_end : Type := Returned | Raised.

Module daily_report.
Section with_platform.
Context {P : Platform}.

Definition NEWS_SOURCES : list news_source.t :=
  map (fun p => {| news_source.name := fst p; news_source.url := snd p |})
  [ ("BioPharma Dive", "https://www.biopharmadive.com/feeds/news/");
    ("Automotive Dive", "https://www.automotivedive.com/feeds/news/");
    ("CFO Dive", "https://www.cfodive.com/feeds/news/");
    ("C-Store Dive", "https://www.cstoredive.com/feeds/news/");
    ("Banking Dive", "https://www.bankingdive.com/feeds/news/");
    ("CIO Dive", "https://www.ciodive.com/feeds/news/");
    ("CFO", "https://www.cfo.com/feeds/news/");
    ("Construction Dive", "https://www.constructiondive.com/feeds/news/");
    ("Cybersecurity Dive", "https://www.cybersecuritydive.com/feeds/news/");
    ("Education Dive", "https://www.educationdive.com/feeds/news/");
    ("Facilities Dive", "https://www.facilitiesdive.com/feeds/news/");
    ("Fashion Dive", "https://www.fashiondive.com/feeds/news/");
    ("Food Dive", "https://www.fooddive.com/feeds/news/");
    ("Grocery Dive", "https://www.grocerydive.com/feeds/news/");
    ("Healthcare Dive", "https://www.healthcaredive.com/feeds/news/");
    ("Hotel Dive", "https://www.hoteldive.com/feeds/news/");
    ("HR Dive", "https://www.hrdive.com/feeds/news/");
    ("K-12 Dive", "https://www.k12dive.com/feeds/news/");
    ("Legal Dive", "https://www.legaldive.com/feeds/news/");
    ("Manufacturing Dive", "https://www.manufacturingdive.com/feeds/news/");
    ("Marketing Dive", "https://www.marketingdive.com/feeds/news/");
    ("MedTech Dive", "https://www.medtechdive.com/feeds/news/");
    ("Multifamily Dive", "https://www.multifamilydive.com/feeds/news/");
    ("Packaging Dive", "https://www.packagingdive.com/feeds/news/");
    ("Payments Dive", "https://www.paymentsdive.com/feeds/news/");
    ("Restaurant Dive", "https://www.restaurantdive.com/feeds/news/");
    ("Retail Dive", "https://www.retaildive.com/feeds/news/");
    ("Smart Cities Dive", "https://www.smartcitiesdive.com/feeds/news/");
    ("Software Dive", "https://www.softwaredive.com/feeds/news/");
    ("Supply Chain Dive", "https://www.supplychaindive.com/feeds/news/");
    ("Pharma Voice", "https://www.pharmavoice.com/feeds/news/");
    ("Social Media Today", "https://www.socialmediatoday.com/feeds/news/");
    ("Trucking Dive", "https://www.truckingdive.com/feeds/news/");
    ("Transport Dive", "https://www.transportdive.com/feeds/news/");
    ("Utility Dive", "https://www.utilitydive.com/feeds/news/");
    ("Waste Dive", "https://www.wastedive.com/feeds/news/") ].

Definition RETENTION_DAYS : Z := 14.

(** [generate_axios_summary(full_article_text, max_retries=3)]: on a
    response the function sleeps [random.uniform(1, 3)] seconds and then
    reads [response.text]. Python's [None] is [None]. *)
Definition axios_try (api : nat -> api_outcome) (rng : nat -> Q) (attempt : Z)
  : list event * option (option string) :=
  let pause := Sleep (uniform 1 3 (draw_in_try rng attempt)) in
  match api (Z.to_nat attempt) with
  | Text s => ([Call; pause], Some (Some s))
  | NoText => ([Call; pause], None)
  | ApiError => ([Call], None)
  end.

Definition generate_axios_summary (api : nat -> api_outcome) (rng : nat -> Q)
    (max_retries : Z) : list event * option string :=
  retry.run max_retries (axios_try api rng) (sleep_before_retry true rng) None.

(** Lines 124-142: which text stands for the article. [downloaded] is the
    outcome of the [try] block's download and parse. *)
Definition resolve_text (rss_summary : string) (downloaded : option string)
  : string * bool :=
  match downloaded with
  | Some text =>
      if py.truthy_str text && (py.len rss_summary <? py.len text)
      then (text, true)
      else (rss_summary, false)
  | None => (rss_summary, false)
  end.

(** The body of the loop over [feed.entries[:max_per_source]]: the
    candidate appended for an entry, if any. *)
Definition fetch_entry (download : string -> option string)
    (source_name : string) (processed_urls : gset string) (e : entry.t)
  : option candidate.t :=
  let article_url := default "" (entry.link e) in
  if decide (article_url ∈ processed_urls) then None
  else
    let rss_summary := default "" (entry.summary e) in
    if negb (py.truthy_str article_url) then None
    else
      let '(text_for_summary, is_full_text) :=
        resolve_text rss_summary (download article_url) in
      if py.truthy_str text_for_summary && (100 <? py.len text_for_summary)
      then Some {| candidate.source := source_name;
                   candidate.title := default "No Title" (entry.title e);
                   candidate.link := article_url;
                   candidate.date := default "" (entry.published e);
                   candidate.summary_text := text_for_summary;
                   candidate.is_full_text := is_full_text |}
      else None.

Definition fetch_source (parse : string -> list entry.t)
    (download : string -> option string) (max_per_source : Z)
    (processed_urls : gset string) (src : news_source.t) : list candidate.t :=
  match parse (news_source.url src) with
  | [] => []                                   (* if not feed.entries: continue *)
  | entries =>
      omap (fetch_entry download (news_source.name src) processed_urls)
           (py.slice_to max_per_source entries)
  end.

(** [fetch_news_from_sources(sources, max_per_source=10, processed_urls)] *)
Definition fetch_news_from_sources (parse : string -> list entry.t)
    (download : string -> option string) (sources : list news_source.t)
    (max_per_source : Z) (processed_urls : gset string) : list candidate.t :=
  concat (map (fetch_source parse download max_per_source processed_urls) sources).

(** [process_single_article(article_details)]: [None] is Python's [None],
    returned when the summary is empty or missing and when the [try]
    block raises. *)
Definition process_single_article (summary_service analysis_service : nat -> api_outcome)
    (rng : nat -> Q) (article_details : candidate.t) : option article.t :=
  match snd (generate_axios_summary summary_service rng 3) with
  | Some ai_summary =>
      if py.truthy_str ai_summary then
        let analysis_data := snd (utility.analyze_content analysis_service rng 3) in
        sentiment ← py.get analysis_data "sentiment" (JStr "Unknown");
        entities ← py.get analysis_data "entities" (JObj []);
        Some {| article.source := candidate.source article_details;
                article.date := candidate.date article_details;
                article.title := candidate.title article_details;
                article.summary := ai_summary;
                article.link := candidate.link article_details;
                article.is_full_text := candidate.is_full_text article_details;
                article.sentiment := sentiment;
                article.entities := entities;
                article.pdf_link := None |}
      else None
  | None => None
  end.

(** Lines 294-298: the ledger as loaded. A missing or undecodable file
    gives the empty mapping; a JSON value that is not an object makes
    [.items()] raise on line 301. *)
Definition load_history (d : disk) : option (gmap string json) :=
  match processed_urls_json d with
  | None => Some ∅
  | Some (JObj fields) => Some (list_to_map fields)
  | Some _ => None
  end.

(** [datetime.fromisoformat(timestamp) > cutoff_date]: [TypeError] on a
    value that is not a string, [ValueError] on a string that is not a
    timestamp, [TypeError] on a timestamp without UTC offset. *)
Definition newer_than (cutoff_date : dt.datetime) (timestamp : json) : option bool :=
  match timestamp with
  | JStr s => parsed ← fromisoformat s; dt.gt parsed cutoff_date
  | _ => None
  end.

(** Lines 300-301, the purge: [urls_to_keep] when the clock reads [now]. *)
Definition urls_to_keep (processed_articles_history : gmap string json)
    (now : Z) : option (gmap string json) :=
  let cutoff_date := dt.minus_days (dt.now_utc now) RETENTION_DAYS in
  if decide (map_Forall (fun _ timestamp => is_Some (newer_than cutoff_date timestamp))
                        processed_articles_history)
  then Some (filter (fun entry => newer_than cutoff_date (snd entry) = Some true)
                    processed_articles_history)
  else None.

(** [json.dump(urls_to_keep, f)] into [processed_urls.json]. *)
Definition save_ledger (ledger : gmap string json) (d : disk) : disk :=
  {| processed_urls_json := Some (JObj (map_to_list ledger));
     daily_news_data := daily_news_data d |}.

(** Lines 322-326, one iteration of the loop over [as_completed]: the
    [k]-th future to complete is that of the [i]-th submitted article. *)
Definition record_result (w : world) (all_raw_articles : list candidate.t)
    (k i : nat) (acc : list article.t * gmap string json)
  : list article.t * gmap string json :=
  match all_raw_articles !! i with
  | Some article_details =>
      match process_single_article (summary_api w i) (analysis_api w i)
              (random_random w) article_details with
      | Some result =>
          (fst acc ++ [result],
           <[article.link result :=
               JStr (isoformat (dt.now_utc (clock_completed w k)))]> (snd acc))
      | None => acc
      end
  | None => acc
  end.

Fixpoint as_completed (w : world) (all_raw_articles : list candidate.t)
    (k : nat) (order : list nat) (acc : list article.t * gmap string json)
  : list article.t * gmap string json :=
  match order with
  | [] => acc
  | i :: rest =>
      as_completed w all_raw_articles (S k) rest
        (record_result w all_raw_articles k i acc)
  end.

(** Lines 353-357: the archive file of the day. *)
Definition write_archive (now : Z) (modified : Q)
    (summarized_articles : list article.t) (d : disk) : disk :=
  let today_str := strftime_ymd (dt.date (now_eastern now)) in
  let json_filename := "news_" +:+ today_str +:+ ".json" in
  let written :=
    {| content := Some (JArr (map article.to_json summarized_articles));
       mtime := Some modified;
       removable := true |} in
  {| processed_urls_json := processed_urls_json d;
     daily_news_data :=
       Some (<[json_filename := written]> (default ∅ (daily_news_data d))) |}.

Definition cleanup (now : Q) (d : disk) : disk :=
  {| processed_urls_json := processed_urls_json d;
     daily_news_data := fst (utility.cleanup_old_files (daily_news_data d) 400 now) |}.

(** [run_news_report()] on the persisted state [d]. *)
Definition run_news_report (w : world) (d : disk) : disk * run_end :=
  match load_history d ≫= (fun history => urls_to_keep history (clock_purge w)) with
  | None => (d, Raised)
  | Some kept =>
      let processed_urls_set := dom kept in
      let all_raw_articles :=
        fetch_news_from_sources (feedparser_parse w) (newspaper_text w)
          NEWS_SOURCES 10 processed_urls_set in
      match all_raw_articles with
      | [] => (save_ledger kept d, Returned)
      | _ =>
          let '(summarized_articles, ledger) :=
            as_completed w all_raw_articles 0 (completion_order w) ([], kept) in
          match summarized_articles with
          | [] => (d, Returned)
          | _ =>
              let investment_takeaways :=
                utility.generate_hedge_fund_takeaways (takeaways_api w)
                  (random_random w) summarized_articles 3 in
              if report_steps_return w then
                let summarized_articles :=
                  imap (fun i a => article.set_pdf_link (pdf_add_link w i) a)
                       summarized_articles in
                (cleanup (clock_cleanup w)
                   (write_archive (clock_archive w) (archive_mtime w)
                      summarized_articles (save_ledger ledger d)),
                 Returned)
              else (d, Raised)
          end
      end
  end.

End with_platform.
End daily_report.

(* ===================================================================== *)
(** * collections.Counter and float formatting *)
(* ===================================================================== *)

Module collections.

(** Lists and dicts are unhashable: using one as a key raises
    [TypeError]. *)
Definition hashable (x : json) : bool :=
  match x with
  | JArr _ | JObj _ => false
  | _ => true
  end.

(** [==] between hashable JSON values; [True == 1] and [False == 0]. *)
Definition as_int (x : json) : option Z :=
  match x with
  | JBool b => Some (if b then 1 else 0)%Z
  | JInt n => Some n
  | _ => None
  end.

Definition key_eqb (x y : json) : bool :=
  match x, y with
  | JNull, JNull => true
  | JStr a, JStr b => String.eqb a b
  | _, _ =>
      match as_int x, as_int y with
      | Some a, Some b => Z.eqb a b
      | _, _ => false
      end
  end.

(** A [Counter]: keys in first-seen order with their counts. *)
Fixpoint tally (x : json) (counts : list (json * Z)) : list (json * Z) :=
  match counts with
  | [] => [(x, 1%Z)]
  | (k, n) :: rest =>
      if key_eqb k x then (k, (n + 1)%Z) :: rest else (k, n) :: tally x rest
  end.

Definition Counter (items : list json) : option (list (json * Z)) :=
  if forallb hashable items
  then Some (fold_left (fun counts x => tally x counts) items [])
  else None.

(** [counts.get(key, 0)] *)
Fixpoint get (counts : list (json * Z)) (key : json) : Z :=
  match counts with
  | [] => 0%Z
  | (k, n) :: rest => if key_eqb k key then n else get rest key
  end.

(** [sum(counts.values())] *)
Definition total (counts : list (json * Z)) : Z :=
  fold_right Z.add 0%Z (map snd counts).

(** [counts.most_common(n)]: by decreasing count, equal counts in
    first-seen order. *)
Fixpoint insert_by_count (kn : json * Z) (sorted : list (json * Z)) : list (json * Z) :=
  match sorted with
  | [] => [kn]
  | (k, n) :: rest =>
      if (n <? snd kn)%Z then kn :: sorted else (k, n) :: insert_by_count kn rest
  end.

Definition most_common (n : nat) (counts : list (json * Z)) : list (json * Z) :=
  firstn n (fold_left (fun sorted kn => insert_by_count kn sorted) counts []).

End collections.

Module pyfloat.

(** [a / b] on two integers below [2^53]: the double nearest to the
    quotient. *)
Definition of_int (a : Z) : float := PrimFloat.of_uint63 (Uint63.of_Z a).
Definition true_div (a b : Z) : float := PrimFloat.div (of_int a) (of_int b).

(** [m * 2^e * 10] rounded to the nearest integer, ties to even. *)
Definition tenths (m : positive) (e : Z) : Z :=
  let num := (10 * Z.pos m * 2 ^ Z.max 0 e)%Z in
  let den := (2 ^ Z.max 0 (- e))%Z in
  let q := (num / den)%Z in
  let r := (num mod den)%Z in
  match (2 * r ?= den)%Z with
  | Lt => q
  | Gt => (q + 1)%Z
  | Eq => if Z.even q then q else (q + 1)%Z
  end.

(** [f"{x:.1%}"]: [x * 100] in double precision, then the exact value of
    the product rounded to one decimal, then the percent sign. *)
Definition format_percent1 (x : float) : string :=
  match Prim2SF (PrimFloat.mul x (of_int 100)) with
  | S754_zero s => (if s then "-" else "") +:+ "0.0%"
  | S754_finite s m e =>
      let t := tenths m e in
      (if s then "-" else "") +:+ pretty (t / 10)%Z +:+ "." +:+ pretty (t mod 10)%Z +:+ "%"
  | S754_infinity s => (if s then "-" else "") +:+ "inf%"
  | S754_nan => "nan%"
  end.

End pyfloat.

(* ===================================================================== *)
(** * weekly_report.py *)
(* ===================================================================== *)

Module weekly_report.

Record sentiment_summary : Type := {
  Positive : string;
  Negative : string;
  Neutral : string
}.

Record top_entities : Type := {
  Top_Companies : list json;
  Top_People : list json;
  Top_Topics : list json
}.

(** [f"{sentiment_counts.get(label, 0) / total_sentiments:.1%}"
     if total_sentiments else "0%"] *)
Definition share (sentiment_counts : list (json * Z)) (total_sentiments : Z)
    (label : string) : string :=
  if (total_sentiments =? 0)%Z then "0%"
  else pyfloat.format_percent1
         (pyfloat.true_div (collections.get sentiment_counts (JStr label))
                           total_sentiments).

(** Lines 30-35: the names collected per category. [entities.items()]
    raises when [entities] is not a dict. *)
Definition add_entities (all_entities : list json * list json * list json)
    (entities : json) : option (list json * list json * list json) :=
  match entities with
  | JObj fields =>
      Some (fold_left
              (fun '(companies, people, topics) '(category, items) =>
                 match items with
                 | JArr names =>
                     if String.eqb category "companies" then (companies ++ names, people, topics)
                     else if String.eqb category "people" then (companies, people ++ names, topics)
                     else if String.eqb category "topics" then (companies, people, topics ++ names)
                     else (companies, people, topics)
                 | _ => (companies, people, topics)
                 end)
              fields all_entities)
  | _ => None
  end.

Fixpoint collect_entities (articles : list json)
    (all_entities : list json * list json * list json)
  : option (list json * list json * list json) :=
  match articles with
  | [] => Some all_entities
  | a :: rest =>
      entities ← py.get a "entities" (JObj []);
      all_entities ← add_entities all_entities entities;
      collect_entities rest all_entities
  end.

Definition top5 (names : list json) : option (list json) :=
  counts ← collections.Counter names;
  Some (map fst (collections.most_common 5 counts)).

(** [analyze_weekly_trends(articles)]; [None] when it raises. *)
Definition analyze_weekly_trends (articles : list json)
  : option (sentiment_summary * top_entities) :=
  sentiments ← mapM (fun a => py.get a "sentiment" (JStr "Unknown")) articles;
  sentiment_counts ← collections.Counter sentiments;
  let total_sentiments := collections.total sentiment_counts in
  let summary :=
    {| Positive := share sentiment_counts total_sentiments "Positive";
       Negative := share sentiment_counts total_sentiments "Negative";
       Neutral := share sentiment_counts total_sentiments "Neutral" |} in
  '(companies, people, topics) ← collect_entities articles ([], [], []);
  top_companies ← top5 companies;
  top_people ← top5 people;
  top_topics ← top5 topics;
  Some (summary,
        {| Top_Companies := top_companies; Top_People := top_people;
           Top_Topics := top_topics |}).

End weekly_report.

(* ===================================================================== *)
(** * A concrete platform *)
(* ===================================================================== *)

(** An instance of [Platform] on which the definitions above evaluate: the
    proleptic Gregorian calendar, timestamps in the layout
    [YYYY-MM-DDTHH:MM:SS[.ffffff][+HH:MM]] that [datetime.isoformat]
    writes, JSON texts made of objects, arrays, integers, the three
    literals and strings without escapes, and Eastern standard time. The
    theorems below hold for every platform; the examples use this one. *)
Module reference.

Local Open Scope Z_scope.

(** Days since 1970-01-01 of a civil date, and back. *)
Definition days_from_civil (y m d : Z) : Z :=
  let y := if m <=? 2 then y - 1 else y in
  let era := y / 400 in
  let yoe := y - era * 400 in
  let doy := (153 * (if 2 <? m then m - 3 else m + 9) + 2) / 5 + d - 1 in
  let doe := yoe * 365 + yoe / 4 - yoe / 100 + doy in
  era * 146097 + doe - 719468.

Definition civil_from_days (z : Z) : Z * Z * Z :=
  let z := z + 719468 in
  let era := z / 146097 in
  let doe := z - era * 146097 in
  let yoe := (doe - doe / 1460 + doe / 36524 - doe / 146096) / 365 in
  let doy := doe - (365 * yoe + yoe / 4 - yoe / 100) in
  let mp := (5 * doy + 2) / 153 in
  let d := doy - (153 * mp + 2) / 5 + 1 in
  let m := if mp <? 10 then mp + 3 else mp - 9 in
  ((yoe + era * 400 + (if m <=? 2 then 1 else 0)), m, d).

(** [n] in decimal, left-padded with zeros to [width] digits. *)
Fixpoint zeros (k : nat) : string :=
  match k with O => "" | S k => "0" +:+ zeros k end.

Definition padded (width : nat) (n : Z) : string :=
  let digits := pretty n in
  zeros (width - String.length digits) +:+ digits.

Definition ymd (day : Z) : string :=
  let '(y, m, d) := civil_from_days day in
  padded 4 y +:+ "-" +:+ padded 2 m +:+ "-" +:+ padded 2 d.

Definition us_per_second : Z := 1000000.

Definition offset_text (off : Z) : string :=
  let minutes := Z.abs off / (60 * us_per_second) in
  (if off <? 0 then "-" else "+") +:+ padded 2 (minutes / 60) +:+ ":"
    +:+ padded 2 (minutes mod 60).

Definition iso (d : dt.datetime) : string :=
  let day := dt.wall d / dt.us_per_day in
  let rest := dt.wall d mod dt.us_per_day in
  let seconds := rest / us_per_second in
  let micro := rest mod us_per_second in
  ymd day +:+ "T" +:+ padded 2 (seconds / 3600) +:+ ":"
    +:+ padded 2 (seconds / 60 mod 60) +:+ ":" +:+ padded 2 (seconds mod 60)
    +:+ (if micro =? 0 then "" else "." +:+ padded 6 micro)
    +:+ match dt.utcoffset d with Some off => offset_text off | None => "" end.

(** Reading fixed-width decimal fields. *)
Definition digit (c : Ascii.ascii) : option Z :=
  let n := Z.of_nat (Ascii.nat_of_ascii c) in
  if (48 <=? n) && (n <=? 57) then Some (n - 48) else None.

Fixpoint number (width : nat) (acc : Z) (s : string) : option (Z * string) :=
  match width with
  | O => Some (acc, s)
  | S w =>
      match s with
      | String c rest => v ← digit c; number w (acc * 10 + v) rest
      | EmptyString => None
      end
  end.

Definition expect (c : Ascii.ascii) (s : string) : option string :=
  match s with
  | String c' rest => if Ascii.eqb c c' then Some rest else None
  | EmptyString => None
  end.

Definition skip1 (s : string) : option string :=
  match s with String _ rest => Some rest | EmptyString => None end.

Definition fraction (s : string) : option (Z * string) :=
  match s with
  | String "."%char rest => number 6 0 rest
  | _ => Some (0, s)
  end.

Definition offset (s : string) : option (option Z) :=
  match s with
  | EmptyString => Some None
  | String sign rest =>
      sgn ← (if Ascii.eqb sign "+"%char then Some 1
             else if Ascii.eqb sign "-"%char then Some (-1) else None);
      '(hh, rest) ← number 2 0 rest;
      rest ← expect ":"%char rest;
      '(mm, rest) ← number 2 0 rest;
      match rest with
      | EmptyString => Some (Some (sgn * (hh * 60 + mm) * 60 * us_per_second))
      | _ => None
      end
  end.

Definition parse_iso (s : string) : option dt.datetime :=
  '(y, s) ← number 4 0 s;
  s ← expect "-"%char s;
  '(m, s) ← number 2 0 s;
  s ← expect "-"%char s;
  '(d, s) ← number 2 0 s;
  s ← skip1 s;
  '(hh, s) ← number 2 0 s;
  s ← expect ":"%char s;
  '(mi, s) ← number 2 0 s;
  s ← expect ":"%char s;
  '(ss, s) ← number 2 0 s;
  '(micro, s) ← fraction s;
  off ← offset s;
  if (1 <=? m) && (m <=? 12) && (1 <=? d) && (d <=? 31)
     && (hh <? 24) && (mi <? 60) && (ss <? 60)
  then Some {| dt.wall := days_from_civil y m d * dt.us_per_day
                          + ((hh * 60 + mi) * 60 + ss) * us_per_second + micro;
               dt.utcoffset := off |}
  else None.

(** A JSON reader and writer. [fuel] bounds the nesting and the number of
    items read; the text is read from the left and what follows the value
    is returned with it. *)
(** The white space [json.loads] skips between tokens: space, tab, line
    feed and carriage return. *)
Fixpoint ws (s : string) : string :=
  match s with
  | String c rest =>
      let n := Ascii.nat_of_ascii c in
      if ((n =? 32) || (n =? 9) || (n =? 10) || (n =? 13))%nat then ws rest else s
  | EmptyString => EmptyString
  end.

Definition quote : Ascii.ascii := Ascii.ascii_of_nat 34.
Definition backslash : Ascii.ascii := Ascii.ascii_of_nat 92.

Fixpoint read_string (s : string) : option (string * string) :=
  match s with
  | String c rest =>
      if Ascii.eqb c quote then Some (EmptyString, rest)
      else if Ascii.eqb c backslash then None
      else '(body, rest) ← read_string rest; Some (String c body, rest)
  | EmptyString => None
  end.

Fixpoint read_digits (acc : Z) (s : string) : Z * string :=
  match s with
  | String c rest =>
      match digit c with
      | Some v => read_digits (acc * 10 + v) rest
      | None => (acc, s)
      end
  | EmptyString => (acc, s)
  end.

Definition read_int (s : string) : option (json * string) :=
  match s with
  | String c rest =>
      if Ascii.eqb c "-"%char then
        match rest with
        | String c' _ =>
            _ ← digit c'; let '(n, rest) := read_digits 0 rest in Some (JInt (- n), rest)
        | EmptyString => None
        end
      else _ ← digit c; let '(n, rest) := read_digits 0 s in Some (JInt n, rest)
  | EmptyString => None
  end.

Definition read_word (word : string) (v : json) (s : string) : option (json * string) :=
  if String.prefix word s
  then Some (v, String.substring (String.length word)
                  (String.length s - String.length word) s)
  else None.

Definition after_item {A} (close : Ascii.ascii) (more : string -> option (list A * string))
    (item : A) (s : string) : option (list A * string) :=
  match ws s with
  | String c rest =>
      if Ascii.eqb c ","%char then '(items, rest) ← more rest; Some (item :: items, rest)
      else if Ascii.eqb c close then Some ([item], rest)
      else None
  | EmptyString => None
  end.

Fixpoint read_value (fuel : nat) (s : string) : option (json * string) :=
  match fuel with
  | O => None
  | S fuel =>
      match ws s with
      | String c rest =>
          if Ascii.eqb c "{"%char then
            match ws rest with
            | String "}"%char rest => Some (JObj [], rest)
            | _ => '(fields, rest) ← read_members fuel rest; Some (JObj fields, rest)
            end
          else if Ascii.eqb c "["%char then
            match ws rest with
            | String "]"%char rest => Some (JArr [], rest)
            | _ => '(items, rest) ← read_elements fuel rest; Some (JArr items, rest)
            end
          else if Ascii.eqb c quote then
            '(body, rest) ← read_string rest; Some (JStr body, rest)
          else if Ascii.eqb c "t"%char then read_word "true" (JBool true) (String c rest)
          else if Ascii.eqb c "f"%char then read_word "false" (JBool false) (String c rest)
          else if Ascii.eqb c "n"%char then read_word "null" JNull (String c rest)
          else read_int (String c rest)
      | EmptyString => None
      end
  end
with read_members (fuel : nat) (s : string) : option (list (string * json) * string) :=
  match fuel with
  | O => None
  | S fuel =>
      match ws s with
      | String c rest =>
          if Ascii.eqb c quote then
            '(key, rest) ← read_string rest;
            rest ← expect ":"%char (ws rest);
            '(v, rest) ← read_value fuel rest;
            after_item "}"%char (read_members fuel) (key, v) rest
          else None
      | EmptyString => None
      end
  end
with read_elements (fuel : nat) (s : string) : option (list json * string) :=
  match fuel with
  | O => None
  | S fuel =>
      '(v, rest) ← read_value fuel s;
      after_item "]"%char (read_elements fuel) v rest
  end.

Definition loads (s : string) : option json :=
  '(v, rest) ← read_value (S (String.length s)) s;
  match ws rest with
  | EmptyString => Some v
  | _ => None
  end.

Definition quoted (s : string) : string :=
  String quote s +:+ String quote EmptyString.

Fixpoint dumps (v : json) : string :=
  match v with
  | JNull => "null"
  | JBool b => if b then "true" else "false"
  | JInt n => pretty n
  | JStr s => quoted s
  | JArr items =>
      "[" +:+ (fix go (l : list json) : string :=
                 match l with
                 | [] => ""
                 | [x] => dumps x
                 | x :: rest => dumps x +:+ ", " +:+ go rest
                 end) items +:+ "]"
  | JObj fields =>
      "{" +:+ (fix go (l : list (string * json)) : string :=
                 match l with
                 | [] => ""
                 | [(k, x)] => quoted k +:+ ": " +:+ dumps x
                 | (k, x) :: rest => quoted k +:+ ": " +:+ dumps x +:+ ", " +:+ go rest
                 end) fields +:+ "}"
  end.

(** Eastern standard time: five hours behind UTC. *)
Definition est (t : Z) : Z := - 5 * 3600 * us_per_second.

Definition platform : Platform := {|
  fromisoformat := parse_iso;
  isoformat := iso;
  strftime_ymd := ymd;
  json_loads := loads;
  eastern_utcoffset := est
|}.

End reference.

(* ===================================================================== *)
(** * Predicates of the statements, and sample inputs *)
(* ===================================================================== *)

(** The service fails on every invocation: it never yields a text. *)
Definition never_answers (api : nat -> api_outcome) : Prop :=
  forall n s, api n <> Text s.

(** Inputs on which the statements below are evaluated. *)
Module sample.

(** A service that is down, and a random source that always draws 0. *)
Definition down : nat -> api_outcome := fun _ => ApiError.
Definition no_jitter : nat -> Q := fun _ => 0%Q.

Definition acme_article : article.t :=
  {| article.source := "CFO Dive";
     article.date := "Mon, 01 Jan 2024 10:00:00 GMT";
     article.title := "Acme Corp raises guidance";
     article.summary := "Headline: Acme Corp (ACME) raises full-year guidance.";
     article.link := "https://www.cfodive.com/news/acme/1/";
     article.is_full_text := true;
     article.sentiment := JStr "Positive";
     article.entities := JObj [("companies", JArr [JStr "Acme Corp"])];
     article.pdf_link := None |}.

Definition acme : json := JObj [("ticker", JStr "ACME"); ("name", JStr "Acme Corp")].

(** A feed entry with a short inline summary, and the article text behind
    its link. *)
Definition acme_entry : entry.t :=
  {| entry.link := Some "https://www.cfodive.com/news/acme/1/";
     entry.title := Some "Acme Corp raises guidance";
     entry.summary := Some "Acme Corp lifted its outlook.";
     entry.published := Some "Mon, 01 Jan 2024 10:00:00 GMT" |}.

Definition acme_text : string :=
  "Acme Corp on Monday raised its full-year revenue guidance to $4.2 billion, citing stronger demand in its industrial segment and lower input costs.".

Definition acme_download (url : string) : option string :=
  if String.eqb url "https://www.cfodive.com/news/acme/1/" then Some acme_text
  else if String.eqb url "https://www.truckingdive.com/news/acme/1/" then Some acme_text
  else None.

Definition acme_candidate : candidate.t :=
  {| candidate.source := "CFO Dive";
     candidate.title := "Acme Corp raises guidance";
     candidate.link := "https://www.cfodive.com/news/acme/1/";
     candidate.date := "Mon, 01 Jan 2024 10:00:00 GMT";
     candidate.summary_text := acme_text;
     candidate.is_full_text := true |}.

(** A feed service that serves [acme_entry] on the CFO Dive feed and nothing
    elsewhere. *)
Definition cfo_dive : news_source.t :=
  {| news_source.name := "CFO Dive";
     news_source.url := "https://www.cfodive.com/feeds/news/" |}.

Definition acme_feed (rss_url : string) : list entry.t :=
  if String.eqb rss_url "https://www.cfodive.com/feeds/news/" then [acme_entry] else [].

(** A service that answers the first invocation with a summary. *)
Definition acme_summary : string :=
  "Headline: Acme Corp (ACME) raises full-year guidance.".

Definition summarizes : nat -> api_outcome := fun _ => Text acme_summary.

(** A service that answers the analysis prompt with a fenced JSON object,
    and one that answers only at the third invocation. *)
Definition verdict : json :=
  JObj [("sentiment", JStr "Positive");
        ("entities", JObj [("companies", JArr [JStr "Acme Corp"]);
                           ("people", JArr []);
                           ("topics", JArr [JStr "Guidance"])])].

Definition analyses : nat -> api_outcome :=
  fun _ => Text ("```json" +:+ reference.dumps verdict +:+ "```").

Definition third_time_lucky : nat -> api_outcome :=
  fun n => match n with 2%nat => Text acme_summary | _ => ApiError end.

(** A ledger read at 2024-01-15T00:00:00 UTC: one entry a microsecond older
    than fourteen days, one exactly fourteen days old, one a microsecond
    newer. *)
Definition now : Z := 1705276800000000.

Definition history : gmap string json :=
  {[ "https://www.cfodive.com/news/old/" := JStr "2023-12-31T23:59:59.999999+00:00";
     "https://www.cfodive.com/news/edge/" := JStr "2024-01-01T00:00:00+00:00";
     "https://www.cfodive.com/news/new/" := JStr "2024-01-01T00:00:00.000001+00:00" ]}.

(** The persisted state before a run: the sample ledger, no archive yet. *)
Definition disk0 : disk :=
  {| processed_urls_json := Some (JObj (map_to_list history));
     daily_news_data := None |}.

(** A run on 2024-01-15 given its feeds, the behaviour of the summary
    service per submitted article, and the completion order; the analysis
    service is down throughout. *)
Definition run_of (feed : string -> list entry.t)
    (summary : nat -> nat -> api_outcome) (order : list nat) : world :=
  {| feedparser_parse := feed;
     newspaper_text := acme_download;
     summary_api := summary;
     analysis_api := fun _ => down;
     takeaways_api := down;
     random_random := no_jitter;
     completion_order := order;
     clock_purge := now;
     clock_completed := fun k => (now + 60000000 * (Z.of_nat k + 1))%Z;
     clock_archive := (now + 600000000)%Z;
     report_steps_return := true;
     pdf_add_link := fun i => Z.of_nat (S i);
     archive_mtime := inject_Z 1705277400;
     clock_cleanup := inject_Z 1705277401 |}.

(** One new article whose summary succeeds; one whose summary fails. *)
Definition summarized_run : world := run_of acme_feed (fun _ => summarizes) [0].
Definition failed_run : world := run_of acme_feed (fun _ => down) [0].

(** The same entry served by two feeds; the summary of the first submitted
    copy fails, that of the second succeeds. *)
Definition twin_entry : entry.t :=
  {| entry.link := Some "https://www.truckingdive.com/news/acme/1/";
     entry.title := Some "Acme Corp raises guidance";
     entry.summary := Some "Acme Corp lifted its outlook.";
     entry.published := Some "Mon, 01 Jan 2024 10:00:00 GMT" |}.

Definition twin_feed (rss_url : string) : list entry.t :=
  if String.eqb rss_url "https://www.truckingdive.com/feeds/news/" then [twin_entry]
  else if String.eqb rss_url "https://www.transportdive.com/feeds/news/" then [twin_entry]
  else [].

Definition twin_candidate : candidate.t :=
  {| candidate.source := "Trucking Dive";
     candidate.title := "Acme Corp raises guidance";
     candidate.link := "https://www.truckingdive.com/news/acme/1/";
     candidate.date := "Mon, 01 Jan 2024 10:00:00 GMT";
     candidate.summary_text := acme_text;
     candidate.is_full_text := true |}.

Definition twin_run : world :=
  run_of twin_feed (fun i => match i with O => down | _ => summarizes end) [0; 1].

(** An archive directory swept at [time.time() = 1705277401] with a horizon
    of 400 days: a file exactly at the horizon, one a day older, one that
    cannot be examined and one that is old but cannot be removed. *)
Definition sweep_time : Q := inject_Z 1705277401.

Definition archived (modified : option Q) (can_remove : bool) : file :=
  {| content := Some (JArr []); mtime := modified; removable := can_remove |}.

Definition at_horizon : file := archived (Some (inject_Z 1670717401)) true.
Definition day_older : file := archived (Some (inject_Z 1670631001)) true.
Definition unreadable : file := archived None true.
Definition locked : file := archived (Some (inject_Z 1600000000)) false.

Definition old_archive : gmap string file :=
  {[ "news_2022-12-11.json" := at_horizon;
     "news_2022-12-10.json" := day_older;
     "news_2022-12-09.json" := unreadable;
     "news_2020-09-13.json" := locked ]}.

(** Archived articles by sentiment: a week of 2000 positive articles and one
    of unknown sentiment, and a small week with an article that has no
    sentiment at all. *)
Definition labelled (sentiment : string) : json :=
  JObj [("title", JStr "Acme Corp raises guidance"); ("sentiment", JStr sentiment);
        ("entities", JObj [("companies", JArr [JStr "Acme Corp"])])].

Definition mostly_positive : list json :=
  replicate 2000 (labelled "Positive") ++ [labelled "Unknown"].

Definition small_week : list json :=
  [labelled "Positive"; labelled "Unknown"; labelled "Negative"; JObj []].

End sample.

(** A ledger value the purge can read: an ISO-8601 timestamp that carries a
    UTC offset, as every value written by line 326 does. *)
Definition aware_timestamp {P : Platform} (v : json) : Prop :=
  exists s t off, v = JStr s /\ fromisoformat s = Some t /\ dt.utcoffset t = Some off.

(** The instant [now - timedelta(days=14)], in microseconds. *)
Definition purge_cutoff (now : Z) : Z := (now - 14 * dt.us_per_day)%Z.

(** The purge as the specification words it: the entries removed are
    exactly those whose timestamp is strictly less than the cutoff. *)
Definition removes_exactly_older {P : Platform} (history : gmap string json)
    (now : Z) : Prop :=
  exists kept,
    daily_report.urls_to_keep history now = Some kept
    /\ forall url s t i,
         history !! url = Some (JStr s) ->
         fromisoformat s = Some t ->
         dt.instant t = Some i ->
         (kept !! url = None <-> (i < purge_cutoff now)%Z).

(** The purge of a run, and the candidates it then fetches. *)
Definition purged {P : Platform} (w : world) (d : disk) : option (gmap string json) :=
  daily_report.load_history d ≫= (fun history =>
    daily_report.urls_to_keep history (clock_purge w)).

Definition fetched {P : Platform} (w : world) (kept : gmap string json)
    : list candidate.t :=
  daily_report.fetch_news_from_sources (feedparser_parse w) (newspaper_text w)
    daily_report.NEWS_SOURCES 10 (dom kept).

(** The worker of the [i]-th submitted article. *)
Definition worker {P : Platform} (w : world) (i : nat) (c : candidate.t)
    : option article.t :=
  daily_report.process_single_article (summary_api w i) (analysis_api w i)
    (random_random w) c.

(** A URL is not added by a run: whatever the ledger on disk binds it to
    after the run, it was already bound to before. *)
Definition not_added {P : Platform} (url : string) (d d' : disk) : Prop :=
  forall ledger' v,
    daily_report.load_history d' = Some ledger' ->
    ledger' !! url = Some v ->
    exists ledger, daily_report.load_history d = Some ledger /\ ledger !! url = Some v.

(** The summarization-failure drop as the specification words it: the URL
    of every candidate whose summary fails on all attempts is not added. *)
Definition failed_summary_url_not_added {P : Platform} (w : world) (d : disk) : Prop :=
  forall kept i c,
    purged w d = Some kept ->
    fetched w kept !! i = Some c ->
    never_answers (summary_api w i) ->
    not_added (candidate.link c) d (fst (daily_report.run_news_report w d)).

(** The summary call of the [i]-th submitted article gives no usable
    summary: it returns [None], or an empty text. *)
Definition no_summary (w : world) (i : nat) : Prop :=
  forall s,
    snd (daily_report.generate_axios_summary (summary_api w i) (random_random w) 3)
    = Some s ->
    s = "".

(** [time.time() - (days_to_keep * 86400)] *)
Definition eviction_cutoff (now : Q) (days_to_keep : Z) : Q :=
  Qminus now (inject_Z (days_to_keep * 86400)).

(** The sweep deletes a file when its modification time can be read, is
    before the cutoff, and the removal succeeds. *)
Definition evicted (cutoff : Q) (f : file) : bool :=
  match mtime f with
  | Some modified => Qltb modified cutoff && removable f
  | None => false
  end.

(** The sentiment of an article as line 22 of [weekly_report.py] reads it. *)
Definition sentiment_of (a : json) : option json :=
  py.get a "sentiment" (JStr "Unknown").

(** How many of the sentiments are the string [label]. *)
Fixpoint occurrences (label : string) (sentiments : list json) : Z :=
  match sentiments with
  | [] => 0
  | v :: rest =>
      (if collections.key_eqb v (JStr label) then 1 else 0) + occurrences label rest
  end%Z.

(** The share the summary reports for [label] among [total] articles. *)
Definition reported_share (sentiments : list json) (total : Z) (label : string)
    : string :=
  if (total =? 0)%Z then "0%"
  else pyfloat.format_percent1 (pyfloat.true_div (occurrences label sentiments) total).

(** The number of tenths of a percent a reported share such as ["12.5%"]
    stands for. *)
Definition reported_tenths (share : string) : option Z :=
  match share with
  | String c _ =>
      _ ← reference.digit c;
      let '(whole, rest) := reference.read_digits 0 share in
      rest ← reference.expect "."%char rest;
      '(tenth, rest) ← reference.number 1 0 rest;
      match rest with
      | "%" => Some (whole * 10 + tenth)%Z
      | _ => None
      end
  | EmptyString => None
  end.

(** The sentiment shares as the specification words them: with an article of
    sentiment ["Unknown"] among them, the three reported percentages add up
    to strictly less than 100%. *)
Definition unknown_keeps_reported_below_100 (articles : list json) : Prop :=
  (exists a, a ∈ articles /\ sentiment_of a = Some (JStr "Unknown")) ->
  exists summary top p n u,
    weekly_report.analyze_weekly_trends articles = Some (summary, top)
    /\ reported_tenths (weekly_report.Positive summary) = Some p
    /\ reported_tenths (weekly_report.Negative summary) = Some n
    /\ reported_tenths (weekly_report.Neutral summary) = Some u
    /\ (p + n + u < 1000)%Z.


(* ===================================================================== *)
(** * Further predicates and sample inputs *)
(* ===================================================================== *)

(** The pauses of a trace, in order. *)
Fixpoint sleeps (tr : list event) : list Q :=
  match tr with
  | [] => []
  | Sleep seconds :: rest => seconds :: sleeps rest
  | _ :: rest => sleeps rest
  end.

(** The service yields nothing usable for [analyze_content] at an
    invocation: it fails, or its text is not JSON once cleaned. *)
Definition no_json {P : Platform} (outcome : api_outcome) : Prop :=
  forall s, outcome = Text s -> json_loads (utility.cleaned_text s) = None.

(** More inputs on which statements are evaluated. *)
Module cases.

(** A service whose first two answers are not JSON and whose third is. *)
Definition third_is_json : nat -> api_outcome :=
  fun n => match n with
           | 2%nat => Text ("```json" +:+ reference.dumps sample.verdict +:+ "```")
           | _ => Text "I cannot answer that."
           end.

(** An answer to the company prompt that is a JSON object without the key
    [companies], and one that is a JSON list. *)
Definition no_companies_key : nat -> api_outcome :=
  fun _ => Text (reference.dumps (JObj [("tickers", JArr [JStr "ACME"])])).

Definition answers_a_list : nat -> api_outcome :=
  fun _ => Text (reference.dumps (JArr [JStr "Positive"])).

(** An article that mentions neither the ticker nor the name of Acme, and a
    company record without a name. *)
Definition other_article : article.t :=
  {| article.source := "Banking Dive";
     article.date := "Tue, 02 Jan 2024 09:00:00 GMT";
     article.title := "Regional banks report earnings";
     article.summary := "Headline: Regional banks beat expectations.";
     article.link := "https://www.bankingdive.com/news/banks/2/";
     article.is_full_text := false;
     article.sentiment := JStr "Neutral";
     article.entities := JObj [];
     article.pdf_link := None |}.

Definition nameless : json := JObj [("ticker", JStr "ACME")].

(** A persisted state whose ledger file holds a JSON list, and one whose
    ledger holds a timestamp without UTC offset. *)
Definition list_ledger : disk :=
  {| processed_urls_json := Some (JArr []); daily_news_data := None |}.

Definition naive_ledger : disk :=
  {| processed_urls_json :=
       Some (JObj [("https://www.cfodive.com/news/old/", JStr "2024-01-10T08:00:00")]);
     daily_news_data := None |}.

(** A run in which the summary succeeds and the report steps raise. *)
Definition undelivered_run : world :=
  {| feedparser_parse := sample.acme_feed;
     newspaper_text := sample.acme_download;
     summary_api := fun _ => sample.summarizes;
     analysis_api := fun _ => sample.down;
     takeaways_api := sample.down;
     random_random := sample.no_jitter;
     completion_order := [0];
     clock_purge := sample.now;
     clock_completed := fun k => (sample.now + 60000000 * (Z.of_nat k + 1))%Z;
     clock_archive := (sample.now + 600000000)%Z;
     report_steps_return := false;
     pdf_add_link := fun i => Z.of_nat (S i);
     archive_mtime := inject_Z 1705277400;
     clock_cleanup := inject_Z 1705277401 |}.

(** What the purge of the sample run keeps of the sample ledger. *)
Definition kept0 : gmap string json :=
  {[ "https://www.cfodive.com/news/new/" := JStr "2024-01-01T00:00:00.000001+00:00" ]}.

(** An archive directory whose file of 2024-01-15 cannot be decoded and
    whose file of 2024-01-14 holds a number. *)
Definition corrupt_archive : gmap string file :=
  {[ "news_2024-01-15.json" :=
       {| content := None; mtime := Some (inject_Z 1705277400); removable := true |};
     "news_2024-01-14.json" :=
       {| content := Some (JInt 7); mtime := Some (inject_Z 1705191000);
          removable := true |};
     "news_2024-01-13.json" :=
       {| content := Some (JArr [article.to_json sample.acme_article]);
          mtime := Some (inject_Z 1705104600); removable := true |} ]}.

(** The companies named over a week: Acme Corp three times, Beta Inc
    once, and once the number 1 and once [true], which a [Counter] takes
    for the same key. *)
Definition named_companies : list json :=
  [JStr "Beta Inc"; JStr "Acme Corp"; JInt 1; JStr "Acme Corp"; JBool true;
   JStr "Acme Corp"].

(** A week of two articles that name companies and topics. *)
Definition named_week : list json :=
  [JObj [("sentiment", JStr "Positive");
         ("entities", JObj [("companies", JArr [JStr "Beta Inc"; JStr "Acme Corp"]);
                            ("topics", JArr [JStr "Guidance"]);
                            ("places", JArr [JStr "Ohio"]);
                            ("people", JStr "nobody")])];
   JObj [("entities", JObj [("companies", JArr [JStr "Acme Corp"])])]].

(** The no-break space U+00A0, the next line character U+0085 and the zero
    width space U+200B, in UTF-8. *)
Definition nbsp : string :=
  String (Ascii.ascii_of_nat 194) (String (Ascii.ascii_of_nat 160) "").
Definition next_line : string :=
  String (Ascii.ascii_of_nat 194) (String (Ascii.ascii_of_nat 133) "").
Definition zero_width_space : string :=
  String (Ascii.ascii_of_nat 226)
    (String (Ascii.ascii_of_nat 128) (String (Ascii.ascii_of_nat 139) "")).

(** A run in which the summary succeeds and the analysis service answers
    every invocation in prose. *)
Definition prose_run : world :=
  {| feedparser_parse := sample.acme_feed;
     newspaper_text := sample.acme_download;
     summary_api := fun _ => sample.summarizes;
     analysis_api := fun _ _ => Text "I cannot answer that.";
     takeaways_api := sample.down;
     random_random := sample.no_jitter;
     completion_order := [0];
     clock_purge := sample.now;
     clock_completed := fun k => (sample.now + 60000000 * (Z.of_nat k + 1))%Z;
     clock_archive := (sample.now + 600000000)%Z;
     report_steps_return := true;
     pdf_add_link := fun i => Z.of_nat (S i);
     archive_mtime := inject_Z 1705277400;
     clock_cleanup := inject_Z 1705277401 |}.

(** A run with no feed entry at all. *)
Definition quiet_run : world := sample.run_of (fun _ => []) (fun _ => sample.down) [].

(** The run of the next day, with the same feeds. *)
Definition next_day_run : world :=
  {| feedparser_parse := sample.acme_feed;
     newspaper_text := sample.acme_download;
     summary_api := fun _ => sample.summarizes;
     analysis_api := fun _ => sample.down;
     takeaways_api := sample.down;
     random_random := sample.no_jitter;
     completion_order := [0];
     clock_purge := (sample.now + 86400000000)%Z;
     clock_completed := fun k => (sample.now + 86400000000 + 60000000 * (Z.of_nat k + 1))%Z;
     clock_archive := (sample.now + 86400000000 + 600000000)%Z;
     report_steps_return := true;
     pdf_add_link := fun i => Z.of_nat (S i);
     archive_mtime := inject_Z 1705363800;
     clock_cleanup := inject_Z 1705363801 |}.

(** Two sources: Banking Dive, whose feed is down, and CFO Dive. *)
Definition banking_dive : news_source.t :=
  {| news_source.name := "Banking Dive";
     news_source.url := "https://www.bankingdive.com/feeds/news/" |}.

End cases.


(** An article mentions a company when its summary contains the ticker or
    the name. *)
Definition mentioned (ticker name : string) (a : article.t) : bool :=
  py.is_substring ticker (article.summary a) || py.is_substring name (article.summary a).

(** The article [process_single_article] builds from a candidate, a summary
    and the fields of the analysis. *)
Definition enriched (c : candidate.t) (ai_summary : string)
    (analysis : list (string * json)) : article.t :=
  {| article.source := candidate.source c;
     article.date := candidate.date c;
     article.title := candidate.title c;
     article.summary := ai_summary;
     article.link := candidate.link c;
     article.is_full_text := candidate.is_full_text c;
     article.sentiment := default (JStr "Unknown") (py.assoc "sentiment" analysis);
     article.entities := default (JObj []) (py.assoc "entities" analysis);
     article.pdf_link := None |}.


(** The articles and the ledger a run has in memory once every worker has
    completed. *)
Definition enrichment {P : Platform} (w : world) (kept : gmap string json)
    : list article.t * gmap string json :=
  daily_report.as_completed w (fetched w kept) 0 (completion_order w) ([], kept).

(** The timestamp line 326 stores for the [k]-th completed result. *)
Definition stamp {P : Platform} (w : world) (k : nat) : json :=
  JStr (isoformat (dt.now_utc (clock_completed w k))).

(** The articles as the archive holds them, each with the link id that
    [generate_pdf] stored in it. *)
Definition published (w : world) (articles : list article.t) : list article.t :=
  imap (fun i a => article.set_pdf_link (pdf_add_link w i) a) articles.

(** The name of the archive file a run writes. *)
Definition archive_of {P : Platform} (w : world) : string :=
  utility.archive_name (dt.date (now_eastern (clock_archive w))).

(** Lines 333-335 of [daily_report.py]:
    <<
    grouped_articles = defaultdict(list)
    for article in summarized_articles:
        grouped_articles[article['source']].append(article)
    >> *)
Module report.
Definition grouped_articles (summarized_articles : list article.t)
    : gmap string (list article.t) :=
  fold_left
    (fun grouped a =>
       <[article.source a := default [] (grouped !! article.source a) ++ [a]]> grouped)
    summarized_articles ∅.
End report.


(** A file the sweep leaves in place. *)
Definition survives (cutoff : Q) (entry : string * file) : Prop :=
  evicted cutoff (snd entry) = false.

#[global] Instance survives_dec cutoff entry : Decision (survives cutoff entry).
Proof. unfold survives. apply _. Defined.

(** The articles of one source, in the order of the list. *)
Definition of_source (s : string) (articles : list article.t) : list article.t :=
  filter (fun a => article.source a = s) articles.


(** What holds of the articles and the ledger throughout the loop over the
    completed futures, [bound] results having been recorded so far: the
    purged ledger [kept] is still there, every article collected has a new
    link that the ledger binds, and every binding is one of [kept] or the
    link of a collected article with the time one result was recorded. *)
Definition accounted {P : Platform} (w : world) (kept : gmap string json)
    (bound : nat) (acc : list article.t * gmap string json) : Prop :=
  kept ⊆ snd acc
  /\ (forall a, a ∈ fst acc -> kept !! article.link a = None
                               /\ is_Some (snd acc !! article.link a))
  /\ (forall url v, snd acc !! url = Some v ->
        kept !! url = Some v
        \/ (exists a, a ∈ fst acc /\ article.link a = url)
           /\ exists k, k < bound /\ v = stamp w k).


(** How many of the [names] are equal to [x] as a [Counter] compares keys. *)
Fixpoint times_named (x : json) (names : list json) : Z :=
  match names with
  | [] => 0
  | v :: rest => (if collections.key_eqb v x then 1 else 0) + times_named x rest
  end%Z.

(** The names an [entities] dict lists under [category], lines 32-34 of
    [weekly_report.py]: the items of the value of that key when it is a
    list. *)
Definition names_in (category : string) (fields : list (string * json)) : list json :=
  concat (map (fun '(c, items) =>
                 match items with
                 | JArr names => if String.eqb c category then names else []
                 | _ => []
                 end) fields).

(** The names an article lists under [category]. *)
Definition entity_names (category : string) (article : json) : list json :=
  match py.get article "entities" (JObj []) with
  | Some (JObj fields) => names_in category fields
  | _ => []
  end.

(** An article the weekly analysis can read: a dict whose sentiment is
    hashable, whose entities are a dict, and whose companies, people and
    topics lists hold hashable items only. *)
Definition analysable (article : json) : Prop :=
  (exists s, sentiment_of article = Some s /\ collections.hashable s = true)
  /\ exists fields,
       py.get article "entities" (JObj []) = Some (JObj fields)
       /\ Forall (fun x => collections.hashable x = true)
            (names_in "companies" fields ++ names_in "people" fields
             ++ names_in "topics" fields).

(** What a hashable JSON value is hashed and compared by: [True] and [1]
    are the same key, as are [False] and [0]. *)
Inductive key : Type := KNull | KInt (n : Z) | KStr (s : string).

Definition canon (x : json) : option key :=
  match x with
  | JNull => Some KNull
  | JBool b => Some (KInt (if b then 1 else 0))
  | JInt n => Some (KInt n)
  | JStr s => Some (KStr s)
  | JArr _ | JObj _ => None
  end.

Definition canon_keys (counts : list (json * Z)) : list (option key) :=
  map (fun kn => canon (fst kn)) counts.

(** The counts of a [Counter]: hashable keys, positive counts. *)
Definition hashed (counts : list (json * Z)) : Prop :=
  Forall (fun kn => is_Some (canon (fst kn)) /\ (0 < snd kn)%Z) counts.

(** The order of [most_common]: by decreasing count. *)
Definition by_count (a b : json * Z) : Prop := (snd b <= snd a)%Z.


(** The number of backticks a string starts with, and whether it holds no
    backtick at all. *)
Fixpoint leading_backticks (s : string) : nat :=
  match s with
  | String c rest => if Ascii.eqb c "`"%char then S (leading_backticks rest) else 0
  | EmptyString => 0
  end.

Definition backtick_free (s : string) : bool := negb (py.is_substring "`" s).


(** The time a trace spends in [time.sleep], in seconds. *)
Definition total_sleep (tr : list event) : Q := fold_right Qplus 0%Q (sleeps tr).

(** A random source as [random.random()] is: every draw lies in [0, 1]. *)
Definition unit_draws (rng : nat -> Q) : Prop := forall i, (0 <= rng i <= 1)%Q.


(** The retry bound and the failure value as the specification words them
    for the memo: against a service that fails on every invocation the
    call does not raise, invokes the service exactly [max_retries] times
    and returns [None]. *)
Definition memo_fails_softly (api : nat -> api_outcome) (rng : nat -> Q)
    (articles : list article.t) (company_info financial_data : json)
    (max_retries : Z) : Prop :=
  never_answers api ->
  exists tr,
    utility.generate_investment_memo api rng articles company_info financial_data
      max_retries = Some (tr, None)
    /\ Z.of_nat (calls tr) = max_retries.

(* ===================================================================== *)
(** * Facts about the retry loop *)
(* ===================================================================== *)

Lemma calls_app (tr1 tr2 : list event) :
  calls (tr1 ++ tr2) = calls tr1 + calls tr2.
Proof.
  induction tr1 as [|e tr1 IH]; [reflexivity|].
  destruct e; simpl; rewrite IH; reflexivity.
Qed.

Lemma calls_sleep_before_retry warn rng attempt :
  calls (sleep_before_retry warn rng attempt) = 0.
Proof. destruct warn; reflexivity. Qed.

Section retry_facts.
Context {T : Type}.
Variable max_retries : Z.
Variable try_block : Z -> list event * option T.
Variable before_retry : Z -> list event.
Variable sentinel : T.

Local Abbreviation loop := (retry.while_attempt max_retries try_block before_retry sentinel).

(** The loop ends within [max_retries - attempt + 1] iterations, whatever
    the attempts do. *)
Lemma while_attempt_fuel_enough (fuel : nat) (attempt : Z) :
  Z.to_nat (max_retries - attempt) < fuel ->
  is_Some (loop fuel attempt).
Proof.
  revert attempt. induction fuel as [|fuel IH]; intros attempt Hfuel; [lia|].
  simpl. destruct (Z.ltb_spec attempt max_retries) as [Hlt|Hge]; [|eauto].
  destruct (try_block attempt) as [done [value|]]; [eauto|].
  destruct (Z.geb_spec (attempt + 1) max_retries) as [Hlast|Hmore]; [eauto|].
  destruct (IH (attempt + 1)%Z) as [[rest value] ->]; [lia|eauto].
Qed.

Lemma retry_fuel_enough :
  is_Some (loop (S (Z.to_nat max_retries)) 0).
Proof. apply while_attempt_fuel_enough. rewrite Z.sub_0_r. lia. Qed.

Lemma run_unfold outcome :
  loop (S (Z.to_nat max_retries)) 0 = Some outcome ->
  retry.run max_retries try_block before_retry sentinel = outcome.
Proof. unfold retry.run. intros ->. reflexivity. Qed.

(** When every attempt raises after invoking the service once, the loop
    gives up with the sentinel after [max_retries - attempt] invocations. *)
Hypothesis every_attempt_raises :
  forall a, (0 <= a < max_retries)%Z ->
    snd (try_block a) = None /\ calls (fst (try_block a)) = 1.
Hypothesis no_call_between : forall a, calls (before_retry a) = 0.

Lemma while_attempt_all_raise (fuel : nat) (attempt : Z) :
  (0 <= attempt < max_retries)%Z ->
  Z.to_nat (max_retries - attempt) <= fuel ->
  exists tr, loop fuel attempt = Some (tr, sentinel)
             /\ calls tr = Z.to_nat (max_retries - attempt).
Proof.
  revert attempt. induction fuel as [|fuel IH]; intros attempt Hrange Hfuel; [lia|].
  simpl. destruct (Z.ltb_spec attempt max_retries) as [_|?]; [|lia].
  destruct (every_attempt_raises attempt Hrange) as [Hraise Hone].
  destruct (try_block attempt) as [done result]; simpl in Hraise, Hone; subst result.
  destruct (Z.geb_spec (attempt + 1) max_retries) as [Hlast|Hmore].
  - eexists; split; [reflexivity|].
    rewrite calls_app, Hone. simpl. lia.
  - destruct (IH (attempt + 1)%Z) as (rest & -> & Hrest); [lia|lia|].
    eexists; split; [reflexivity|].
    rewrite !calls_app, Hone, no_call_between, Hrest. lia.
Qed.

Lemma run_all_raise :
  exists tr, retry.run max_retries try_block before_retry sentinel = (tr, sentinel)
             /\ calls tr = Z.to_nat max_retries.
Proof.
  destruct (Z.ltb_spec 0 max_retries) as [Hpos|Hnone].
  - destruct (while_attempt_all_raise (S (Z.to_nat max_retries)) 0)
      as (tr & Hrun & Hcalls); [lia|lia|].
    exists tr. split; [by apply run_unfold|]. rewrite Hcalls. f_equal. lia.
  - exists []. split.
    + apply run_unfold. simpl.
      destruct (Z.ltb_spec 0 max_retries); [lia|reflexivity].
    + simpl. lia.
Qed.
End retry_facts.

(* ===================================================================== *)
(** * Retry bound and sentinel *)
(* ===================================================================== *)

Section retry_bound.
Context {P : Platform}.
Variable api : nat -> api_outcome.
Variable rng : nat -> Q.
Hypothesis down : never_answers api.

Lemma axios_try_raises a :
  snd (daily_report.axios_try api rng a) = None
  /\ calls (fst (daily_report.axios_try api rng a)) = 1.
Proof.
  unfold daily_report.axios_try.
  destruct (api (Z.to_nat a)) eqn:E; [done|done|by destruct (down _ _ E)].
Qed.

Lemma analyze_content_try_raises a :
  snd (utility.analyze_content_try api a) = None
  /\ calls (fst (utility.analyze_content_try api a)) = 1.
Proof.
  unfold utility.analyze_content_try.
  destruct (api (Z.to_nat a)) eqn:E; [done|done|by destruct (down _ _ E)].
Qed.


End retry_bound.

(** C3, as stated, fails for the memo: for a company record without a
    name (the record comes from the model's answer to the company prompt)
    and an article whose summary does not contain the ticker, the prompt is
    built before the loop and outside any [try], [None in a['summary']]
    raises [TypeError], and the exception leaves the wrapper before the
    service is invoked once. *)
Lemma retry_bound_memo_counterexample :
  ~ memo_fails_softly sample.down sample.no_jitter [cases.other_article]
      cases.nameless (JObj []) 3.
Proof.
  intros Hclaim. destruct Hclaim as (tr & Hrun & _).
  - intros n s. discriminate.
  - vm_compute in Hrun. discriminate.
Qed.



(** The trace of a summary call against a dead service: three invocations,
    two back-offs of [2^1] and [2^2] seconds plus jitter, then the error. *)
Example trace_of_dead_service :
  daily_report.generate_axios_summary sample.down sample.no_jitter 3
  = ([Call; Log WARNING; Sleep (backoff 1 0); Call; Log WARNING;
      Sleep (backoff 2 0); Call; Log ERROR], None).
Proof. reflexivity. Qed.

(** A service that answers the third invocation is invoked three times. *)
Example trace_of_third_answer :
  daily_report.generate_axios_summary sample.third_time_lucky sample.no_jitter 3
  = ([Call; Log WARNING; Sleep (backoff 1 0); Call; Log WARNING;
      Sleep (backoff 2 0); Call; Sleep (uniform 1 3 0)], Some sample.acme_summary).
Proof. reflexivity. Qed.

(** With [max_retries = 0] the service is not invoked at all. *)
Example trace_without_attempts :
  utility.analyze_content (P := reference.platform) sample.analyses sample.no_jitter 0
  = ([Log INFO], utility.analyze_content_failed).
Proof. reflexivity. Qed.

(** An analysis that answers in a code fence is read through
    [cleaned_text] and [json.loads]. *)
Example analysis_of_fenced_answer :
  snd (utility.analyze_content (P := reference.platform) sample.analyses
         sample.no_jitter 3)
  = sample.verdict.
Proof. vm_compute. reflexivity. Qed.

(* ===================================================================== *)
(** * Ledger purge *)
(* ===================================================================== *)

Section purge_facts.
Context {P : Platform}.

Lemma newer_than_aware (now : Z) (s : string) (t : dt.datetime) (i : Z) :
  fromisoformat s = Some t ->
  dt.instant t = Some i ->
  daily_report.newer_than
    (dt.minus_days (dt.now_utc now) daily_report.RETENTION_DAYS) (JStr s)
  = Some (purge_cutoff now <? i)%Z.
Proof.
  intros Hparse Hinstant. unfold daily_report.newer_than. rewrite Hparse. simpl.
  unfold dt.instant in Hinstant. unfold dt.gt.
  destruct (dt.utcoffset t) as [off|]; [|discriminate].
  injection Hinstant as <-. simpl. unfold purge_cutoff, daily_report.RETENTION_DAYS.
  do 2 f_equal. lia.
Qed.

Lemma aware_timestamp_readable (now : Z) (v : json) :
  aware_timestamp v ->
  is_Some (daily_report.newer_than
             (dt.minus_days (dt.now_utc now) daily_report.RETENTION_DAYS) v).
Proof.
  intros (s & t & off & -> & Hparse & Hoff).
  erewrite newer_than_aware; [eauto|exact Hparse|].
  unfold dt.instant. rewrite Hoff. reflexivity.
Qed.

End purge_facts.

(** The timestamps of the sample ledger, as the platform reads them. *)
Example sample_now_is_2024_01_15 :
  isoformat (Platform := reference.platform) (dt.now_utc sample.now)
  = "2024-01-15T00:00:00+00:00".
Proof. reflexivity. Qed.

Example sample_edge_is_14_days_old :
  fromisoformat (Platform := reference.platform) "2024-01-01T00:00:00+00:00"
    ≫= dt.instant
  = Some (purge_cutoff sample.now).
Proof. reflexivity. Qed.

(** C1, as stated, fails at the boundary: the entry whose timestamp is
    exactly [now - 14 days] is not strictly older than the cutoff, yet the
    purge removes it. *)
Lemma purge_boundary_counterexample :
  ~ removes_exactly_older (P := reference.platform) sample.history sample.now.
Proof.
  intros (kept & Hkept & Hexact).
  assert (Hrun : daily_report.urls_to_keep (P := reference.platform)
                   sample.history sample.now
                 = Some {[ "https://www.cfodive.com/news/new/" :=
                             JStr "2024-01-01T00:00:00.000001+00:00" ]})
    by (vm_compute; reflexivity).
  rewrite Hrun in Hkept. injection Hkept as <-.
  destruct (Hexact "https://www.cfodive.com/news/edge/" "2024-01-01T00:00:00+00:00"
              {| dt.wall := 1704067200000000; dt.utcoffset := Some 0%Z |}
              1704067200000000%Z) as [Hgone _];
    [reflexivity|reflexivity|reflexivity|].
  specialize (Hgone eq_refl). vm_compute in Hgone. discriminate.
Qed.

(** C1, amended. On a ledger of timestamps that carry a UTC offset the purge
    returns a mapping, a function of the ledger and of the clock reading
    alone, that keeps an entry unchanged iff its timestamp is strictly after
    [now - 14 days] and removes it iff its timestamp is at or before that
    instant; it adds nothing. *)
Theorem purge_keeps_strictly_newer {P : Platform} (history : gmap string json)
    (now : Z) :
  map_Forall (fun _ v => aware_timestamp v) history ->
  exists kept,
    daily_report.urls_to_keep history now = Some kept
    /\ kept ⊆ history
    /\ forall url s t i,
         history !! url = Some (JStr s) ->
         fromisoformat s = Some t ->
         dt.instant t = Some i ->
         (kept !! url = Some (JStr s) <-> (purge_cutoff now < i)%Z)
         /\ (kept !! url = None <-> (i <= purge_cutoff now)%Z).
Proof.
  intros Hwf. unfold daily_report.urls_to_keep.
  destruct (decide _) as [_|Hbad].
  2:{ destruct Hbad. intros url v Hv. apply aware_timestamp_readable.
      exact (Hwf url v Hv). }
  eexists. split; [reflexivity|]. split; [apply map_filter_subseteq|].
  intros url s t i Hurl Hparse Hinstant.
  pose proof (newer_than_aware now s t i Hparse Hinstant) as Hnewer.
  split.
  - rewrite map_lookup_filter_Some. cbn [snd]. rewrite Hnewer. split.
    + intros [_ Heq]. injection Heq as Heq. by apply Z.ltb_lt.
    + intros Hlt. split; [exact Hurl|]. f_equal. by apply Z.ltb_lt.
  - rewrite map_lookup_filter_None. split.
    + intros [Hnone|Hnot]; [congruence|].
      specialize (Hnot _ Hurl). cbn [snd] in Hnot. rewrite Hnewer in Hnot.
      destruct (Z.ltb_spec (purge_cutoff now) i); [by destruct Hnot|lia].
    + intros Hle. right. intros v Hv. cbn [snd]. rewrite Hurl in Hv. injection Hv as <-.
      rewrite Hnewer. intros Heq. injection Heq as Heq. apply Z.ltb_lt in Heq. lia.
Qed.

Lemma purge_keeps_strictly_newer_witness :
  map_Forall (fun _ v => aware_timestamp (P := reference.platform) v) sample.history
  /\ exists kept,
       daily_report.urls_to_keep (P := reference.platform) sample.history sample.now
       = Some kept
       /\ kept ⊆ sample.history
       /\ forall url s t i,
            sample.history !! url = Some (JStr s) ->
            fromisoformat (Platform := reference.platform) s = Some t ->
            dt.instant t = Some i ->
            (kept !! url = Some (JStr s) <-> (purge_cutoff sample.now < i)%Z)
            /\ (kept !! url = None <-> (i <= purge_cutoff sample.now)%Z).
Proof.
  assert (Hwf : map_Forall (fun _ v => aware_timestamp (P := reference.platform) v)
                  sample.history).
  { unfold sample.history.
    repeat (apply map_Forall_insert_2;
            [eexists _, _, _; repeat split; reflexivity|]).
    apply map_Forall_empty. }
  split; [exact Hwf|].
  exact (purge_keeps_strictly_newer (P := reference.platform)
           sample.history sample.now Hwf).
Defined.

(* ===================================================================== *)
(** * Feed fetcher *)
(* ===================================================================== *)

Lemma truthy_str_true (s : string) : py.truthy_str s = true <-> s <> "".
Proof. destruct s; simpl; split; congruence. Qed.

(** The two outcomes of lines 124-142. *)
Lemma resolve_text_full (rss_summary text : string) :
  text <> "" ->
  py.len rss_summary < py.len text ->
  daily_report.resolve_text rss_summary (Some text) = (text, true).
Proof.
  intros Hne Hlen. unfold daily_report.resolve_text.
  apply truthy_str_true in Hne. rewrite Hne.
  apply Nat.ltb_lt in Hlen. rewrite Hlen. reflexivity.
Qed.

Lemma resolve_text_fallback (rss_summary : string) (downloaded : option string) :
  downloaded = None
  \/ downloaded = Some ""
  \/ (exists text, downloaded = Some text
                   /\ py.len text <= py.len rss_summary) ->
  daily_report.resolve_text rss_summary downloaded = (rss_summary, false).
Proof.
  intros [->|[->|(text & -> & Hlen)]]; [reflexivity|reflexivity|].
  unfold daily_report.resolve_text.
  apply Nat.ltb_ge in Hlen. rewrite Hlen, andb_false_r. reflexivity.
Qed.

(** What [fetch_entry] tells about an entry it turns into a candidate. *)
Lemma fetch_entry_Some download source_name processed_urls e c :
  daily_report.fetch_entry download source_name processed_urls e = Some c ->
  candidate.link c = default "" (entry.link e)
  /\ candidate.link c <> ""
  /\ (candidate.link c ∉ processed_urls)
  /\ (candidate.summary_text c, candidate.is_full_text c)
     = daily_report.resolve_text (default "" (entry.summary e))
         (download (candidate.link c))
  /\ 100 < py.len (candidate.summary_text c).
Proof.
  unfold daily_report.fetch_entry. intros Hc.
  destruct (decide _) as [|Hnew]; [discriminate|].
  destruct (py.truthy_str (default "" (entry.link e))) eqn:Hlink; [|discriminate].
  simpl in Hc.
  destruct (daily_report.resolve_text _ _) as [text full] eqn:Hresolve.
  destruct (py.truthy_str text && (100 <? py.len text)) eqn:Hlong; [|discriminate].
  injection Hc as <-. simpl.
  apply andb_true_iff in Hlong as [_ Hlong]. apply Nat.ltb_lt in Hlong.
  repeat split; auto. by apply truthy_str_true.
Qed.

(** C6. For a candidate made from a feed entry: when the download yields a
    non-empty text strictly longer than the inline summary, the candidate
    carries that text and [is_full_text] is true; when the download raises,
    yields the empty text, or yields a text that is not longer, the
    candidate carries the inline summary and [is_full_text] is false. *)
Theorem full_text_fallback (download : string -> option string)
    (source_name : string) (processed_urls : gset string)
    (e : entry.t) (c : candidate.t) :
  daily_report.fetch_entry download source_name processed_urls e = Some c ->
  let rss_summary := default "" (entry.summary e) in
  let downloaded := download (candidate.link c) in
  (forall text,
     downloaded = Some text ->
     text <> "" ->
     py.len rss_summary < py.len text ->
     candidate.summary_text c = text /\ candidate.is_full_text c = true)
  /\ (downloaded = None
      \/ downloaded = Some ""
      \/ (exists text, downloaded = Some text
                       /\ py.len text <= py.len rss_summary) ->
      candidate.summary_text c = rss_summary /\ candidate.is_full_text c = false).
Proof.
  intros Hc rss_summary downloaded.
  destruct (fetch_entry_Some _ _ _ _ _ Hc) as (_ & _ & _ & Hresolve & _).
  fold rss_summary downloaded in Hresolve. split.
  - intros text Hdl Hne Hlen. rewrite Hdl, resolve_text_full in Hresolve by done.
    by injection Hresolve.
  - intros Hcases. rewrite resolve_text_fallback in Hresolve by done.
    by injection Hresolve.
Qed.

Lemma full_text_fallback_witness :
  daily_report.fetch_entry sample.acme_download "CFO Dive" ∅ sample.acme_entry
  = Some sample.acme_candidate
  /\ candidate.summary_text sample.acme_candidate = sample.acme_text
  /\ candidate.is_full_text sample.acme_candidate = true.
Proof.
  assert (Hc : daily_report.fetch_entry sample.acme_download "CFO Dive" ∅
                 sample.acme_entry = Some sample.acme_candidate)
    by (vm_compute; reflexivity).
  split; [exact Hc|].
  apply (proj1 (full_text_fallback _ _ _ _ _ Hc) sample.acme_text).
  - reflexivity.
  - discriminate.
  - vm_compute. lia.
Defined.

(** The candidates of a fetch, traced back to their entries. *)
Lemma fetch_source_elem parse download max_per_source processed_urls src c :
  c ∈ daily_report.fetch_source parse download max_per_source processed_urls src <->
  exists e, e ∈ py.slice_to max_per_source (parse (news_source.url src))
            /\ daily_report.fetch_entry download (news_source.name src)
                 processed_urls e = Some c.
Proof.
  unfold daily_report.fetch_source.
  destruct (parse (news_source.url src)) as [|e0 entries] eqn:Hparse.
  - split; [by intros ?%elem_of_nil|].
    intros (e & He & _). unfold py.slice_to in He.
    destruct (0 <=? max_per_source)%Z; rewrite firstn_nil in He;
      by apply elem_of_nil in He.
  - apply list_elem_of_omap.
Qed.

Lemma fetch_news_elem parse download sources max_per_source processed_urls c :
  c ∈ daily_report.fetch_news_from_sources parse download sources max_per_source
        processed_urls <->
  exists src, src ∈ sources
              /\ c ∈ daily_report.fetch_source parse download max_per_source
                       processed_urls src.
Proof.
  unfold daily_report.fetch_news_from_sources.
  rewrite list_elem_of_In, in_concat. split.
  - intros (l & Hl & Hc). apply in_map_iff in Hl as (src & <- & Hsrc).
    exists src. split; by apply list_elem_of_In.
  - intros (src & Hsrc & Hc). eexists. split.
    + apply in_map_iff. exists src. split; [reflexivity|]. by apply list_elem_of_In.
    + by apply list_elem_of_In.
Qed.

(** Every candidate has a link that is neither empty nor already processed. *)
Lemma fetch_news_skips parse download sources max_per_source processed_urls c :
  c ∈ daily_report.fetch_news_from_sources parse download sources max_per_source
        processed_urls ->
  candidate.link c <> "" /\ candidate.link c ∉ processed_urls.
Proof.
  intros (src & _ & (e & _ & Hc)%fetch_source_elem)%fetch_news_elem.
  by destruct (fetch_entry_Some _ _ _ _ _ Hc) as (_ & ? & ? & _).
Qed.

(** With a larger processed set an entry is skipped, or treated as before. *)
Lemma fetch_entry_mono download source_name (processed1 processed2 : gset string) e :
  processed1 ⊆ processed2 ->
  daily_report.fetch_entry download source_name processed2 e = None
  \/ daily_report.fetch_entry download source_name processed2 e
     = daily_report.fetch_entry download source_name processed1 e.
Proof.
  intros Hsub. unfold daily_report.fetch_entry.
  destruct (decide (default "" (entry.link e) ∈ processed2)) as [|Hnew2]; [by left|].
  destruct (decide (default "" (entry.link e) ∈ processed1)) as [Hold1|]; [|by right].
  destruct Hnew2. by apply Hsub.
Qed.





(* ===================================================================== *)
(** * Enrichment of one article *)
(* ===================================================================== *)

Section enrichment_facts.
Context {P : Platform}.

Lemma generate_axios_summary_down api rng max_retries :
  never_answers api ->
  snd (daily_report.generate_axios_summary api rng max_retries) = None.
Proof.
  intros Hdown.
  destruct (run_all_raise max_retries (daily_report.axios_try api rng)
              (sleep_before_retry true rng) None) as (tr & Hrun & _).
  - intros a _. by apply axios_try_raises.
  - intros a. apply calls_sleep_before_retry.
  - unfold daily_report.generate_axios_summary. by rewrite Hrun.
Qed.

Lemma analyze_content_down api rng max_retries :
  never_answers api ->
  snd (utility.analyze_content api rng max_retries) = utility.analyze_content_failed.
Proof.
  intros Hdown.
  destruct (run_all_raise max_retries (utility.analyze_content_try api)
              (sleep_before_retry false rng) utility.analyze_content_failed)
    as (tr & Hrun & _).
  - intros a _. by apply analyze_content_try_raises.
  - intros a. apply calls_sleep_before_retry.
  - unfold utility.analyze_content. by rewrite Hrun.
Qed.

(** An article is only ever built from a non-empty summary, and it carries
    the link of its candidate. *)
Lemma process_single_article_Some summary_service analysis_service rng c a :
  daily_report.process_single_article summary_service analysis_service rng c = Some a ->
  article.link a = candidate.link c
  /\ exists s, snd (daily_report.generate_axios_summary summary_service rng 3) = Some s
               /\ s <> "" /\ article.summary a = s.
Proof.
  unfold daily_report.process_single_article.
  destruct (snd (daily_report.generate_axios_summary _ _ _)) as [s|]; [|discriminate].
  destruct (py.truthy_str s) eqn:Hs; [|discriminate].
  destruct (py.get _ "sentiment" _) as [sentiment|]; [|discriminate].
  destruct (py.get _ "entities" _) as [entities|]; [|discriminate].
  simpl. intros [= <-]. simpl. split; [reflexivity|].
  exists s. repeat split. by apply truthy_str_true.
Qed.

Lemma process_single_article_no_summary summary_service analysis_service rng c :
  snd (daily_report.generate_axios_summary summary_service rng 3) = None ->
  daily_report.process_single_article summary_service analysis_service rng c = None.
Proof. unfold daily_report.process_single_article. by intros ->. Qed.

End enrichment_facts.

(** The analysis falls back on its failure value whenever no attempt
    yields JSON: the service fails, or answers a text that [json.loads]
    rejects once cleaned. *)
Lemma analyze_content_try_no_json {P : Platform} (api : nat -> api_outcome) (a : Z) :
  (forall n, no_json (api n)) ->
  snd (utility.analyze_content_try api a) = None
  /\ calls (fst (utility.analyze_content_try api a)) = 1.
Proof.
  intros Hbad. unfold utility.analyze_content_try.
  destruct (api (Z.to_nat a)) as [| |s] eqn:E; [done|done|].
  simpl. split; [|reflexivity]. by apply (Hbad (Z.to_nat a)).
Qed.

Lemma analyze_content_no_json {P : Platform} (api : nat -> api_outcome)
    (rng : nat -> Q) (max_retries : Z) :
  (forall n, no_json (api n)) ->
  snd (utility.analyze_content api rng max_retries) = utility.analyze_content_failed.
Proof.
  intros Hbad.
  destruct (run_all_raise max_retries (utility.analyze_content_try api)
              (sleep_before_retry false rng) utility.analyze_content_failed)
    as (tr & Hrun & _).
  - intros a _. by apply analyze_content_try_no_json.
  - intros a. apply calls_sleep_before_retry.
  - unfold utility.analyze_content. by rewrite Hrun.
Qed.

(** The loop over the completed futures only appends, and it appends the
    result of every future it is handed. *)
Lemma record_result_keeps {P : Platform} (w : world)
    (all_raw_articles : list candidate.t) (k i : nat)
    (acc : list article.t * gmap string json) (a : article.t) :
  a ∈ fst acc -> a ∈ fst (daily_report.record_result w all_raw_articles k i acc).
Proof.
  intros Ha. unfold daily_report.record_result.
  destruct (all_raw_articles !! i) as [c|]; [|exact Ha].
  destruct (daily_report.process_single_article _ _ _ _); [|exact Ha].
  simpl. apply elem_of_app. by left.
Qed.

Lemma as_completed_keeps {P : Platform} (w : world)
    (all_raw_articles : list candidate.t) (order : list nat) (k : nat)
    (acc : list article.t * gmap string json) (a : article.t) :
  a ∈ fst acc -> a ∈ fst (daily_report.as_completed w all_raw_articles k order acc).
Proof.
  revert k acc. induction order as [|j order IH]; intros k acc Ha; [exact Ha|].
  simpl. apply IH. by apply record_result_keeps.
Qed.

Lemma as_completed_emits {P : Platform} (w : world)
    (all_raw_articles : list candidate.t) (order : list nat) (k i : nat)
    (acc : list article.t * gmap string json) (c : candidate.t) (a : article.t) :
  i ∈ order ->
  all_raw_articles !! i = Some c ->
  daily_report.process_single_article (summary_api w i) (analysis_api w i)
    (random_random w) c = Some a ->
  a ∈ fst (daily_report.as_completed w all_raw_articles k order acc).
Proof.
  intros Hi Hc Ha. revert k acc.
  induction order as [|j order IH]; intros k acc; [by apply elem_of_nil in Hi|].
  simpl. apply elem_of_cons in Hi as [<-|Hi]; [|by apply IH].
  apply as_completed_keeps. unfold daily_report.record_result. rewrite Hc, Ha.
  simpl. apply elem_of_app. right. apply list_elem_of_here.
Qed.

(** C5. When the summary call returns a non-empty summary and no attempt of
    the analysis call yields JSON (the service fails, or answers a text
    that [json.loads] rejects), the article is still emitted: the worker
    returns it with sentiment ["Unknown"] and entities [{}], the iteration
    of the loop over the completed futures that receives it appends it to
    the list, and it is in the list of the enrichment stage, whatever the
    other candidates are and in whatever order the futures complete
    ([as_completed] yields every submitted future, so [i] is in [order]). *)
Theorem classification_failure_default {P : Platform} (w : world)
    (all_raw_articles : list candidate.t) (order : list nat) (k i : nat)
    (c : candidate.t) (ai_summary : string)
    (acc : list article.t * gmap string json) :
  all_raw_articles !! i = Some c ->
  snd (daily_report.generate_axios_summary (summary_api w i) (random_random w) 3)
  = Some ai_summary ->
  ai_summary <> "" ->
  (forall n, no_json (analysis_api w i n)) ->
  exists a,
    daily_report.process_single_article (summary_api w i) (analysis_api w i)
      (random_random w) c = Some a
    /\ article.sentiment a = JStr "Unknown"
    /\ article.entities a = JObj []
    /\ article.summary a = ai_summary
    /\ article.link a = candidate.link c
    /\ fst (daily_report.record_result w all_raw_articles k i acc) = fst acc ++ [a]
    /\ (i ∈ order ->
        a ∈ fst (daily_report.as_completed w all_raw_articles k order acc)).
Proof.
  intros Hc Hsummary Hne Hbad.
  assert (Hone : daily_report.process_single_article (summary_api w i)
                   (analysis_api w i) (random_random w) c
                 = Some {| article.source := candidate.source c;
                           article.date := candidate.date c;
                           article.title := candidate.title c;
                           article.summary := ai_summary;
                           article.link := candidate.link c;
                           article.is_full_text := candidate.is_full_text c;
                           article.sentiment := JStr "Unknown";
                           article.entities := JObj [];
                           article.pdf_link := None |}).
  { unfold daily_report.process_single_article. rewrite Hsummary.
    apply truthy_str_true in Hne. rewrite Hne.
    rewrite analyze_content_no_json by exact Hbad. reflexivity. }
  eexists. split; [exact Hone|].
  split; [reflexivity|]. split; [reflexivity|]. split; [reflexivity|].
  split; [reflexivity|]. split.
  - unfold daily_report.record_result. rewrite Hc, Hone. reflexivity.
  - intros Hi. by eapply as_completed_emits.
Qed.

Lemma classification_failure_default_witness :
  exists a,
    daily_report.process_single_article (P := reference.platform)
      sample.summarizes (fun _ => Text "I cannot answer that.") sample.no_jitter
      sample.acme_candidate = Some a
    /\ article.sentiment a = JStr "Unknown"
    /\ article.entities a = JObj []
    /\ article.summary a = sample.acme_summary
    /\ article.link a = candidate.link sample.acme_candidate
    /\ a ∈ fst (enrichment (P := reference.platform) cases.prose_run cases.kept0).
Proof.
  destruct (classification_failure_default (P := reference.platform)
              cases.prose_run
              (fetched (P := reference.platform) cases.prose_run cases.kept0)
              (completion_order cases.prose_run) 0 0
              sample.acme_candidate sample.acme_summary ([], cases.kept0))
    as (a & Ha & Hsentiment & Hentities & Hsum & Hlink & _ & Hin).
  - vm_compute. reflexivity.
  - vm_compute. reflexivity.
  - discriminate.
  - intros n s [= <-]. vm_compute. reflexivity.
  - exists a. split; [exact Ha|]. split; [exact Hsentiment|].
    split; [exact Hentities|]. split; [exact Hsum|]. split; [exact Hlink|].
    apply Hin. apply list_elem_of_here.
Defined.

(* ===================================================================== *)
(** * The loop over the completed futures, and the run *)
(* ===================================================================== *)

Section run_facts.
Context {P : Platform}.
Variable w : world.
Variable all_raw_articles : list candidate.t.

Lemma record_result_None k i acc :
  (forall c, all_raw_articles !! i = Some c -> worker w i c = None) ->
  daily_report.record_result w all_raw_articles k i acc = acc.
Proof.
  intros Hnone. unfold daily_report.record_result.
  destruct (all_raw_articles !! i) as [c|]; [|reflexivity].
  fold (worker w i c). by rewrite (Hnone c).
Qed.

(** Where a binding of the final ledger comes from. *)
Lemma as_completed_ledger order k acc url v :
  snd (daily_report.as_completed w all_raw_articles k order acc) !! url = Some v ->
  snd acc !! url = Some v
  \/ exists i c a, i ∈ order /\ all_raw_articles !! i = Some c
                   /\ worker w i c = Some a /\ article.link a = url.
Proof.
  revert k acc. induction order as [|i order IH]; intros k acc Hv; [by left|].
  simpl in Hv. apply IH in Hv as [Hv|(j & c & a & Hj & Hrest)].
  - unfold daily_report.record_result in Hv.
    destruct (all_raw_articles !! i) as [c|] eqn:Hc; [|by left].
    fold (worker w i c) in Hv.
    destruct (worker w i c) as [a|] eqn:Ha; [|by left].
    simpl in Hv. destruct (decide (article.link a = url)) as [Heq|Hne].
    + right. exists i, c, a. split; [apply list_elem_of_here|done].
    + rewrite lookup_insert_ne in Hv by done. by left.
  - right. exists j, c, a. split; [by apply list_elem_of_further|done].
Qed.

(** Where an article of the final list comes from. *)
Lemma as_completed_articles order k acc a :
  a ∈ fst (daily_report.as_completed w all_raw_articles k order acc) ->
  a ∈ fst acc
  \/ exists i c, i ∈ order /\ all_raw_articles !! i = Some c /\ worker w i c = Some a.
Proof.
  revert k acc. induction order as [|i order IH]; intros k acc Ha; [by left|].
  simpl in Ha. apply IH in Ha as [Ha|(j & c & Hj & Hrest)].
  - unfold daily_report.record_result in Ha.
    destruct (all_raw_articles !! i) as [c|] eqn:Hc; [|by left].
    fold (worker w i c) in Ha.
    destruct (worker w i c) as [a'|] eqn:Ha'; [|by left].
    simpl in Ha. apply elem_of_app in Ha as [Ha|Ha]; [by left|].
    apply list_elem_of_singleton in Ha as ->.
    right. exists i, c. split; [apply list_elem_of_here|done].
  - right. exists j, c. split; [by apply list_elem_of_further|done].
Qed.

Lemma as_completed_all_fail order k acc :
  (forall i c, all_raw_articles !! i = Some c -> worker w i c = None) ->
  daily_report.as_completed w all_raw_articles k order acc = acc.
Proof.
  intros Hnone. revert k acc. induction order as [|i order IH]; intros k acc;
    [reflexivity|].
  simpl. rewrite record_result_None by (intros c; apply Hnone). apply IH.
Qed.

End run_facts.

Lemma load_history_save_ledger {P : Platform} (ledger : gmap string json) (d : disk) :
  daily_report.load_history (daily_report.save_ledger ledger d) = Some ledger.
Proof.
  unfold daily_report.load_history, daily_report.save_ledger. simpl.
  by rewrite list_to_map_to_list.
Qed.

Lemma not_added_refl {P : Platform} (url : string) (d : disk) : not_added url d d.
Proof. intros ledger v Hload Hv. eauto. Qed.

(** The shape of a run: it raises and leaves the disk alone, it finds
    nothing new and saves the purged ledger, every worker comes back empty
    and it leaves the disk alone, or it saves the ledger of the loop, writes
    the archive and sweeps it. *)
Lemma run_news_report_cases {P : Platform} (w : world) (d : disk) :
  let r := daily_report.run_news_report w d in
  r = (d, Raised)
  \/ r = (d, Returned)
  \/ (exists kept, purged w d = Some kept /\ fetched w kept = []
                   /\ r = (daily_report.save_ledger kept d, Returned))
  \/ (exists kept articles ledger,
        purged w d = Some kept
        /\ daily_report.as_completed w (fetched w kept) 0 (completion_order w)
             ([], kept) = (articles, ledger)
        /\ articles <> []
        /\ r = (daily_report.cleanup (clock_cleanup w)
                  (daily_report.write_archive (clock_archive w) (archive_mtime w)
                     (imap (fun i a => article.set_pdf_link (pdf_add_link w i) a)
                           articles)
                     (daily_report.save_ledger ledger d)),
                Returned)).
Proof.
  unfold daily_report.run_news_report. fold (purged w d).
  destruct (purged w d) as [kept|]; [|by left].
  fold (fetched w kept).
  destruct (fetched w kept) as [|c cands] eqn:Hfetch.
  { right. right. left. by exists kept. }
  destruct (daily_report.as_completed w (c :: cands) 0 (completion_order w) ([], kept))
    as [articles ledger] eqn:Hloop.
  destruct articles as [|a articles]; [by right; left|].
  destruct (report_steps_return w); [|by left].
  right. right. right. exists kept, (a :: articles), ledger.
  rewrite Hfetch. by repeat split.
Qed.

(** The ledger file after the archive write and the sweep is the one that
    was saved. *)
Lemma load_history_after_archive {P : Platform} (ledger : gmap string json)
    (d : disk) now modified published t :
  daily_report.load_history
    (daily_report.cleanup t
       (daily_report.write_archive now modified published
          (daily_report.save_ledger ledger d))) = Some ledger.
Proof.
  unfold daily_report.load_history, daily_report.cleanup, daily_report.write_archive.
  simpl. by rewrite list_to_map_to_list.
Qed.

Lemma worker_no_summary {P : Platform} (w : world) (i : nat) (c : candidate.t) :
  no_summary w i -> worker w i c = None.
Proof.
  intros Hnone. destruct (worker w i c) as [a|] eqn:Ha; [|reflexivity].
  apply process_single_article_Some in Ha as (_ & s & Hs & Hne & _).
  by destruct (Hne (Hnone s Hs)).
Qed.

Lemma never_answers_no_summary (w : world) (i : nat) :
  never_answers (summary_api w i) -> no_summary w i.
Proof.
  intros Hdown s Hs. by rewrite generate_axios_summary_down in Hs.
Qed.

(* ===================================================================== *)
(** * Summarization failure *)
(* ===================================================================== *)

(** C4, as stated, fails when two feeds serve the same link: the summary of
    the first copy fails on every attempt, the summary of the second copy
    succeeds, and the link is saved in the ledger. *)
Lemma summarization_failure_counterexample :
  ~ failed_summary_url_not_added (P := reference.platform)
      sample.twin_run sample.disk0.
Proof.
  intros Hclaim.
  specialize (Hclaim {[ "https://www.cfodive.com/news/new/" :=
                          JStr "2024-01-01T00:00:00.000001+00:00" ]}
                0 sample.twin_candidate).
  assert (Hadded : not_added (P := reference.platform)
                     (candidate.link sample.twin_candidate) sample.disk0
                     (fst (daily_report.run_news_report (P := reference.platform)
                             sample.twin_run sample.disk0))).
  { apply Hclaim.
    - vm_compute. reflexivity.
    - vm_compute. reflexivity.
    - intros n s. discriminate. }
  destruct (Hadded
              ({[ "https://www.truckingdive.com/news/acme/1/" :=
                    JStr "2024-01-15T00:02:00+00:00";
                  "https://www.cfodive.com/news/new/" :=
                    JStr "2024-01-01T00:00:00.000001+00:00" ]} : gmap string json)
              (JStr "2024-01-15T00:02:00+00:00"))
    as (ledger & Hload & Hbound).
  - vm_compute. reflexivity.
  - vm_compute. reflexivity.
  - vm_compute in Hload. injection Hload as <-.
    vm_compute in Hbound. discriminate.
Qed.

(** C4, amended. A candidate whose summary fails on every attempt yields no
    article: its worker returns nothing and its completion leaves the
    result list and the ledger as they are. Its URL is not added to the
    ledger the run saves, provided no other candidate of the run with the
    same URL yields an article. *)
Theorem summarization_failure_drop {P : Platform} (w : world) (d : disk)
    (kept : gmap string json) (i : nat) (c : candidate.t) :
  purged w d = Some kept ->
  fetched w kept !! i = Some c ->
  never_answers (summary_api w i) ->
  (forall j c', j <> i -> fetched w kept !! j = Some c' ->
                candidate.link c' = candidate.link c -> worker w j c' = None) ->
  worker w i c = None
  /\ (forall k acc, daily_report.record_result w (fetched w kept) k i acc = acc)
  /\ not_added (candidate.link c) d (fst (daily_report.run_news_report w d)).
Proof.
  intros Hkept Hc Hdown Hothers.
  assert (Hworker : worker w i c = None)
    by (apply worker_no_summary, never_answers_no_summary, Hdown).
  split; [exact Hworker|]. split.
  { intros k acc. apply record_result_None. intros c' Hc'. congruence. }
  destruct (run_news_report_cases w d)
    as [->|[->|[(kept' & Hkept' & Hnone & _)|(kept' & articles & ledger & Hkept' & Hloop & _ & ->)]]].
  - apply not_added_refl.
  - apply not_added_refl.
  - rewrite Hkept in Hkept'. injection Hkept' as <-. by rewrite Hnone in Hc.
  - rewrite Hkept in Hkept'. injection Hkept' as <-.
    intros ledger' v Hload Hv. simpl in Hload.
    rewrite load_history_after_archive in Hload. injection Hload as <-.
    pose proof (as_completed_ledger w (fetched w kept) (completion_order w) 0
                  ([], kept) (candidate.link c) v) as Hfrom.
    rewrite Hloop in Hfrom. destruct (Hfrom Hv) as [Hold|(j & c' & a & _ & Hc' & Ha & Hlink)].
    + simpl in Hold.
      assert (Hin : c ∈ fetched w kept) by (eapply list_elem_of_lookup_2; exact Hc).
      apply fetch_news_skips in Hin as [_ Hnew].
      destruct Hnew. apply elem_of_dom. eauto.
    + pose proof (process_single_article_Some _ _ _ _ _ Ha) as [Hlink' _].
      destruct (decide (j = i)) as [->|Hne]; [congruence|].
      rewrite (Hothers j c' Hne Hc') in Ha by congruence. discriminate.
Qed.

Lemma summarization_failure_drop_witness :
  purged (P := reference.platform) sample.failed_run sample.disk0
  = Some {[ "https://www.cfodive.com/news/new/" :=
              JStr "2024-01-01T00:00:00.000001+00:00" ]}
  /\ worker (P := reference.platform) sample.failed_run 0 sample.acme_candidate = None
  /\ not_added (P := reference.platform) (candidate.link sample.acme_candidate)
       sample.disk0
       (fst (daily_report.run_news_report (P := reference.platform)
               sample.failed_run sample.disk0)).
Proof.
  assert (Hkept : purged (P := reference.platform) sample.failed_run sample.disk0
                  = Some {[ "https://www.cfodive.com/news/new/" :=
                              JStr "2024-01-01T00:00:00.000001+00:00" ]})
    by (vm_compute; reflexivity).
  split; [exact Hkept|].
  destruct (summarization_failure_drop (P := reference.platform) sample.failed_run
              sample.disk0 _ 0 sample.acme_candidate Hkept) as (Hnone & _ & Hout).
  - vm_compute. reflexivity.
  - intros n s. discriminate.
  - intros [|j] c' Hne Hc'; [done|]. vm_compute in Hc'. discriminate.
  - by split.
Defined.

(* ===================================================================== *)
(** * A run in which every summary fails *)
(* ===================================================================== *)

(** C9. When the purge succeeds, at least one candidate is fetched and no
    candidate gets a usable summary, the run returns with the disk exactly
    as it was: the purged ledger is not saved, no archive file is written
    and the archive directory is not swept. *)
Theorem all_fail_run_persists_nothing {P : Platform} (w : world) (d : disk)
    (kept : gmap string json) :
  purged w d = Some kept ->
  fetched w kept <> [] ->
  (forall i c, fetched w kept !! i = Some c -> no_summary w i) ->
  daily_report.run_news_report w d = (d, Returned).
Proof.
  intros Hkept Hsome Hfail.
  unfold daily_report.run_news_report. fold (purged w d). rewrite Hkept.
  fold (fetched w kept).
  destruct (fetched w kept) as [|c cands] eqn:Hfetch; [done|].
  rewrite as_completed_all_fail; [reflexivity|].
  intros i c' Hc'. apply worker_no_summary. by apply (Hfail i c').
Qed.

Lemma all_fail_run_persists_nothing_witness :
  purged (P := reference.platform) sample.failed_run sample.disk0
  = Some {[ "https://www.cfodive.com/news/new/" :=
              JStr "2024-01-01T00:00:00.000001+00:00" ]}
  /\ fetched (P := reference.platform) sample.failed_run
       {[ "https://www.cfodive.com/news/new/" :=
            JStr "2024-01-01T00:00:00.000001+00:00" ]} = [sample.acme_candidate]
  /\ daily_report.run_news_report (P := reference.platform) sample.failed_run
       sample.disk0 = (sample.disk0, Returned).
Proof.
  assert (Hkept : purged (P := reference.platform) sample.failed_run sample.disk0
                  = Some {[ "https://www.cfodive.com/news/new/" :=
                              JStr "2024-01-01T00:00:00.000001+00:00" ]})
    by (vm_compute; reflexivity).
  assert (Hfetch : fetched (P := reference.platform) sample.failed_run
                     {[ "https://www.cfodive.com/news/new/" :=
                          JStr "2024-01-01T00:00:00.000001+00:00" ]}
                   = [sample.acme_candidate]) by (vm_compute; reflexivity).
  split; [exact Hkept|]. split; [exact Hfetch|].
  apply (all_fail_run_persists_nothing (P := reference.platform) sample.failed_run
           sample.disk0 _ Hkept).
  - rewrite Hfetch. discriminate.
  - intros i c _. apply never_answers_no_summary. intros n s. discriminate.
Defined.

(* ===================================================================== *)
(** * Eviction sweep *)
(* ===================================================================== *)

Lemma Qltb_lt (a b : Q) : Qltb a b = true <-> (a < b)%Q.
Proof.
  unfold Qltb. rewrite negb_true_iff. split.
  - intros Hle. apply Qnot_le_lt. intros Hba.
    apply Qle_bool_iff in Hba. congruence.
  - intros Hlt. destruct (Qle_bool b a) eqn:Hba; [|reflexivity].
    apply Qle_bool_iff in Hba. by apply Qlt_not_le in Hlt.
Qed.

Lemma sweep_evicted cutoff filename f acc :
  utility.sweep cutoff filename f acc
  = if evicted cutoff f then (delete filename (fst acc), (snd acc + 1)%Z) else acc.
Proof.
  unfold utility.sweep, evicted.
  destruct (mtime f) as [modified|]; [|reflexivity].
  destruct (Qltb modified cutoff), (removable f); reflexivity.
Qed.

(** The loop over the directory, started from any directory contents
    [start]: each listed file is looked at once, whatever happened to the
    files before it. *)
Lemma sweep_fold cutoff (files start : gmap string file) (n : Z) (filename : string) :
  fst (map_fold (utility.sweep cutoff) (start, n) files) !! filename
  = match files !! filename with
    | Some f => if evicted cutoff f then None else start !! filename
    | None => start !! filename
    end.
Proof.
  apply (map_fold_weak_ind
           (fun r m => fst r !! filename
                       = match m !! filename with
                         | Some f => if evicted cutoff f then None else start !! filename
                         | None => start !! filename
                         end)).
  - by rewrite lookup_empty.
  - intros i x m r Hfresh IH. rewrite sweep_evicted.
    destruct (decide (i = filename)) as [->|Hne].
    + rewrite lookup_insert_eq. rewrite Hfresh in IH.
      destruct (evicted cutoff x); [apply lookup_delete_eq|exact IH].
    + rewrite lookup_insert_ne by done.
      destruct (evicted cutoff x); [|exact IH].
      simpl. by rewrite lookup_delete_ne.
Qed.

Lemma cleanup_old_files_lookup (files : gmap string file) (days_to_keep : Z)
    (now : Q) :
  exists kept,
    fst (utility.cleanup_old_files (Some files) days_to_keep now) = Some kept
    /\ forall filename,
         kept !! filename
         = f ← files !! filename;
           if evicted (eviction_cutoff now days_to_keep) f then None else Some f.
Proof.
  unfold utility.cleanup_old_files. fold (eviction_cutoff now days_to_keep).
  destruct (map_fold _ _ _) as [kept deleted] eqn:Hfold.
  exists kept. split; [reflexivity|]. intros filename.
  pose proof (sweep_fold (eviction_cutoff now days_to_keep) files files 0 filename)
    as Hlookup.
  rewrite Hfold in Hlookup. simpl in Hlookup. rewrite Hlookup.
  destruct (files !! filename) as [f|]; simpl; [|reflexivity].
  by destruct (evicted _ f).
Qed.

(** C8. For every file of the directory, whatever the other files are and
    whatever fails on them: the file stays as it is unless the sweep deletes
    it; it is kept when examining it or removing it fails; when neither
    fails it is deleted iff its modification time is strictly before
    [now - days_to_keep * 86400] seconds. A file exactly at that instant is
    kept, a file one day older is deleted. *)
Theorem eviction_boundary (files : gmap string file) (days_to_keep : Z)
    (now : Q) (filename : string) (f : file) :
  files !! filename = Some f ->
  let cutoff := eviction_cutoff now days_to_keep in
  exists kept,
    fst (utility.cleanup_old_files (Some files) days_to_keep now) = Some kept
    /\ (kept !! filename = None \/ kept !! filename = Some f)
    /\ (mtime f = None \/ removable f = false -> kept !! filename = Some f)
    /\ (forall modified,
          mtime f = Some modified -> removable f = true ->
          (kept !! filename = None <-> (modified < cutoff)%Q))
    /\ (forall modified,
          mtime f = Some modified -> (modified == cutoff)%Q ->
          kept !! filename = Some f)
    /\ (forall modified,
          mtime f = Some modified -> removable f = true ->
          (modified == cutoff - 86400)%Q ->
          kept !! filename = None).
Proof.
  intros Hf cutoff.
  destruct (cleanup_old_files_lookup files days_to_keep now) as (kept & Hkept & Hlookup).
  exists kept. split; [exact Hkept|].
  specialize (Hlookup filename). rewrite Hf in Hlookup. simpl in Hlookup.
  fold cutoff in Hlookup. unfold evicted in Hlookup.
  split; [|split; [|split; [|split]]].
  - rewrite Hlookup. destruct (mtime f) as [m|]; [|by right].
    destruct (Qltb m cutoff && removable f); [by left|by right].
  - intros [Hstat|Hlocked]; rewrite Hlookup.
    + by rewrite Hstat.
    + rewrite Hlocked. destruct (mtime f); [by rewrite andb_false_r|done].
  - intros modified Hm Hrm. rewrite Hlookup, Hm, Hrm, andb_true_r.
    destruct (Qltb modified cutoff) eqn:Hlt.
    + split; [intros _; by apply Qltb_lt|reflexivity].
    + split; [discriminate|]. intros Hlt'. apply Qltb_lt in Hlt'. congruence.
  - intros modified Hm Heq. rewrite Hlookup, Hm.
    destruct (Qltb modified cutoff) eqn:Hlt; [|reflexivity].
    apply Qltb_lt in Hlt. lra.
  - intros modified Hm Hrm Heq. rewrite Hlookup, Hm, Hrm, andb_true_r.
    assert (Hlt : (modified < cutoff)%Q) by lra.
    apply Qltb_lt in Hlt. by rewrite Hlt.
Qed.

Lemma eviction_boundary_witness :
  sample.old_archive !! "news_2022-12-11.json" = Some sample.at_horizon
  /\ (inject_Z 1670717401 == eviction_cutoff sample.sweep_time 400)%Q
  /\ exists kept,
       fst (utility.cleanup_old_files (Some sample.old_archive) 400 sample.sweep_time)
       = Some kept
       /\ kept !! "news_2022-12-11.json" = Some sample.at_horizon.
Proof.
  assert (Hf : sample.old_archive !! "news_2022-12-11.json" = Some sample.at_horizon)
    by (vm_compute; reflexivity).
  assert (Heq : (inject_Z 1670717401 == eviction_cutoff sample.sweep_time 400)%Q)
    by (vm_compute; reflexivity).
  split; [exact Hf|]. split; [exact Heq|].
  destruct (eviction_boundary sample.old_archive 400 sample.sweep_time _ _ Hf)
    as (kept & Hkept & _ & _ & _ & Hedge & _).
  exists kept. split; [exact Hkept|].
  apply (Hedge (inject_Z 1670717401)); [reflexivity|exact Heq].
Defined.

(** The sweep of the sample directory: the file at the horizon, the one
    that cannot be examined and the one that cannot be removed stay; the
    file a day older goes, although it is listed among files that fail. *)
Example sweep_of_old_archive :
  utility.cleanup_old_files (Some sample.old_archive) 400 sample.sweep_time
  = (Some {[ "news_2022-12-11.json" := sample.at_horizon;
             "news_2022-12-09.json" := sample.unreadable;
             "news_2020-09-13.json" := sample.locked ]}, 1%Z).
Proof. vm_compute. reflexivity. Qed.

(* ===================================================================== *)
(** * Archive round trip *)
(* ===================================================================== *)

Section archive_facts.
Context {P : Platform}.

(** The file written for a day is what [load_day] reads for that day. *)
Lemma load_day_written (files : gmap string file) (today i : Z)
    (articles : list article.t) (modified : option Q) (can_remove : bool) :
  files !! utility.archive_name (today - i)
  = Some {| content := Some (JArr (map article.to_json articles));
            mtime := modified; removable := can_remove |} ->
  utility.load_day (Some files) today i = map article.to_json articles.
Proof. unfold utility.load_day. simpl. by intros ->. Qed.

(** The days of the range before and after a given one contribute before
    and after it. *)
Lemma load_archived_news_split (data_dir : option (gmap string file))
    (now days_to_analyze i : Z) :
  (0 <= i < days_to_analyze)%Z ->
  exists before after,
    utility.load_archived_news data_dir now days_to_analyze
    = before ++ utility.load_day data_dir (dt.date (dt.now_utc now)) i ++ after.
Proof.
  intros Hi. unfold utility.load_archived_news.
  assert (Hin : i ∈ seqZ 0 days_to_analyze) by (apply elem_of_seqZ; lia).
  apply list_elem_of_split in Hin as (l1 & l2 & ->).
  rewrite map_app, concat_app. simpl. eauto.
Qed.

(** The archive file of the day survives the sweep of the run that wrote
    it, unless the host dates it more than 400 days before the sweep. *)
Lemma archive_file_after_run (d : disk) (now : Z) (modified sweep_time : Q)
    (articles : list article.t) :
  ~ (modified < eviction_cutoff sweep_time 400)%Q ->
  exists files,
    daily_news_data (daily_report.cleanup sweep_time
                       (daily_report.write_archive now modified articles d))
    = Some files
    /\ files !! utility.archive_name (dt.date (now_eastern now))
       = Some {| content := Some (JArr (map article.to_json articles));
                 mtime := Some modified; removable := true |}.
Proof.
  intros Hfresh. unfold daily_report.cleanup, daily_report.write_archive. simpl.
  destruct (cleanup_old_files_lookup
              (<[utility.archive_name (dt.date (now_eastern now)) :=
                   {| content := Some (JArr (map article.to_json articles));
                      mtime := Some modified; removable := true |}]>
                 (default ∅ (daily_news_data d))) 400 sweep_time)
    as (kept & Hkept & Hlookup).
  exists kept. split; [exact Hkept|].
  rewrite Hlookup, lookup_insert_eq. simpl. unfold evicted. simpl.
  destruct (Qltb modified (eviction_cutoff sweep_time 400)) eqn:Hlt; [|reflexivity].
  apply Qltb_lt in Hlt. by destruct Hfresh.
Qed.

End archive_facts.

(** C2. The articles a run writes as the archive file of the day (the
    Eastern calendar date [D] of the write) are read back by every later
    load whose range of days contains [D]: the loaded list contains the
    written records, equal one by one and in the same order, between the
    records of the other days of the range. The file is taken as the run
    leaves it, after the sweep that ends the run, the host not dating it
    more than 400 days back. *)
Theorem archive_round_trip {P : Platform} (articles : list article.t) (d : disk)
    (now_write : Z) (modified sweep_time : Q) (now_load days_to_analyze i : Z) :
  ~ (modified < eviction_cutoff sweep_time 400)%Q ->
  (0 <= i < days_to_analyze)%Z ->
  (dt.date (dt.now_utc now_load) - i)%Z = dt.date (now_eastern now_write) ->
  exists before after,
    utility.load_archived_news
      (daily_news_data (daily_report.cleanup sweep_time
                          (daily_report.write_archive now_write modified articles d)))
      now_load days_to_analyze
    = before ++ map article.to_json articles ++ after.
Proof.
  intros Hfresh Hi Hday.
  destruct (archive_file_after_run d now_write modified sweep_time articles Hfresh)
    as (files & -> & Hfile).
  destruct (load_archived_news_split (Some files) now_load days_to_analyze i Hi)
    as (before & after & ->).
  exists before, after. do 2 f_equal.
  apply (load_day_written files _ _ articles (Some modified) true).
  by rewrite Hday.
Qed.

Lemma archive_round_trip_witness :
  (dt.date (dt.now_utc 1705277400000000) - 1)%Z
  = dt.date (now_eastern (P := reference.platform) 1705277400000000)
  /\ exists before after,
       utility.load_archived_news (P := reference.platform)
         (daily_news_data
            (daily_report.cleanup (inject_Z 1705277401)
               (daily_report.write_archive (P := reference.platform)
                  1705277400000000 (inject_Z 1705277400)
                  [sample.acme_article] sample.disk0)))
         1705277400000000 2
       = before ++ map article.to_json [sample.acme_article] ++ after.
Proof.
  split; [vm_compute; reflexivity|].
  apply (archive_round_trip (P := reference.platform) [sample.acme_article]
           sample.disk0 1705277400000000 (inject_Z 1705277400)
           (inject_Z 1705277401) 1705277400000000 2 1).
  - vm_compute. discriminate.
  - lia.
  - vm_compute. reflexivity.
Defined.

(** The day of the file is the Eastern date and the days of the range are
    UTC dates: a run at 19:10 Eastern time writes [news_2024-01-14.json],
    and a load of one day at the same instant, 00:10 UTC, looks for
    [news_2024-01-15.json] only. *)
Example load_of_one_day_after_evening_run :
  utility.load_archived_news (P := reference.platform)
    (daily_news_data
       (daily_report.cleanup (inject_Z 1705277401)
          (daily_report.write_archive (P := reference.platform)
             1705277400000000 (inject_Z 1705277400)
             [sample.acme_article] sample.disk0)))
    1705277400000000 1
  = [].
Proof. vm_compute. reflexivity. Qed.

(* ===================================================================== *)
(** * Weekly sentiment shares *)
(* ===================================================================== *)

Lemma key_eqb_str_r (v : json) (s : string) :
  collections.key_eqb v (JStr s) = true <-> v = JStr s.
Proof.
  destruct v; simpl; try (split; [discriminate|congruence]).
  rewrite String.eqb_eq. split; congruence.
Qed.

Lemma key_eqb_str_l (v : json) (s : string) :
  collections.key_eqb (JStr s) v = true <-> v = JStr s.
Proof.
  destruct v; simpl; try (split; [discriminate|congruence]).
  rewrite String.eqb_eq. split; congruence.
Qed.

(** Counting one more item changes the count of a string by one when the
    item is that string, and not at all otherwise. *)
Lemma get_tally (x : json) (counts : list (json * Z)) (s : string) :
  collections.get (collections.tally x counts) (JStr s)
  = (collections.get counts (JStr s)
     + if collections.key_eqb x (JStr s) then 1 else 0)%Z.
Proof.
  induction counts as [|[k n] counts IH]; simpl.
  - destruct (collections.key_eqb x (JStr s)); reflexivity.
  - destruct (collections.key_eqb k x) eqn:Hkx; simpl;
      destruct (collections.key_eqb k (JStr s)) eqn:Hks.
    + apply key_eqb_str_r in Hks as ->. apply key_eqb_str_l in Hkx as ->.
      simpl. by rewrite String.eqb_refl.
    + destruct (collections.key_eqb x (JStr s)) eqn:Hxs; [|lia].
      apply key_eqb_str_r in Hxs as ->. congruence.
    + destruct (collections.key_eqb x (JStr s)) eqn:Hxs; [|lia].
      apply key_eqb_str_r in Hxs as ->. congruence.
    + exact IH.
Qed.

Lemma total_tally (x : json) (counts : list (json * Z)) :
  collections.total (collections.tally x counts) = (collections.total counts + 1)%Z.
Proof.
  unfold collections.total.
  induction counts as [|[k n] counts IH]; simpl; [reflexivity|].
  destruct (collections.key_eqb k x); simpl; lia.
Qed.

Lemma get_fold_tally (items : list json) (counts : list (json * Z)) (s : string) :
  collections.get (fold_left (fun c x => collections.tally x c) items counts) (JStr s)
  = (collections.get counts (JStr s) + occurrences s items)%Z.
Proof.
  revert counts. induction items as [|x items IH]; intros counts; simpl; [lia|].
  rewrite IH, get_tally. lia.
Qed.

Lemma total_fold_tally (items : list json) (counts : list (json * Z)) :
  collections.total (fold_left (fun c x => collections.tally x c) items counts)
  = (collections.total counts + Z.of_nat (length items))%Z.
Proof.
  revert counts. induction items as [|x items IH]; intros counts; simpl; [lia|].
  rewrite IH, total_tally. lia.
Qed.

(** What a [Counter] knows about strings, and its total. *)
Lemma Counter_counts (items : list json) (counts : list (json * Z)) :
  collections.Counter items = Some counts ->
  collections.total counts = Z.of_nat (length items)
  /\ forall s, collections.get counts (JStr s) = occurrences s items.
Proof.
  unfold collections.Counter. destruct (forallb _ _); [|discriminate].
  intros [= <-]. split.
  - by rewrite total_fold_tally.
  - intros s. by rewrite get_fold_tally.
Qed.

(** The three labels never count the same item twice, and count no item
    that is ["Unknown"]. *)
Lemma occurrences_three (sentiments : list json) :
  (occurrences "Positive" sentiments + occurrences "Negative" sentiments
   + occurrences "Neutral" sentiments <= Z.of_nat (length sentiments))%Z
  /\ (JStr "Unknown" ∈ sentiments ->
      (occurrences "Positive" sentiments + occurrences "Negative" sentiments
       + occurrences "Neutral" sentiments < Z.of_nat (length sentiments))%Z).
Proof.
  induction sentiments as [|v sentiments [IHle IHlt]].
  - split; [simpl; lia|]. by intros ?%elem_of_nil.
  - assert (Hone : ((if collections.key_eqb v (JStr "Positive") then 1 else 0)
                    + (if collections.key_eqb v (JStr "Negative") then 1 else 0)
                    + (if collections.key_eqb v (JStr "Neutral") then 1 else 0)
                    <= 1)%Z).
    { destruct (collections.key_eqb v (JStr "Positive")) eqn:Hp;
        destruct (collections.key_eqb v (JStr "Negative")) eqn:Hn;
        destruct (collections.key_eqb v (JStr "Neutral")) eqn:Hu;
        try lia;
        repeat match goal with
               | H : collections.key_eqb v _ = true |- _ => apply key_eqb_str_r in H
               end; congruence. }
    split; [simpl length; simpl occurrences; lia|].
    intros [Hv|Hin]%elem_of_cons.
    + subst v. simpl length. simpl occurrences. simpl in Hone. lia.
    + specialize (IHlt Hin). simpl length. simpl occurrences. lia.
Qed.

(** C10, as stated, fails by rounding: of 2000 positive articles and one of
    unknown sentiment the summary reports 100.0%, 0.0% and 0.0%. *)
Lemma sentiment_rounding_counterexample :
  ~ unknown_keeps_reported_below_100 sample.mostly_positive.
Proof.
  intros Hclaim.
  destruct Hclaim as (summary & top & p & n & u & Hrun & Hp & Hn & Hu & Hlt).
  { exists (sample.labelled "Unknown"). split; [|reflexivity].
    apply elem_of_app. right. apply list_elem_of_here. }
  assert (Hreport : weekly_report.analyze_weekly_trends sample.mostly_positive
                    = Some ({| weekly_report.Positive := "100.0%";
                               weekly_report.Negative := "0.0%";
                               weekly_report.Neutral := "0.0%" |},
                            {| weekly_report.Top_Companies := [JStr "Acme Corp"];
                               weekly_report.Top_People := [];
                               weekly_report.Top_Topics := [] |}))
    by (vm_compute; reflexivity).
  rewrite Hreport in Hrun. injection Hrun as <- _.
  vm_compute in Hp, Hn, Hu.
  injection Hp as <-. injection Hn as <-. injection Hu as <-. lia.
Qed.

(** C10, amended. When the analysis returns, each of the three percentages
    is the one-decimal rendering of that sentiment's count divided by the
    number of all articles, those of sentiment ["Unknown"] or of any other
    sentiment included, and is ["0%"] for the empty list; when an article
    has sentiment ["Unknown"] the three counts add up to strictly less than
    the number of articles, so the three exact ratios add up to strictly
    less than one. *)
Theorem sentiment_shares (articles : list json)
    (summary : weekly_report.sentiment_summary) (top : weekly_report.top_entities) :
  weekly_report.analyze_weekly_trends articles = Some (summary, top) ->
  exists sentiments,
    mapM sentiment_of articles = Some sentiments
    /\ let total := Z.of_nat (length articles) in
       weekly_report.Positive summary = reported_share sentiments total "Positive"
       /\ weekly_report.Negative summary = reported_share sentiments total "Negative"
       /\ weekly_report.Neutral summary = reported_share sentiments total "Neutral"
       /\ (articles = [] ->
           summary = {| weekly_report.Positive := "0%";
                        weekly_report.Negative := "0%";
                        weekly_report.Neutral := "0%" |})
       /\ (JStr "Unknown" ∈ sentiments ->
           (occurrences "Positive" sentiments + occurrences "Negative" sentiments
            + occurrences "Neutral" sentiments < total)%Z).
Proof.
  unfold weekly_report.analyze_weekly_trends. fold sentiment_of.
  destruct (mapM sentiment_of articles) as [sentiments|] eqn:Hsent; [|discriminate].
  simpl. destruct (collections.Counter sentiments) as [counts|] eqn:Hcounts;
    [|discriminate].
  simpl. intros Hrest.
  destruct (Counter_counts _ _ Hcounts) as [Htotal Hget].
  pose proof (length_mapM _ _ _ Hsent) as Hlen.
  assert (Hsummary : summary
                     = {| weekly_report.Positive :=
                            reported_share sentiments (Z.of_nat (length articles)) "Positive";
                          weekly_report.Negative :=
                            reported_share sentiments (Z.of_nat (length articles)) "Negative";
                          weekly_report.Neutral :=
                            reported_share sentiments (Z.of_nat (length articles)) "Neutral" |}).
  { destruct (weekly_report.collect_entities articles _) as [[[companies people] topics]|];
      [|discriminate].
    simpl in Hrest.
    destruct (weekly_report.top5 companies); [|discriminate].
    destruct (weekly_report.top5 people); [|discriminate].
    destruct (weekly_report.top5 topics); [|discriminate].
    simpl in Hrest. injection Hrest as <- _.
    unfold weekly_report.share, reported_share.
    rewrite Htotal, !Hget, Hlen. reflexivity. }
  exists sentiments. split; [reflexivity|]. simpl.
  rewrite Hsummary. simpl. repeat split.
  - by intros ->.
  - rewrite Hlen. apply occurrences_three.
Qed.

Lemma sentiment_shares_witness :
  exists sentiments,
    mapM sentiment_of sample.small_week = Some sentiments
    /\ JStr "Unknown" ∈ sentiments
    /\ (occurrences "Positive" sentiments + occurrences "Negative" sentiments
        + occurrences "Neutral" sentiments < 4)%Z.
Proof.
  destruct (sentiment_shares sample.small_week
              {| weekly_report.Positive := "25.0%";
                 weekly_report.Negative := "25.0%";
                 weekly_report.Neutral := "0.0%" |}
              {| weekly_report.Top_Companies := [JStr "Acme Corp"];
                 weekly_report.Top_People := [];
                 weekly_report.Top_Topics := [] |})
    as (sentiments & Hsent & _ & _ & _ & _ & Hless).
  - vm_compute. reflexivity.
  - exists sentiments. split; [exact Hsent|].
    assert (Hin : JStr "Unknown" ∈ sentiments).
    { vm_compute in Hsent. injection Hsent as <-.
      apply list_elem_of_further, list_elem_of_here. }
    split; [exact Hin|]. exact (Hless Hin).
Defined.

(* ===================================================================== *)
(** * More on the retry loop *)
(* ===================================================================== *)

Lemma sleeps_app (tr1 tr2 : list event) :
  sleeps (tr1 ++ tr2) = sleeps tr1 ++ sleeps tr2.
Proof.
  induction tr1 as [|e tr1 IH]; [reflexivity|].
  destruct e; simpl; rewrite IH; reflexivity.
Qed.

Section retry_more.
Context {T : Type}.
Variable max_retries : Z.
Variable try_block : Z -> list event * option T.
Variable before_retry : Z -> list event.
Variable sentinel : T.

Local Abbreviation loop := (retry.while_attempt max_retries try_block before_retry sentinel).

Hypothesis one_call : forall a, calls (fst (try_block a)) = 1.
Hypothesis no_call_between : forall a, calls (before_retry a) = 0.

(** Whatever the attempts do, the loop invokes the service at most
    [max_retries - attempt] times. *)
Lemma while_attempt_calls_le (fuel : nat) (attempt : Z) tr v :
  loop fuel attempt = Some (tr, v) ->
  calls tr <= Z.to_nat (max_retries - attempt).
Proof.
  revert attempt tr v. induction fuel as [|fuel IH]; intros attempt tr v; [discriminate|].
  simpl. destruct (Z.ltb_spec attempt max_retries) as [Hlt|Hge].
  2:{ intros [= <- <-]. simpl. lia. }
  pose proof (one_call attempt) as Hone.
  destruct (try_block attempt) as [done [value|]]; simpl in Hone.
  { intros [= <- <-]. lia. }
  destruct (Z.geb_spec (attempt + 1) max_retries) as [Hlast|Hmore].
  { intros [= <- <-]. rewrite calls_app, Hone. simpl. lia. }
  destruct (loop fuel (attempt + 1)%Z) as [[rest value]|] eqn:Hrest; [|discriminate].
  intros [= <- <-]. apply IH in Hrest.
  rewrite !calls_app, Hone, no_call_between. lia.
Qed.

Lemma run_calls_le :
  calls (fst (retry.run max_retries try_block before_retry sentinel))
  <= Z.to_nat max_retries.
Proof.
  unfold retry.run.
  destruct (loop (S (Z.to_nat max_retries)) 0) as [[tr v]|] eqn:Hrun; [|simpl; lia].
  apply while_attempt_calls_le in Hrun. simpl. by rewrite Z.sub_0_r in Hrun.
Qed.

(** The loop returns the value of the first attempt that does not raise,
    after one invocation per attempt made. *)
Lemma while_attempt_first_value (fuel : nat) (attempt n : Z) (v : T) :
  (0 <= attempt <= n)%Z -> (n < max_retries)%Z ->
  (forall a, (attempt <= a < n)%Z -> snd (try_block a) = None) ->
  snd (try_block n) = Some v ->
  Z.to_nat (n - attempt) < fuel ->
  exists tr, loop fuel attempt = Some (tr, v)
             /\ calls tr = Z.to_nat (n - attempt + 1).
Proof.
  revert attempt. induction fuel as [|fuel IH]; intros attempt Hrange Hn Hfail Hv Hfuel;
    [lia|].
  simpl. destruct (Z.ltb_spec attempt max_retries) as [_|?]; [|lia].
  pose proof (one_call attempt) as Hone.
  destruct (decide (attempt = n)) as [->|Hne].
  - destruct (try_block n) as [done result]. simpl in Hv, Hone. subst result.
    eexists. split; [reflexivity|]. rewrite Hone. lia.
  - specialize (Hfail attempt ltac:(lia)) as Hnone.
    destruct (try_block attempt) as [done result]. simpl in Hnone, Hone. subst result.
    destruct (Z.geb_spec (attempt + 1) max_retries) as [?|_]; [lia|].
    destruct (IH (attempt + 1)%Z) as (rest & -> & Hrest); [lia|lia| |exact Hv|lia|].
    { intros a Ha. apply Hfail. lia. }
    eexists. split; [reflexivity|].
    rewrite !calls_app, Hone, no_call_between, Hrest. lia.
Qed.

Lemma run_first_value (n : Z) (v : T) :
  (0 <= n < max_retries)%Z ->
  (forall a, (0 <= a < n)%Z -> snd (try_block a) = None) ->
  snd (try_block n) = Some v ->
  exists tr, retry.run max_retries try_block before_retry sentinel = (tr, v)
             /\ calls tr = Z.to_nat (n + 1).
Proof.
  intros Hn Hfail Hv.
  destruct (while_attempt_first_value (S (Z.to_nat max_retries)) 0 n v)
    as (tr & Hrun & Hcalls); [lia|lia|exact Hfail|exact Hv|lia|].
  exists tr. split; [by apply run_unfold|]. rewrite Hcalls. f_equal. lia.
Qed.
End retry_more.

(** Each [try] block invokes the service exactly once. *)
Lemma axios_try_one_call api rng a :
  calls (fst (daily_report.axios_try api rng a)) = 1.
Proof. unfold daily_report.axios_try. by destruct (api (Z.to_nat a)). Qed.

Lemma analyze_content_try_one_call {P : Platform} api a :
  calls (fst (utility.analyze_content_try api a)) = 1.
Proof. unfold utility.analyze_content_try. by destruct (api (Z.to_nat a)). Qed.

Lemma takeaways_try_one_call api a : calls (fst (utility.takeaways_try api a)) = 1.
Proof. unfold utility.takeaways_try. by destruct (api (Z.to_nat a)). Qed.

Lemma company_selections_try_one_call {P : Platform} api a :
  calls (fst (utility.company_selections_try api a)) = 1.
Proof.
  unfold utility.company_selections_try.
  destruct (api (Z.to_nat a)); [done|done|]. by destruct (_ ≫= _).
Qed.

Lemma memo_try_one_call api a : calls (fst (utility.memo_try api a)) = 1.
Proof. unfold utility.memo_try. by destruct (api (Z.to_nat a)). Qed.

(** X1. Whatever the service does, no wrapper invokes it more than
    [max_retries] times in one call (not at all when [max_retries <= 0]);
    this holds for the summary, the analysis, the takeaways, the company
    selection and, when its prompt can be built, the memo. *)
Theorem retry_call_budget {P : Platform} (api : nat -> api_outcome) (rng : nat -> Q)
    (max_retries : Z) (articles : list article.t) (company_info financial_data : json) :
  calls (fst (daily_report.generate_axios_summary api rng max_retries))
    <= Z.to_nat max_retries
  /\ calls (fst (utility.analyze_content api rng max_retries)) <= Z.to_nat max_retries
  /\ calls (fst (utility.generate_hedge_fund_takeaways api rng articles max_retries))
       <= Z.to_nat max_retries
  /\ calls (fst (utility.get_company_selections api rng articles max_retries))
       <= Z.to_nat max_retries
  /\ match utility.generate_investment_memo api rng articles company_info
             financial_data max_retries with
     | Some memo => calls (fst memo) <= Z.to_nat max_retries
     | None => True
     end.
Proof.
  split; [|split; [|split; [|split]]].
  - apply run_calls_le; [apply axios_try_one_call|intros; apply calls_sleep_before_retry].
  - unfold utility.analyze_content.
    pose proof (run_calls_le max_retries (utility.analyze_content_try api)
                  (sleep_before_retry false rng) utility.analyze_content_failed
                  (analyze_content_try_one_call api)
                  (calls_sleep_before_retry false rng)) as Hle.
    by destruct (retry.run _ _ _ _).
  - unfold utility.generate_hedge_fund_takeaways.
    pose proof (run_calls_le max_retries (utility.takeaways_try api)
                  (sleep_before_retry true rng) None
                  (takeaways_try_one_call api)
                  (calls_sleep_before_retry true rng)) as Hle.
    by destruct (retry.run _ _ _ _).
  - unfold utility.get_company_selections.
    pose proof (run_calls_le max_retries (utility.company_selections_try api)
                  (sleep_before_retry false rng) JNull
                  (company_selections_try_one_call api)
                  (calls_sleep_before_retry false rng)) as Hle.
    by destruct (retry.run _ _ _ _).
  - unfold utility.generate_investment_memo.
    destruct (utility.memo_context company_info articles); [|done]. simpl.
    pose proof (run_calls_le max_retries (utility.memo_try api)
                  (sleep_before_retry false rng) None
                  (memo_try_one_call api)
                  (calls_sleep_before_retry false rng)) as Hle.
    by destruct (retry.run _ _ _ _).
Qed.

(** X2. When the first [n] invocations of the service fail and the next one
    yields a text, with [n < max_retries], the summary wrapper returns that
    text after exactly [n + 1] invocations. *)
Theorem summary_first_answer (api : nat -> api_outcome) (rng : nat -> Q)
    (max_retries : Z) (n : nat) (s : string) :
  (Z.of_nat n < max_retries)%Z ->
  (forall k t, k < n -> api k <> Text t) ->
  api n = Text s ->
  exists tr,
    daily_report.generate_axios_summary api rng max_retries = (tr, Some s)
    /\ calls tr = S n.
Proof.
  intros Hn Hfail Hs.
  destruct (run_first_value max_retries (daily_report.axios_try api rng)
              (sleep_before_retry true rng) None (axios_try_one_call api rng)
              (calls_sleep_before_retry true rng) (Z.of_nat n) (Some s))
    as (tr & Hrun & Hcalls).
  - lia.
  - intros a Ha. unfold daily_report.axios_try.
    destruct (api (Z.to_nat a)) eqn:E; [done|done|].
    destruct (Hfail (Z.to_nat a) s0); [lia|exact E].
  - unfold daily_report.axios_try. by rewrite Nat2Z.id, Hs.
  - exists tr. split; [exact Hrun|]. rewrite Hcalls. lia.
Qed.

Lemma summary_first_answer_witness :
  exists tr,
    daily_report.generate_axios_summary sample.third_time_lucky sample.no_jitter 3
    = (tr, Some sample.acme_summary)
    /\ calls tr = 3.
Proof.
  apply (summary_first_answer sample.third_time_lucky sample.no_jitter 3 2
           sample.acme_summary).
  - lia.
  - intros [|[|k]] t Hk; [discriminate|discriminate|lia].
  - reflexivity.
Defined.

(** X3. An answer that is not JSON once cleaned is retried like a failure
    of the service: [analyze_content] returns the value of the first answer
    that parses, after one invocation per answer read. *)
Theorem analysis_retries_malformed_answers {P : Platform} (api : nat -> api_outcome)
    (rng : nat -> Q) (max_retries : Z) (n : nat) (s : string) (v : json) :
  (Z.of_nat n < max_retries)%Z ->
  (forall k, k < n -> no_json (api k)) ->
  api n = Text s ->
  json_loads (utility.cleaned_text s) = Some v ->
  exists tr,
    utility.analyze_content api rng max_retries = (tr, v) /\ calls tr = S n.
Proof.
  intros Hn Hfail Hs Hv.
  destruct (run_first_value max_retries (utility.analyze_content_try api)
              (sleep_before_retry false rng) utility.analyze_content_failed
              (analyze_content_try_one_call api)
              (calls_sleep_before_retry false rng) (Z.of_nat n) v)
    as (tr & Hrun & Hcalls).
  - lia.
  - intros a Ha. unfold utility.analyze_content_try.
    destruct (api (Z.to_nat a)) eqn:E; [done|done|].
    simpl. apply (Hfail (Z.to_nat a)); [lia|exact E].
  - unfold utility.analyze_content_try. by rewrite Nat2Z.id, Hs.
  - exists (Log INFO :: tr). unfold utility.analyze_content. rewrite Hrun.
    split; [reflexivity|]. simpl. rewrite Hcalls. lia.
Qed.

Lemma analysis_retries_malformed_answers_witness :
  exists tr,
    utility.analyze_content (P := reference.platform) cases.third_is_json
      sample.no_jitter 3 = (tr, sample.verdict)
    /\ calls tr = 3.
Proof.
  apply (analysis_retries_malformed_answers (P := reference.platform)
           cases.third_is_json sample.no_jitter 3 2
           ("```json" +:+ reference.dumps sample.verdict +:+ "```") sample.verdict).
  - lia.
  - intros [|[|k]] Hk s Hs; [| |lia]; injection Hs as <-; vm_compute; reflexivity.
  - reflexivity.
  - vm_compute. reflexivity.
Defined.

Section backoff_schedule.
Context {T : Type}.
Variable max_retries : Z.
Variable try_block : Z -> list event * option T.
Variable rng : nat -> Q.
Variable warn : bool.
Variable sentinel : T.

Hypothesis raises_without_sleeping :
  forall a, snd (try_block a) = None /\ sleeps (fst (try_block a)) = [].

Lemma sleeps_sleep_before_retry a :
  sleeps (sleep_before_retry warn rng a) = [backoff a (draw_for_backoff rng a)].
Proof. unfold sleep_before_retry. by destruct warn. Qed.


End backoff_schedule.



(** X5. A company answer that parses to an object without the key
    [companies] is not retried: [get_company_selections] returns [None]
    after a single invocation. *)
Theorem company_selection_without_key {P : Platform} (api : nat -> api_outcome)
    (rng : nat -> Q) (articles : list article.t) (max_retries : Z)
    (s : string) (fields : list (string * json)) :
  (0 < max_retries)%Z ->
  api 0 = Text s ->
  json_loads (utility.cleaned_text s) = Some (JObj fields) ->
  py.assoc "companies" fields = None ->
  utility.get_company_selections api rng articles max_retries
  = ([Log INFO; Call; Log INFO], JNull).
Proof.
  intros Hm Hs Hjson Hkey.
  unfold utility.get_company_selections, retry.run. simpl.
  destruct (Z.ltb_spec 0 max_retries) as [_|?]; [|lia].
  unfold utility.company_selections_try.
  change (Z.to_nat 0) with 0%nat. rewrite Hs, Hjson. simpl.
  rewrite Hkey. reflexivity.
Qed.

Lemma company_selection_without_key_witness :
  utility.get_company_selections (P := reference.platform) cases.no_companies_key
    sample.no_jitter [sample.acme_article] 3
  = ([Log INFO; Call; Log INFO], JNull).
Proof.
  apply (company_selection_without_key (P := reference.platform)
           cases.no_companies_key sample.no_jitter [sample.acme_article] 3
           (reference.dumps (JObj [("tickers", JArr [JStr "ACME"])]))
           [("tickers", JArr [JStr "ACME"])]).
  - lia.
  - reflexivity.
  - vm_compute. reflexivity.
  - reflexivity.
Defined.

(* ===================================================================== *)
(** * The prompt of the memo *)
(* ===================================================================== *)

Lemma select_flagged {A} (keep : A -> bool) (l : list A) :
  map fst (filter (fun af => snd af = true) (zip l (keep <$> l)))
  = filter (fun a => keep a = true) l.
Proof.
  induction l as [|a l IH]; [reflexivity|].
  cbn [fmap list_fmap zip zip_with]. rewrite !filter_cons. cbn [snd].
  destruct (decide (keep a = true)); simpl; by rewrite IH.
Qed.

(** X6. For a company whose ticker and name are both strings, the memo
    prompt is built from exactly the articles whose summary contains the
    ticker or the name, in their original order. *)
Theorem memo_context_selects_mentions (company_info : json)
    (articles : list article.t) (ticker name : string) :
  py.get company_info "ticker" JNull = Some (JStr ticker) ->
  py.get company_info "name" JNull = Some (JStr name) ->
  utility.memo_context company_info articles
  = Some (filter (fun a => mentioned ticker name a = true) articles).
Proof.
  intros Hticker Hname. unfold utility.memo_context. rewrite Hticker. simpl.
  assert (Hflags : mapM (utility.mentions company_info) articles
                   = Some (mentioned ticker name <$> articles)).
  { apply mapM_Some. induction articles as [|a articles IH]; constructor; [|exact IH].
    unfold utility.mentions, mentioned. rewrite Hticker. simpl.
    destruct (py.is_substring ticker (article.summary a)); [reflexivity|].
    rewrite Hname. reflexivity. }
  rewrite Hflags. simpl. by rewrite select_flagged.
Qed.

Lemma memo_context_selects_mentions_witness :
  utility.memo_context sample.acme [cases.other_article; sample.acme_article]
  = Some [sample.acme_article].
Proof.
  rewrite (memo_context_selects_mentions sample.acme
             [cases.other_article; sample.acme_article] "ACME" "Acme Corp");
    reflexivity.
Defined.

(** X7. For a company with a ticker but without a name that is a string,
    building the memo prompt raises as soon as one article does not contain
    the ticker in its summary; when every article contains it, all of them
    are selected. *)
Theorem memo_context_without_name (company_info : json)
    (articles : list article.t) (ticker : string) (name : json) :
  py.get company_info "ticker" JNull = Some (JStr ticker) ->
  py.get company_info "name" JNull = Some name ->
  (forall s, name <> JStr s) ->
  ((exists a, a ∈ articles /\ py.is_substring ticker (article.summary a) = false) ->
   utility.memo_context company_info articles = None)
  /\ ((forall a, a ∈ articles -> py.is_substring ticker (article.summary a) = true) ->
      utility.memo_context company_info articles = Some articles).
Proof.
  intros Hticker Hname Hnot.
  assert (Hone : forall a,
             utility.mentions company_info a
             = if py.is_substring ticker (article.summary a) then Some true else None).
  { intros a. unfold utility.mentions. rewrite Hticker. simpl.
    destruct (py.is_substring ticker (article.summary a)); [reflexivity|].
    rewrite Hname. simpl. destruct name; try reflexivity. by destruct (Hnot s). }
  unfold utility.memo_context. rewrite Hticker. simpl. split.
  - intros (a & Ha & Hmiss).
    assert (Hflags : mapM (utility.mentions company_info) articles = None).
    { apply mapM_None, Exists_exists. exists a. split; [exact Ha|].
      by rewrite Hone, Hmiss. }
    by rewrite Hflags.
  - intros Hall.
    assert (Hflags : mapM (utility.mentions company_info) articles
                     = Some ((fun _ => true) <$> articles)).
    { apply mapM_Some. induction articles as [|a articles IH]; constructor.
      - rewrite Hone, Hall; [reflexivity|apply list_elem_of_here].
      - apply IH. intros a' Ha'. apply Hall. by apply list_elem_of_further. }
    rewrite Hflags. simpl. rewrite select_flagged.
    f_equal. clear. induction articles as [|a articles IH]; [reflexivity|].
    rewrite filter_cons. simpl. by rewrite IH.
Qed.

Lemma memo_context_without_name_witness :
  utility.memo_context cases.nameless [sample.acme_article; cases.other_article] = None
  /\ utility.memo_context cases.nameless [sample.acme_article]
     = Some [sample.acme_article].
Proof.
  destruct (memo_context_without_name cases.nameless
              [sample.acme_article; cases.other_article] "ACME" JNull)
    as [Hraises _]; [reflexivity|reflexivity|discriminate|].
  destruct (memo_context_without_name cases.nameless [sample.acme_article] "ACME" JNull)
    as [_ Hall]; [reflexivity|reflexivity|discriminate|].
  split.
  - apply Hraises. exists cases.other_article.
    split; [apply list_elem_of_further, list_elem_of_here|reflexivity].
  - apply Hall. intros a ->%list_elem_of_singleton. reflexivity.
Defined.

(* ===================================================================== *)
(** * More on the enrichment of one article *)
(* ===================================================================== *)

(** X8. [process_single_article] returns an article exactly when the
    summary call returns a non-empty text and the analysis call returns a
    JSON object; the article then carries the candidate's source, date,
    title, link and full-text flag, the summary, and the sentiment and
    entities of the analysis, ["Unknown"] and [{}] standing for a missing
    key. An analysis that is valid JSON but not an object (a list, a
    string, a number) drops the article. *)
Theorem process_single_article_emits_iff {P : Platform}
    (summary_service analysis_service : nat -> api_outcome) (rng : nat -> Q)
    (c : candidate.t) (a : article.t) :
  daily_report.process_single_article summary_service analysis_service rng c = Some a
  <-> exists ai_summary analysis,
        snd (daily_report.generate_axios_summary summary_service rng 3) = Some ai_summary
        /\ ai_summary <> ""
        /\ snd (utility.analyze_content analysis_service rng 3) = JObj analysis
        /\ a = enriched c ai_summary analysis.
Proof.
  unfold daily_report.process_single_article. split.
  - destruct (snd (daily_report.generate_axios_summary _ _ _)) as [s|]; [|discriminate].
    destruct (py.truthy_str s) eqn:Hs; [|discriminate].
    destruct (snd (utility.analyze_content _ _ _)) as [| | | |items|analysis];
      try discriminate.
    simpl. intros [= <-]. exists s, analysis.
    split; [reflexivity|]. split; [by apply truthy_str_true|]. by split.
  - intros (s & analysis & -> & Hne & -> & ->).
    apply truthy_str_true in Hne. rewrite Hne. reflexivity.
Qed.

(** A summary that succeeds does not save an article whose analysis comes
    back as a JSON list. *)
Example article_dropped_on_list_answer :
  daily_report.process_single_article (P := reference.platform) sample.summarizes
    cases.answers_a_list sample.no_jitter sample.acme_candidate = None.
Proof. vm_compute. reflexivity. Qed.

(* ===================================================================== *)
(** * More on the feed fetcher *)
(* ===================================================================== *)

Lemma fetch_news_app parse download sources1 sources2 max_per_source processed_urls :
  daily_report.fetch_news_from_sources parse download (sources1 ++ sources2)
    max_per_source processed_urls
  = daily_report.fetch_news_from_sources parse download sources1 max_per_source
      processed_urls
    ++ daily_report.fetch_news_from_sources parse download sources2 max_per_source
         processed_urls.
Proof.
  unfold daily_report.fetch_news_from_sources. by rewrite map_app, concat_app.
Qed.

Lemma length_slice_to {A} (k : Z) (l : list A) :
  (0 <= k)%Z -> length (py.slice_to k l) <= Z.to_nat k.
Proof.
  intros Hk. unfold py.slice_to.
  destruct (Z.leb_spec 0 k); [|lia]. apply firstn_le_length.
Qed.

Lemma length_omap_le {A B} (f : A -> option B) (l : list A) :
  length (omap f l) <= length l.
Proof.
  induction l as [|x l IH]; [reflexivity|]. simpl.
  destruct (f x); simpl; [apply le_n_S, IH|apply Nat.le_le_succ_r, IH].
Qed.

Lemma fetch_source_length parse download max_per_source processed_urls src :
  (0 <= max_per_source)%Z ->
  length (daily_report.fetch_source parse download max_per_source processed_urls src)
  <= Z.to_nat max_per_source.
Proof.
  intros Hmax. unfold daily_report.fetch_source.
  destruct (parse (news_source.url src)) as [|e entries]; [simpl; lia|].
  etrans; [apply length_omap_le|]. by apply length_slice_to.
Qed.

Lemma fetch_entry_fields download source_name processed_urls e c :
  daily_report.fetch_entry download source_name processed_urls e = Some c ->
  candidate.source c = source_name
  /\ candidate.title c = default "No Title" (entry.title e)
  /\ candidate.date c = default "" (entry.published e).
Proof.
  unfold daily_report.fetch_entry. intros Hc.
  destruct (decide _); [discriminate|].
  destruct (negb _); [discriminate|].
  destruct (daily_report.resolve_text _ _).
  destruct (_ && _); [|discriminate].
  by injection Hc as <-.
Qed.

(** X9. Every candidate the fetcher returns stems from one of the first
    [max_per_source] entries of the feed of one of the given sources: it
    carries that source's name and the entry's link, its title (["No
    Title"] when the entry has none) and its publication date ([""] when
    missing); its link is not empty and not in the processed set; and its
    text is longer than 100 characters. *)
Theorem candidate_provenance (parse : string -> list entry.t)
    (download : string -> option string) (sources : list news_source.t)
    (max_per_source : Z) (processed_urls : gset string) (c : candidate.t) :
  c ∈ daily_report.fetch_news_from_sources parse download sources max_per_source
        processed_urls ->
  100 < py.len (candidate.summary_text c)
  /\ candidate.link c <> ""
  /\ (candidate.link c ∉ processed_urls)
  /\ exists src e,
       src ∈ sources
       /\ e ∈ py.slice_to max_per_source (parse (news_source.url src))
       /\ candidate.source c = news_source.name src
       /\ entry.link e = Some (candidate.link c)
       /\ candidate.title c = default "No Title" (entry.title e)
       /\ candidate.date c = default "" (entry.published e).
Proof.
  intros (src & Hsrc & (e & He & Hc)%fetch_source_elem)%fetch_news_elem.
  destruct (fetch_entry_Some _ _ _ _ _ Hc) as (Hlink & Hne & Hnew & _ & Hlong).
  split; [exact Hlong|]. split; [exact Hne|]. split; [exact Hnew|].
  exists src, e. split; [exact Hsrc|]. split; [exact He|].
  assert (Hentry : entry.link e = Some (candidate.link c)).
  { destruct (entry.link e) as [l|]; simpl in Hlink; congruence. }
  destruct (fetch_entry_fields _ _ _ _ _ Hc) as (Hsource & Htitle & Hdate).
  by repeat split.
Qed.

Lemma candidate_provenance_witness :
  100 < py.len (candidate.summary_text sample.acme_candidate)
  /\ candidate.link sample.acme_candidate <> ""
  /\ (candidate.link sample.acme_candidate
      ∉ ({[ "https://www.cfodive.com/news/new/" ]} : gset string))
  /\ exists src e,
       src ∈ [sample.cfo_dive]
       /\ e ∈ py.slice_to 10 (sample.acme_feed (news_source.url src))
       /\ candidate.source sample.acme_candidate = news_source.name src
       /\ entry.link e = Some (candidate.link sample.acme_candidate)
       /\ candidate.title sample.acme_candidate = default "No Title" (entry.title e)
       /\ candidate.date sample.acme_candidate = default "" (entry.published e).
Proof.
  apply (candidate_provenance sample.acme_feed sample.acme_download
           [sample.cfo_dive] 10 {[ "https://www.cfodive.com/news/new/" ]}
           sample.acme_candidate).
  assert (Hfetch : daily_report.fetch_news_from_sources sample.acme_feed
                     sample.acme_download [sample.cfo_dive] 10
                     {[ "https://www.cfodive.com/news/new/" ]}
                   = [sample.acme_candidate]) by (vm_compute; reflexivity).
  rewrite Hfetch. apply list_elem_of_here.
Defined.

(** X10. With a non-negative [max_per_source], the fetcher returns at most
    [max_per_source] candidates for each source it is given, hence at most
    [max_per_source] times the number of sources in all. *)
Theorem fetch_respects_cap (parse : string -> list entry.t)
    (download : string -> option string) (sources : list news_source.t)
    (max_per_source : Z) (processed_urls : gset string) :
  (0 <= max_per_source)%Z ->
  length (daily_report.fetch_news_from_sources parse download sources
            max_per_source processed_urls)
  <= length sources * Z.to_nat max_per_source.
Proof.
  intros Hmax. induction sources as [|src sources IH]; [simpl; lia|].
  change (src :: sources) with ([src] ++ sources).
  rewrite fetch_news_app, length_app.
  unfold daily_report.fetch_news_from_sources at 1. simpl. rewrite app_nil_r.
  pose proof (fetch_source_length parse download max_per_source processed_urls src Hmax).
  lia.
Qed.

Lemma fetch_respects_cap_witness :
  length (daily_report.fetch_news_from_sources
            (fun _ => replicate 3 sample.acme_entry) sample.acme_download
            [sample.cfo_dive; cases.banking_dive] 2 ∅)
  <= 2 * Z.to_nat 2.
Proof.
  apply (fetch_respects_cap (fun _ => replicate 3 sample.acme_entry)
           sample.acme_download [sample.cfo_dive; cases.banking_dive] 2 ∅).
  lia.
Defined.

(** X11. Candidates come out source by source, in the order of the sources,
    and a source whose feed yields no entries contributes nothing: the
    candidates of the sources before and after it are those of a fetch
    without it. *)
Theorem feed_outage_skips_source (parse : string -> list entry.t)
    (download : string -> option string) (before after : list news_source.t)
    (src : news_source.t) (max_per_source : Z) (processed_urls : gset string) :
  parse (news_source.url src) = [] ->
  daily_report.fetch_news_from_sources parse download (before ++ src :: after)
    max_per_source processed_urls
  = daily_report.fetch_news_from_sources parse download before max_per_source
      processed_urls
    ++ daily_report.fetch_news_from_sources parse download after max_per_source
         processed_urls.
Proof.
  intros Hdown. change (src :: after) with ([src] ++ after).
  rewrite !fetch_news_app. f_equal.
  unfold daily_report.fetch_news_from_sources at 1. simpl.
  unfold daily_report.fetch_source. by rewrite Hdown.
Qed.

Lemma feed_outage_skips_source_witness :
  daily_report.fetch_news_from_sources sample.acme_feed sample.acme_download
    ([] ++ cases.banking_dive :: [sample.cfo_dive]) 10 ∅
  = [] ++ [sample.acme_candidate].
Proof.
  rewrite (feed_outage_skips_source sample.acme_feed sample.acme_download []
             [sample.cfo_dive] cases.banking_dive 10 ∅); reflexivity.
Defined.

Lemma omap_sublist {A B} (f g : A -> option B) (l : list A) :
  (forall x, f x = None \/ f x = g x) -> omap f l `sublist_of` omap g l.
Proof.
  intros Hfg. induction l as [|x l IH]; [constructor|]. simpl.
  destruct (Hfg x) as [->| ->].
  - destruct (g x); [by apply sublist_cons|exact IH].
  - destruct (g x); [by apply sublist_skip|exact IH].
Qed.

(** X12. Adding URLs to the processed set only removes candidates: the
    fetch with the larger set returns a sublist, in the same order, of the
    fetch with the smaller one. *)
Theorem fetch_antitone_in_processed (parse : string -> list entry.t)
    (download : string -> option string) (sources : list news_source.t)
    (max_per_source : Z) (processed1 processed2 : gset string) :
  processed1 ⊆ processed2 ->
  daily_report.fetch_news_from_sources parse download sources max_per_source processed2
  `sublist_of`
  daily_report.fetch_news_from_sources parse download sources max_per_source processed1.
Proof.
  intros Hsub. induction sources as [|src sources IH]; [constructor|].
  change (src :: sources) with ([src] ++ sources). rewrite !fetch_news_app.
  apply sublist_app; [|exact IH].
  unfold daily_report.fetch_news_from_sources. simpl. rewrite !app_nil_r.
  unfold daily_report.fetch_source.
  destruct (parse (news_source.url src)) as [|e entries]; [constructor|].
  apply omap_sublist. intros x. by apply fetch_entry_mono.
Qed.

Lemma fetch_antitone_in_processed_witness :
  daily_report.fetch_news_from_sources sample.acme_feed sample.acme_download
    [sample.cfo_dive] 10 {[ "https://www.cfodive.com/news/acme/1/" ]}
  `sublist_of`
  daily_report.fetch_news_from_sources sample.acme_feed sample.acme_download
    [sample.cfo_dive] 10 ∅.
Proof.
  apply (fetch_antitone_in_processed sample.acme_feed sample.acme_download
           [sample.cfo_dive] 10 ∅ {[ "https://www.cfodive.com/news/acme/1/" ]}).
  apply empty_subseteq.
Defined.

(* ===================================================================== *)
(** * More on the run *)
(* ===================================================================== *)

Section ledger_accounting.
Context {P : Platform}.
Variable w : world.
Variable kept : gmap string json.
Variable all_raw_articles : list candidate.t.
Hypothesis fresh : forall c, c ∈ all_raw_articles -> kept !! candidate.link c = None.

Lemma accounted_start : accounted w kept 0 ([], kept).
Proof.
  split; [done|]. split.
  - by intros a ?%elem_of_nil.
  - intros url v Hv. by left.
Qed.

Lemma accounted_record k i acc :
  accounted w kept k acc ->
  accounted w kept (S k) (daily_report.record_result w all_raw_articles k i acc).
Proof.
  intros (Hsub & Harts & Hvals). unfold daily_report.record_result.
  destruct (all_raw_articles !! i) as [c|] eqn:Hc.
  2:{ split; [done|]. split; [done|]. intros url v Hv.
      destruct (Hvals url v Hv) as [?|[? (k' & ? & ?)]]; [by left|right].
      split; [done|]. exists k'. split; [lia|done]. }
  fold (worker w i c). destruct (worker w i c) as [a|] eqn:Ha.
  2:{ split; [done|]. split; [done|]. intros url v Hv.
      destruct (Hvals url v Hv) as [?|[? (k' & ? & ?)]]; [by left|right].
      split; [done|]. exists k'. split; [lia|done]. }
  apply process_single_article_Some in Ha as [Hlink _].
  assert (Hnew : kept !! article.link a = None).
  { rewrite Hlink. apply fresh. eapply list_elem_of_lookup_2. exact Hc. }
  unfold accounted. cbn [fst snd]. split; [by apply insert_subseteq_r|]. split.
  - intros a' [Ha'| ->%list_elem_of_singleton]%elem_of_app.
    + destruct (Harts a' Ha') as [? Hin]. split; [done|].
      apply lookup_insert_is_Some'. by right.
    + split; [done|]. apply lookup_insert_is_Some'. by left.
  - intros url v Hv. destruct (decide (article.link a = url)) as [<-|Hne].
    + rewrite lookup_insert_eq in Hv. injection Hv as <-. right. split.
      * exists a. split; [apply elem_of_app; right; apply list_elem_of_here|done].
      * exists k. split; [lia|reflexivity].
    + rewrite lookup_insert_ne in Hv by done.
      destruct (Hvals url v Hv) as [?|[(a' & ? & ?) (k' & ? & ?)]]; [by left|right].
      split; [exists a'; split; [apply elem_of_app; by left|done]|].
      exists k'. split; [lia|done].
Qed.

Lemma accounted_as_completed order k acc :
  accounted w kept k acc ->
  accounted w kept (k + length order)
    (daily_report.as_completed w all_raw_articles k order acc).
Proof.
  revert k acc. induction order as [|i order IH]; intros k acc Hacc.
  - simpl. by rewrite Nat.add_0_r.
  - simpl. replace (k + S (length order)) with (S k + length order) by lia.
    apply IH. by apply accounted_record.
Qed.

End ledger_accounting.

Lemma fetched_fresh {P : Platform} (w : world) (kept : gmap string json) c :
  c ∈ fetched w kept -> kept !! candidate.link c = None.
Proof.
  intros [_ Hnew]%fetch_news_skips. by apply not_elem_of_dom.
Qed.

Lemma enrichment_accounted {P : Platform} (w : world) (kept : gmap string json) :
  accounted w kept (length (completion_order w)) (enrichment w kept).
Proof.
  apply (accounted_as_completed w kept (fetched w kept) (fetched_fresh w kept)
           (completion_order w) 0 ([], kept)).
  apply accounted_start.
Qed.

(** A run that has enriched something and whose report steps return ends by
    saving the ledger, writing the archive and sweeping it. *)
Lemma run_news_report_success {P : Platform} (w : world) (d : disk)
    (kept ledger : gmap string json) (articles : list article.t) :
  purged w d = Some kept ->
  enrichment w kept = (articles, ledger) ->
  articles <> [] ->
  report_steps_return w = true ->
  daily_report.run_news_report w d
  = (daily_report.cleanup (clock_cleanup w)
       (daily_report.write_archive (clock_archive w) (archive_mtime w)
          (published w articles) (daily_report.save_ledger ledger d)),
     Returned).
Proof.
  intros Hkept Hloop Hsome Hreport.
  unfold daily_report.run_news_report. fold (purged w d). rewrite Hkept.
  fold (fetched w kept). unfold enrichment in Hloop.
  destruct (fetched w kept) as [|c cands] eqn:Hfetch.
  { rewrite as_completed_all_fail in Hloop by (intros i c; by rewrite lookup_nil).
    injection Hloop as <- _. done. }
  rewrite Hloop. destruct articles as [|a articles]; [done|].
  by rewrite Hreport.
Qed.

(** X13. A run that finds no new candidate saves the purged ledger, so the
    purge is persisted, and returns without touching the archive. *)
Theorem run_without_candidates_saves_purge {P : Platform} (w : world) (d : disk)
    (kept : gmap string json) :
  purged w d = Some kept ->
  fetched w kept = [] ->
  snd (daily_report.run_news_report w d) = Returned
  /\ daily_report.load_history (fst (daily_report.run_news_report w d)) = Some kept
  /\ daily_news_data (fst (daily_report.run_news_report w d)) = daily_news_data d.
Proof.
  intros Hkept Hnone.
  unfold daily_report.run_news_report. fold (purged w d). rewrite Hkept.
  fold (fetched w kept). rewrite Hnone. simpl.
  split; [reflexivity|]. split; [apply load_history_save_ledger|reflexivity].
Qed.

Lemma run_without_candidates_saves_purge_witness :
  snd (daily_report.run_news_report (P := reference.platform) cases.quiet_run
         sample.disk0) = Returned
  /\ daily_report.load_history
       (fst (daily_report.run_news_report (P := reference.platform) cases.quiet_run
               sample.disk0))
     = Some {[ "https://www.cfodive.com/news/new/" :=
                 JStr "2024-01-01T00:00:00.000001+00:00" ]}
  /\ daily_news_data
       (fst (daily_report.run_news_report (P := reference.platform) cases.quiet_run
               sample.disk0)) = daily_news_data sample.disk0.
Proof.
  apply (run_without_candidates_saves_purge (P := reference.platform)
           cases.quiet_run sample.disk0).
  - vm_compute. reflexivity.
  - vm_compute. reflexivity.
Defined.

(** X14. A ledger file that holds JSON other than an object, or an object
    with a value that is not a timestamp carrying a UTC offset, makes the
    run raise before it fetches anything; nothing is written. A missing or
    undecodable file, by contrast, is read as the empty ledger. *)
Theorem unreadable_ledger_aborts_run {P : Platform} (w : world) (d : disk) :
  ((exists v, processed_urls_json d = Some v /\ forall fields, v <> JObj fields)
   \/ (exists history url v,
         daily_report.load_history d = Some history
         /\ history !! url = Some v
         /\ ~ aware_timestamp v) ->
   daily_report.run_news_report w d = (d, Raised))
  /\ (processed_urls_json d = None -> daily_report.load_history d = Some ∅).
Proof.
  split.
  - intros Hbad.
    assert (Hnone : purged w d = None).
    { unfold purged. destruct Hbad as [(v & Hv & Hnot)|(history & url & v & -> & Hv & Hbad)].
      - unfold daily_report.load_history. rewrite Hv.
        destruct v; try reflexivity. by destruct (Hnot fields).
      - simpl. unfold daily_report.urls_to_keep.
        destruct (decide _) as [Hall|]; [|reflexivity].
        destruct Hbad. specialize (Hall url v Hv). simpl in Hall.
        destruct Hall as [b Hb]. unfold daily_report.newer_than in Hb.
        destruct v as [| | |s| |]; try discriminate.
        destruct (fromisoformat s) as [t|] eqn:Hparse; [|discriminate].
        simpl in Hb. unfold dt.gt in Hb. simpl in Hb.
        destruct (dt.utcoffset t) as [off|] eqn:Hoff; [|discriminate].
        by exists s, t, off. }
    unfold daily_report.run_news_report. fold (purged w d). by rewrite Hnone.
  - unfold daily_report.load_history. by intros ->.
Qed.

Lemma unreadable_ledger_aborts_run_witness :
  daily_report.run_news_report (P := reference.platform) sample.summarized_run
    cases.list_ledger = (cases.list_ledger, Raised)
  /\ daily_report.run_news_report (P := reference.platform) sample.summarized_run
       cases.naive_ledger = (cases.naive_ledger, Raised).
Proof.
  split.
  - apply (unreadable_ledger_aborts_run (P := reference.platform)
             sample.summarized_run cases.list_ledger).
    left. exists (JArr []). split; [reflexivity|discriminate].
  - apply (unreadable_ledger_aborts_run (P := reference.platform)
             sample.summarized_run cases.naive_ledger).
    right. eexists _, "https://www.cfodive.com/news/old/", (JStr "2024-01-10T08:00:00").
    split; [reflexivity|]. split; [vm_compute; reflexivity|].
    intros (s & t & off & [= <-] & Hparse & Hoff).
    vm_compute in Hparse. injection Hparse as <-. discriminate.
Defined.

(** X15. When articles were enriched but [generate_pdf], the e-mail step
    or the removal of the temporary file raises, the run ends with that
    exception before line 349: neither the ledger nor the archive is
    written, so the URLs just enriched are not recorded. *)
Theorem failed_report_persists_nothing {P : Platform} (w : world) (d : disk)
    (kept : gmap string json) :
  purged w d = Some kept ->
  fst (enrichment w kept) <> [] ->
  report_steps_return w = false ->
  daily_report.run_news_report w d = (d, Raised).
Proof.
  intros Hkept Hsome Hreport.
  unfold daily_report.run_news_report. fold (purged w d). rewrite Hkept.
  fold (fetched w kept). unfold enrichment in Hsome.
  destruct (fetched w kept) as [|c cands] eqn:Hfetch.
  { rewrite as_completed_all_fail in Hsome by (intros i c; by rewrite lookup_nil).
    done. }
  destruct (daily_report.as_completed _ _ _ _ _) as [articles ledger].
  simpl in Hsome. destruct articles; [done|]. by rewrite Hreport.
Qed.

Lemma failed_report_persists_nothing_witness :
  fst (enrichment (P := reference.platform) cases.undelivered_run
         {[ "https://www.cfodive.com/news/new/" :=
              JStr "2024-01-01T00:00:00.000001+00:00" ]}) <> []
  /\ daily_report.run_news_report (P := reference.platform) cases.undelivered_run
       sample.disk0 = (sample.disk0, Raised).
Proof.
  assert (Hsome : fst (enrichment (P := reference.platform) cases.undelivered_run
                         {[ "https://www.cfodive.com/news/new/" :=
                              JStr "2024-01-01T00:00:00.000001+00:00" ]}) <> [])
    by (vm_compute; discriminate).
  split; [exact Hsome|].
  apply (failed_report_persists_nothing (P := reference.platform)
           cases.undelivered_run sample.disk0 _ ltac:(vm_compute; reflexivity) Hsome).
  reflexivity.
Defined.

Lemma enrichment_stamps {P : Platform} (w : world) (kept : gmap string json) a :
  a ∈ fst (enrichment w kept) ->
  exists k, k < length (completion_order w)
            /\ snd (enrichment w kept) !! article.link a = Some (stamp w k).
Proof.
  intros Ha. destruct (enrichment_accounted w kept) as (_ & Harts & Hvals).
  destruct (Harts a Ha) as [Hnew [v Hv]].
  destruct (Hvals _ v Hv) as [Hold|[_ (k & Hk & ->)]]; [congruence|].
  exists k. split; [exact Hk|exact Hv].
Qed.

Lemma run_news_report_enriched {P : Platform} (w : world) (d : disk)
    (kept : gmap string json) :
  purged w d = Some kept ->
  fst (enrichment w kept) <> [] ->
  report_steps_return w = true ->
  snd (daily_report.run_news_report w d) = Returned
  /\ daily_report.load_history (fst (daily_report.run_news_report w d))
     = Some (snd (enrichment w kept)).
Proof.
  intros Hkept Hsome Hreport.
  rewrite (run_news_report_success w d kept (snd (enrichment w kept))
             (fst (enrichment w kept)) Hkept (surjective_pairing _) Hsome Hreport).
  split; [reflexivity|apply load_history_after_archive].
Qed.

(** X16. After a run that enriched at least one article and delivered its
    report, the ledger on disk is the purged ledger extended by one entry
    per enriched article: old entries keep their timestamp, the link of
    every enriched article is bound to the UTC time at which one of the
    results was collected, and nothing else is added. *)
Theorem successful_run_ledger {P : Platform} (w : world) (d : disk)
    (kept : gmap string json) :
  purged w d = Some kept ->
  fst (enrichment w kept) <> [] ->
  report_steps_return w = true ->
  snd (daily_report.run_news_report w d) = Returned
  /\ daily_report.load_history (fst (daily_report.run_news_report w d))
     = Some (snd (enrichment w kept))
  /\ kept ⊆ snd (enrichment w kept)
  /\ (forall a, a ∈ fst (enrichment w kept) ->
        kept !! article.link a = None
        /\ exists k, k < length (completion_order w)
                     /\ snd (enrichment w kept) !! article.link a = Some (stamp w k))
  /\ (forall url, kept !! url = None ->
        is_Some (snd (enrichment w kept) !! url) ->
        exists a, a ∈ fst (enrichment w kept) /\ article.link a = url).
Proof.
  intros Hkept Hsome Hreport.
  destruct (run_news_report_enriched w d kept Hkept Hsome Hreport) as [Hend Hload].
  destruct (enrichment_accounted w kept) as (Hsub & Harts & Hvals).
  split; [exact Hend|]. split; [exact Hload|]. split; [exact Hsub|]. split.
  - intros a Ha. split; [by apply Harts|by apply enrichment_stamps].
  - intros url Hnew [v Hv].
    destruct (Hvals url v Hv) as [Hold|[Hart _]]; [congruence|exact Hart].
Qed.

Lemma successful_run_ledger_witness :
  snd (daily_report.run_news_report (P := reference.platform) sample.summarized_run
         sample.disk0) = Returned
  /\ daily_report.load_history
       (fst (daily_report.run_news_report (P := reference.platform)
               sample.summarized_run sample.disk0))
     = Some (snd (enrichment (P := reference.platform) sample.summarized_run cases.kept0))
  /\ cases.kept0 ⊆ snd (enrichment (P := reference.platform) sample.summarized_run
                          cases.kept0)
  /\ (forall a, a ∈ fst (enrichment (P := reference.platform) sample.summarized_run
                           cases.kept0) ->
        cases.kept0 !! article.link a = None
        /\ exists k, k < length (completion_order sample.summarized_run)
                     /\ snd (enrichment (P := reference.platform) sample.summarized_run
                               cases.kept0) !! article.link a
                        = Some (stamp (P := reference.platform) sample.summarized_run k))
  /\ (forall url, cases.kept0 !! url = None ->
        is_Some (snd (enrichment (P := reference.platform) sample.summarized_run
                        cases.kept0) !! url) ->
        exists a, a ∈ fst (enrichment (P := reference.platform) sample.summarized_run
                             cases.kept0)
                  /\ article.link a = url).
Proof.
  apply (successful_run_ledger (P := reference.platform) sample.summarized_run
           sample.disk0 cases.kept0).
  - vm_compute. reflexivity.
  - vm_compute. discriminate.
  - reflexivity.
Defined.

Section next_run.
Context {P : Platform}.

Lemma newer_than_readable_at (now now' : Z) (v : json) :
  is_Some (daily_report.newer_than
             (dt.minus_days (dt.now_utc now) daily_report.RETENTION_DAYS) v) ->
  is_Some (daily_report.newer_than
             (dt.minus_days (dt.now_utc now') daily_report.RETENTION_DAYS) v).
Proof.
  unfold daily_report.newer_than. destruct v as [| | |s| |]; try done.
  destruct (fromisoformat s) as [t|]; [|done]. simpl. unfold dt.gt. simpl.
  destruct (dt.utcoffset t); [eauto|done].
Qed.

Lemma urls_to_keep_Some (history kept : gmap string json) (now : Z) :
  daily_report.urls_to_keep history now = Some kept ->
  kept = filter (fun entry =>
                   daily_report.newer_than
                     (dt.minus_days (dt.now_utc now) daily_report.RETENTION_DAYS)
                     (snd entry) = Some true) history.
Proof.
  unfold daily_report.urls_to_keep. destruct (decide _); [|discriminate].
  by intros [= <-].
Qed.

Lemma urls_to_keep_readable (history : gmap string json) (now : Z) :
  (forall url v, history !! url = Some v ->
     is_Some (daily_report.newer_than
                (dt.minus_days (dt.now_utc now) daily_report.RETENTION_DAYS) v)) ->
  daily_report.urls_to_keep history now
  = Some (filter (fun entry =>
                    daily_report.newer_than
                      (dt.minus_days (dt.now_utc now) daily_report.RETENTION_DAYS)
                      (snd entry) = Some true) history).
Proof.
  intros Hall. unfold daily_report.urls_to_keep.
  destruct (decide _) as [|Hno]; [reflexivity|]. destruct Hno. exact Hall.
Qed.

Lemma purged_Some (w : world) (d : disk) (kept : gmap string json) :
  purged w d = Some kept ->
  exists history,
    daily_report.load_history d = Some history
    /\ daily_report.urls_to_keep history (clock_purge w) = Some kept.
Proof.
  unfold purged. destruct (daily_report.load_history d) as [history|]; [|discriminate].
  simpl. intros Hkept. by exists history.
Qed.

Lemma stamp_newer_than (w : world) (k : nat) (now : Z) :
  fromisoformat (isoformat (dt.now_utc (clock_completed w k)))
  = Some (dt.now_utc (clock_completed w k)) ->
  daily_report.newer_than
    (dt.minus_days (dt.now_utc now) daily_report.RETENTION_DAYS) (stamp w k)
  = Some (purge_cutoff now <? clock_completed w k)%Z.
Proof.
  intros Hround. unfold stamp.
  rewrite (newer_than_aware now _ _ (clock_completed w k) Hround).
  - reflexivity.
  - unfold dt.instant. simpl. f_equal. lia.
Qed.

(** The ledger a successful run leaves can be purged by any later run. *)
Lemma next_purge (w w2 : world) (d : disk) (kept : gmap string json) :
  purged w d = Some kept ->
  fst (enrichment w kept) <> [] ->
  report_steps_return w = true ->
  (forall k, k < length (completion_order w) ->
     fromisoformat (isoformat (dt.now_utc (clock_completed w k)))
     = Some (dt.now_utc (clock_completed w k))) ->
  purged w2 (fst (daily_report.run_news_report w d))
  = Some (filter (fun entry =>
                    daily_report.newer_than
                      (dt.minus_days (dt.now_utc (clock_purge w2))
                         daily_report.RETENTION_DAYS)
                      (snd entry) = Some true) (snd (enrichment w kept))).
Proof.
  intros Hkept Hsome Hreport Hround.
  destruct (run_news_report_enriched w d kept Hkept Hsome Hreport) as [_ Hload].
  unfold purged. rewrite Hload.
  change (daily_report.urls_to_keep (snd (enrichment w kept)) (clock_purge w2) = Some
            (filter (fun entry =>
                       daily_report.newer_than
                         (dt.minus_days (dt.now_utc (clock_purge w2))
                            daily_report.RETENTION_DAYS)
                         (snd entry) = Some true) (snd (enrichment w kept)))).
  apply urls_to_keep_readable. intros url v Hv.
  destruct (enrichment_accounted w kept) as (_ & _ & Hvals).
  destruct (Hvals url v Hv) as [Hold|[_ (k & Hk & ->)]].
  - destruct (purged_Some w d kept Hkept) as (history & _ & Hpurge).
    apply urls_to_keep_Some in Hpurge. rewrite Hpurge in Hold.
    apply map_lookup_filter_Some in Hold as [_ Hnewer]. simpl in Hnewer.
    apply (newer_than_readable_at (clock_purge w)). rewrite Hnewer. eauto.
  - rewrite stamp_newer_than by auto. eauto.
Qed.

End next_run.

(** X17. Deduplication across runs. After a run that delivered its report,
    a later run whose purge time is less than 14 days after the results
    were collected reads the ledger without error, keeps the link of every
    article of the earlier run, and fetches no candidate with such a link.
    The timestamps written are assumed to be read back as written. *)
Theorem enriched_links_not_refetched {P : Platform} (w w2 : world) (d : disk)
    (kept : gmap string json) :
  purged w d = Some kept ->
  fst (enrichment w kept) <> [] ->
  report_steps_return w = true ->
  (forall k, k < length (completion_order w) ->
     fromisoformat (isoformat (dt.now_utc (clock_completed w k)))
     = Some (dt.now_utc (clock_completed w k))) ->
  (forall k, k < length (completion_order w) ->
     (purge_cutoff (clock_purge w2) < clock_completed w k)%Z) ->
  exists kept2,
    purged w2 (fst (daily_report.run_news_report w d)) = Some kept2
    /\ forall a, a ∈ fst (enrichment w kept) ->
         is_Some (kept2 !! article.link a)
         /\ forall c, c ∈ fetched w2 kept2 -> candidate.link c <> article.link a.
Proof.
  intros Hkept Hsome Hreport Hround Hrecent.
  eexists. split; [by apply next_purge|].
  intros a Ha. destruct (enrichment_stamps w kept a Ha) as (k & Hk & Hstamp).
  match goal with |- is_Some (?m !! _) /\ _ => set (kept2 := m) end.
  assert (Hin : is_Some (kept2 !! article.link a)).
  { exists (stamp w k). apply map_lookup_filter_Some. split; [exact Hstamp|].
    cbn [snd]. rewrite stamp_newer_than by auto. f_equal. apply Z.ltb_lt. auto. }
  split; [exact Hin|]. intros c Hc Heq.
  apply fetched_fresh in Hc. rewrite Heq in Hc. rewrite Hc in Hin.
  by destruct Hin.
Qed.

Lemma enriched_links_not_refetched_witness :
  exists kept2,
    purged (P := reference.platform) cases.next_day_run
      (fst (daily_report.run_news_report (P := reference.platform)
              sample.summarized_run sample.disk0)) = Some kept2
    /\ forall a, a ∈ fst (enrichment (P := reference.platform) sample.summarized_run
                            cases.kept0) ->
         is_Some (kept2 !! article.link a)
         /\ forall c, c ∈ fetched (P := reference.platform) cases.next_day_run kept2 ->
              candidate.link c <> article.link a.
Proof.
  apply (enriched_links_not_refetched (P := reference.platform)
           sample.summarized_run cases.next_day_run sample.disk0 cases.kept0).
  - vm_compute. reflexivity.
  - vm_compute. discriminate.
  - reflexivity.
  - intros [|k] Hk; [vm_compute; reflexivity|simpl in Hk; lia].
  - intros [|k] Hk; [vm_compute; reflexivity|simpl in Hk; lia].
Defined.

(** In the sample, the article enriched on 2024-01-15 is not fetched again
    on 2024-01-16, although the feed still serves it. *)
Example nothing_to_fetch_the_next_day :
  fetched (P := reference.platform) sample.summarized_run cases.kept0
  = [sample.acme_candidate]
  /\ (purged (P := reference.platform) cases.next_day_run
        (fst (daily_report.run_news_report (P := reference.platform)
                sample.summarized_run sample.disk0))
      ≫= fun kept2 => Some (fetched (P := reference.platform) cases.next_day_run kept2))
     = Some [].
Proof. split; vm_compute; reflexivity. Qed.

(* ===================================================================== *)
(** * Grouping by source *)
(* ===================================================================== *)

Lemma grouped_articles_snoc (l : list article.t) (a : article.t) :
  report.grouped_articles (l ++ [a])
  = <[article.source a :=
        default [] (report.grouped_articles l !! article.source a) ++ [a]]>
      (report.grouped_articles l).
Proof. unfold report.grouped_articles. by rewrite fold_left_app. Qed.

(** X18. The grouping for the PDF binds a source exactly when at least one
    summarized article has it, and then to all the articles of that source
    in the order in which they were summarized; no group is empty and no
    article is lost or duplicated. *)
Theorem grouped_articles_lookup (summarized_articles : list article.t) (s : string) :
  report.grouped_articles summarized_articles !! s
  = match of_source s summarized_articles with
    | [] => None
    | group => Some group
    end.
Proof.
  induction summarized_articles as [|a l IH] using rev_ind.
  - unfold report.grouped_articles. simpl. apply lookup_empty.
  - rewrite grouped_articles_snoc. unfold of_source in *. rewrite filter_app.
    destruct (decide (article.source a = s)) as [Heq|Hne].
    + rewrite filter_singleton_True by (done || exact []).
      rewrite Heq, lookup_insert_eq, IH.
      destruct (filter _ l); reflexivity.
    + rewrite filter_singleton_False by (done || exact []).
      rewrite lookup_insert_ne by done. by rewrite app_nil_r.
Qed.

(* ===================================================================== *)
(** * More on the eviction sweep *)
(* ===================================================================== *)

Lemma sweep_count cutoff (files start : gmap string file) (n : Z) :
  snd (map_fold (utility.sweep cutoff) (start, n) files)
  = (n + Z.of_nat (size files) - Z.of_nat (size (filter (survives cutoff) files)))%Z.
Proof.
  apply (map_fold_weak_ind
           (fun r m => snd r = (n + Z.of_nat (size m)
                                - Z.of_nat (size (filter (survives cutoff) m)))%Z)).
  - rewrite map_filter_empty, map_size_empty. simpl. lia.
  - intros i x m r Hfresh IH. rewrite sweep_evicted.
    rewrite map_size_insert_None by done.
    destruct (evicted cutoff x) eqn:Hx.
    + rewrite map_filter_insert_not'.
      * simpl. lia.
      * unfold survives. simpl. congruence.
      * intros y. by rewrite Hfresh.
    + rewrite map_filter_insert_True by exact Hx.
      rewrite map_size_insert_None.
      * lia.
      * apply map_lookup_filter_None_2. by left.
Qed.

Lemma cleanup_old_files_eq (files : gmap string file) (days_to_keep : Z) (now : Q) :
  utility.cleanup_old_files (Some files) days_to_keep now
  = (Some (filter (survives (eviction_cutoff now days_to_keep)) files),
     (Z.of_nat (size files)
      - Z.of_nat (size (filter (survives (eviction_cutoff now days_to_keep)) files)))%Z).
Proof.
  destruct (cleanup_old_files_lookup files days_to_keep now) as (kept & Hkept & Hlookup).
  assert (Hfilter : kept = filter (survives (eviction_cutoff now days_to_keep)) files).
  { apply map_eq. intros filename. rewrite Hlookup. symmetry.
    destruct (files !! filename) as [f|] eqn:Hf; simpl.
    - destruct (evicted (eviction_cutoff now days_to_keep) f) eqn:He.
      + apply map_lookup_filter_None_2. right. intros f' Hf'.
        assert (f' = f) as -> by congruence. unfold survives. simpl. congruence.
      + apply map_lookup_filter_Some. split; [exact Hf|exact He].
    - apply map_lookup_filter_None_2. by left. }
  revert Hkept. unfold utility.cleanup_old_files.
  fold (eviction_cutoff now days_to_keep).
  pose proof (sweep_count (eviction_cutoff now days_to_keep) files files 0) as Hcount.
  destruct (map_fold _ _ _) as [kept' deleted]. simpl in *.
  intros [= ->]. rewrite Hcount, <- Hfilter. f_equal; lia.
Qed.

Lemma evicted_mono (cutoff cutoff' : Q) (f : file) :
  (cutoff <= cutoff')%Q -> evicted cutoff f = true -> evicted cutoff' f = true.
Proof.
  unfold evicted. intros Hle. destruct (mtime f) as [modified|]; [|done].
  rewrite !andb_true_iff, !Qltb_lt. intros [Hlt Hrm]. split; [|exact Hrm].
  eapply Qlt_le_trans; eauto.
Qed.

(** X19. The sweep leaves exactly the files it does not evict, each as it
    was, and the count it logs is the number of files that disappeared; a
    directory that does not exist is left alone and nothing is counted. *)
Theorem cleanup_accounting (files : gmap string file) (days_to_keep : Z) (now : Q) :
  utility.cleanup_old_files None days_to_keep now = (None, 0%Z)
  /\ exists kept,
       utility.cleanup_old_files (Some files) days_to_keep now
       = (Some kept, (Z.of_nat (size files) - Z.of_nat (size kept))%Z)
       /\ kept ⊆ files
       /\ forall filename f,
            files !! filename = Some f ->
            kept !! filename
            = if evicted (eviction_cutoff now days_to_keep) f then None else Some f.
Proof.
  split; [reflexivity|].
  exists (filter (survives (eviction_cutoff now days_to_keep)) files).
  split; [apply cleanup_old_files_eq|]. split; [apply map_filter_subseteq|].
  intros filename f Hf.
  destruct (evicted (eviction_cutoff now days_to_keep) f) eqn:He.
  - apply map_lookup_filter_None_2. right. intros f' Hf'.
    assert (f' = f) as -> by congruence. unfold survives. simpl. congruence.
  - apply map_lookup_filter_Some. split; [exact Hf|exact He].
Qed.

(** X20. Two sweeps compose: sweeping at [now] and again at a later time
    [later] leaves the directory that a single sweep at [later] leaves, and
    the two counts add up to the count of that single sweep. In particular
    a second sweep at the same clock reading deletes nothing. *)
Theorem cleanup_twice (files : gmap string file) (days_to_keep : Z) (now later : Q) :
  (now <= later)%Q ->
  let first := utility.cleanup_old_files (Some files) days_to_keep now in
  let second := utility.cleanup_old_files (fst first) days_to_keep later in
  let single := utility.cleanup_old_files (Some files) days_to_keep later in
  fst second = fst single /\ (snd first + snd second = snd single)%Z.
Proof.
  intros Hle. cbv zeta. rewrite (cleanup_old_files_eq files days_to_keep now).
  cbn [fst snd]. rewrite !cleanup_old_files_eq. cbn [fst snd].
  assert (Hcut : (eviction_cutoff now days_to_keep
                  <= eviction_cutoff later days_to_keep)%Q).
  { unfold eviction_cutoff. lra. }
  rewrite map_filter_filter_l.
  - split; [reflexivity|lia].
  - intros filename f _ Hlater. unfold survives in *. simpl in *.
    destruct (evicted (eviction_cutoff now days_to_keep) f) eqn:He; [|reflexivity].
    apply (evicted_mono _ _ _ Hcut) in He. congruence.
Qed.

Lemma cleanup_twice_witness :
  fst (utility.cleanup_old_files
         (fst (utility.cleanup_old_files (Some sample.old_archive) 400
                 sample.sweep_time)) 400 (sample.sweep_time + 86400))
  = fst (utility.cleanup_old_files (Some sample.old_archive) 400
           (sample.sweep_time + 86400))
  /\ (snd (utility.cleanup_old_files (Some sample.old_archive) 400 sample.sweep_time)
      + snd (utility.cleanup_old_files
               (fst (utility.cleanup_old_files (Some sample.old_archive) 400
                       sample.sweep_time)) 400 (sample.sweep_time + 86400))
      = snd (utility.cleanup_old_files (Some sample.old_archive) 400
               (sample.sweep_time + 86400)))%Z.
Proof.
  apply (cleanup_twice sample.old_archive 400 sample.sweep_time
           (sample.sweep_time + 86400)).
  vm_compute. discriminate.
Defined.

(** In the sample the first sweep deletes the file one day past the horizon
    and the sweep of the next day the file that was at the horizon. *)
Example sweep_counts_of_old_archive :
  snd (utility.cleanup_old_files (Some sample.old_archive) 400 sample.sweep_time) = 1%Z
  /\ snd (utility.cleanup_old_files
            (fst (utility.cleanup_old_files (Some sample.old_archive) 400
                    sample.sweep_time)) 400 (sample.sweep_time + 86400)) = 1%Z
  /\ snd (utility.cleanup_old_files (Some sample.old_archive) 400
            (sample.sweep_time + 86400)) = 2%Z.
Proof. repeat split; vm_compute; reflexivity. Qed.

(* ===================================================================== *)
(** * More on the archive loader *)
(* ===================================================================== *)

(** X21. The loader reads the days most recent first: widening the range
    by one day appends the records of the next older day to what the
    narrower range gives. A range of zero or fewer days, and a directory
    that does not exist, give the empty list. *)
Theorem load_archived_news_widen {P : Platform}
    (data_dir : option (gmap string file)) (now days_to_analyze : Z) :
  ((0 <= days_to_analyze)%Z ->
   utility.load_archived_news data_dir now (days_to_analyze + 1)
   = utility.load_archived_news data_dir now days_to_analyze
     ++ utility.load_day data_dir (dt.date (dt.now_utc now)) days_to_analyze)
  /\ ((days_to_analyze <= 0)%Z ->
      utility.load_archived_news data_dir now days_to_analyze = [])
  /\ utility.load_archived_news None now days_to_analyze = [].
Proof.
  unfold utility.load_archived_news. split; [|split].
  - intros Hn. rewrite seqZ_app by lia. rewrite map_app, concat_app.
    f_equal. rewrite seqZ_cons by lia. rewrite seqZ_nil by lia. simpl.
    by rewrite app_nil_r.
  - intros Hn. by rewrite seqZ_nil.
  - induction (seqZ 0 days_to_analyze) as [|i l IH]; [reflexivity|].
    simpl. exact IH.
Qed.

Lemma load_archived_news_widen_witness :
  utility.load_archived_news (P := reference.platform) (Some cases.corrupt_archive)
    sample.now (2 + 1)
  = utility.load_archived_news (P := reference.platform) (Some cases.corrupt_archive)
      sample.now 2
    ++ utility.load_day (P := reference.platform) (Some cases.corrupt_archive)
         (dt.date (dt.now_utc sample.now)) 2.
Proof.
  apply (load_archived_news_widen (P := reference.platform)
           (Some cases.corrupt_archive) sample.now 2).
  lia.
Defined.

(** X22. A file of the range that cannot be read or decoded, or that
    holds a JSON value that cannot be iterated (a number, a boolean,
    null), does not stop the load: the result is what the loader returns
    when the file is not there. *)
Theorem load_skips_unreadable_file {P : Platform} (files : gmap string file)
    (now days_to_analyze : Z) (filename : string) (f : file) :
  files !! filename = Some f ->
  content f ≫= py.iter = None ->
  utility.load_archived_news (Some files) now days_to_analyze
  = utility.load_archived_news (Some (delete filename files)) now days_to_analyze.
Proof.
  intros Hf Hbad. unfold utility.load_archived_news. f_equal.
  apply map_ext. intros i. unfold utility.load_day. simpl.
  destruct (decide (utility.archive_name (dt.date (dt.now_utc now) - i) = filename))
    as [->|Hne].
  - rewrite Hf, lookup_delete_eq. by rewrite Hbad.
  - by rewrite lookup_delete_ne.
Qed.

Lemma load_skips_unreadable_file_witness :
  utility.load_archived_news (P := reference.platform) (Some cases.corrupt_archive)
    sample.now 7
  = utility.load_archived_news (P := reference.platform)
      (Some (delete "news_2024-01-14.json" cases.corrupt_archive)) sample.now 7.
Proof.
  apply (load_skips_unreadable_file (P := reference.platform) cases.corrupt_archive
           sample.now 7 "news_2024-01-14.json"
           {| content := Some (JInt 7); mtime := Some (inject_Z 1705191000);
              removable := true |}).
  - vm_compute. reflexivity.
  - reflexivity.
Defined.

(** The corrupt sample: only the records of 2024-01-13 are loaded. *)
Example load_of_corrupt_archive :
  utility.load_archived_news (P := reference.platform) (Some cases.corrupt_archive)
    sample.now 7 = [article.to_json sample.acme_article].
Proof. vm_compute. reflexivity. Qed.

(* ===================================================================== *)
(** * Counters and the ranking of entities *)
(* ===================================================================== *)

Lemma key_eqb_canon (a b : json) :
  collections.key_eqb a b = true <-> exists k, canon a = Some k /\ canon b = Some k.
Proof.
  destruct a, b; simpl; rewrite ?Z.eqb_eq, ?String.eqb_eq;
    (split; [intros H; try discriminate; try (rewrite H); eauto
            |intros (k & H1 & H2); try discriminate; congruence]).
Qed.

Lemma hashable_canon (x : json) : collections.hashable x = true <-> is_Some (canon x).
Proof.
  destruct x; simpl; split; intros H; eauto; try discriminate; by destruct H.
Qed.

Lemma key_eqb_refl (x : json) : is_Some (canon x) -> collections.key_eqb x x = true.
Proof. intros [k Hk]. apply key_eqb_canon. eauto. Qed.

Lemma key_eqb_sym (x y : json) :
  collections.key_eqb x y = true -> collections.key_eqb y x = true.
Proof. rewrite !key_eqb_canon. intros (k & ? & ?). eauto. Qed.

Lemma key_eqb_trans (k x y : json) :
  collections.key_eqb k x = true ->
  collections.key_eqb k y = collections.key_eqb x y.
Proof.
  intros (c & Hk & Hx)%key_eqb_canon. apply eq_true_iff_eq.
  rewrite !key_eqb_canon. split; intros (c' & ? & ?); exists c'; split; congruence.
Qed.

Lemma key_eqb_same_canon (x y : json) :
  is_Some (canon x) -> canon x = canon y -> collections.key_eqb x y = true.
Proof. intros [k Hk] Heq. apply key_eqb_canon. exists k. split; congruence. Qed.

Lemma get_tally_any (x y : json) (counts : list (json * Z)) :
  collections.get (collections.tally x counts) y
  = (collections.get counts y + if collections.key_eqb x y then 1 else 0)%Z.
Proof.
  induction counts as [|[k n] counts IH]; simpl.
  - destruct (collections.key_eqb x y); reflexivity.
  - destruct (collections.key_eqb k x) eqn:Hkx; simpl.
    + rewrite <- (key_eqb_trans k x y Hkx). destruct (collections.key_eqb k y); lia.
    + destruct (collections.key_eqb k y) eqn:Hky; [|exact IH].
      destruct (collections.key_eqb x y) eqn:Hxy; [|lia].
      rewrite (key_eqb_trans k y x Hky) in Hkx.
      apply key_eqb_sym in Hxy. congruence.
Qed.

Lemma get_fold_tally_any (items : list json) (counts : list (json * Z)) (y : json) :
  collections.get (fold_left (fun c x => collections.tally x c) items counts) y
  = (collections.get counts y + times_named y items)%Z.
Proof.
  revert counts. induction items as [|x items IH]; intros counts; simpl; [lia|].
  rewrite IH, get_tally_any. lia.
Qed.

Lemma tally_hashed (x : json) (counts : list (json * Z)) :
  is_Some (canon x) -> hashed counts -> hashed (collections.tally x counts).
Proof.
  intros Hx. unfold hashed. induction counts as [|[k n] counts IH]; simpl; intros Hall.
  - constructor; [|constructor]. split; [exact Hx|simpl; lia].
  - apply Forall_cons in Hall as [[Hk Hn] Hrest]. simpl in Hk, Hn.
    destruct (collections.key_eqb k x).
    + constructor; [|exact Hrest]. split; [exact Hk|simpl; lia].
    + constructor; [by split|by apply IH].
Qed.

Lemma tally_keys (x : json) (counts : list (json * Z)) (c : option key) :
  c ∈ canon_keys (collections.tally x counts) <-> c ∈ canon_keys counts \/ c = canon x.
Proof.
  unfold canon_keys. induction counts as [|[k n] counts IH]; simpl.
  - rewrite list_elem_of_singleton. split; [by right|].
    intros [Hno| ->]; [by apply elem_of_nil in Hno|reflexivity].
  - destruct (collections.key_eqb k x) eqn:Hkx; simpl.
    + split; [by left|]. intros [Hc| ->]; [exact Hc|].
      apply key_eqb_canon in Hkx as (c' & Hk & Hx). rewrite Hx, <- Hk.
      apply list_elem_of_here.
    + rewrite !elem_of_cons, IH. tauto.
Qed.

Lemma tally_NoDup (x : json) (counts : list (json * Z)) :
  is_Some (canon x) ->
  NoDup (canon_keys counts) -> NoDup (canon_keys (collections.tally x counts)).
Proof.
  intros Hx. induction counts as [|[k n] counts IH]; simpl; intros Hnd.
  - apply NoDup_singleton.
  - apply NoDup_cons in Hnd as [Hk Hrest].
    destruct (collections.key_eqb k x) eqn:Hkx; simpl.
    + apply NoDup_cons. by split.
    + apply NoDup_cons. split; [|by apply IH].
      intros [Hin|Heq]%tally_keys; [by apply Hk|].
      assert (collections.key_eqb x k = true) as Hxk
        by (apply key_eqb_same_canon; [exact Hx|by symmetry]).
      apply key_eqb_sym in Hxk. congruence.
Qed.

Lemma fold_tally_facts (items : list json) (counts : list (json * Z)) :
  Forall (fun x => collections.hashable x = true) items ->
  hashed counts -> NoDup (canon_keys counts) ->
  let counted := fold_left (fun c x => collections.tally x c) items counts in
  hashed counted /\ NoDup (canon_keys counted)
  /\ forall x, x ∈ items -> canon x ∈ canon_keys counted.
Proof.
  revert counts. induction items as [|x items IH]; intros counts Hitems Hh Hnd; simpl.
  - split; [exact Hh|]. split; [exact Hnd|]. by intros x ?%elem_of_nil.
  - apply Forall_cons in Hitems as [Hx Hitems]. apply hashable_canon in Hx.
    destruct (IH (collections.tally x counts) Hitems (tally_hashed x counts Hx Hh)
                (tally_NoDup x counts Hx Hnd)) as (Hh' & Hnd' & Hin').
    split; [exact Hh'|]. split; [exact Hnd'|].
    intros y [->|Hy]%elem_of_cons; [|by apply Hin'].
    clear -items. revert counts.
    induction items as [|z items IH]; intros counts; simpl.
    + apply tally_keys. by right.
    + assert (Hstep : forall c cs, c ∈ canon_keys cs ->
                c ∈ canon_keys (fold_left (fun c x => collections.tally x c) items
                                  (collections.tally z cs))).
      { intros c cs Hc. clear IH. revert cs Hc z.
        induction items as [|u items IHi]; intros cs Hc z; simpl.
        - apply tally_keys. by left.
        - apply IHi. apply tally_keys. by left. }
      apply Hstep. apply tally_keys. by right.
Qed.

Lemma Counter_is_Some (items : list json) :
  is_Some (collections.Counter items)
  <-> Forall (fun x => collections.hashable x = true) items.
Proof.
  unfold collections.Counter.
  destruct (forallb collections.hashable items) eqn:Hall.
  - split; [|eauto]. intros _. apply Forall_forall. intros x Hx.
    rewrite forallb_forall in Hall. apply Hall. by apply list_elem_of_In.
  - split; [by intros [? ?]|]. intros Hok.
    assert (forallb collections.hashable items = true) as Hyes; [|congruence].
    apply forallb_forall. intros x Hx. rewrite Forall_forall in Hok.
    apply Hok. by apply list_elem_of_In.
Qed.

Lemma Counter_facts (items : list json) (counts : list (json * Z)) :
  collections.Counter items = Some counts ->
  hashed counts /\ NoDup (canon_keys counts)
  /\ (forall x, x ∈ items -> canon x ∈ canon_keys counts)
  /\ forall y, collections.get counts y = times_named y items.
Proof.
  intros Hc. assert (Hall : Forall (fun x => collections.hashable x = true) items)
    by (apply Counter_is_Some; eauto).
  unfold collections.Counter in Hc. destruct (forallb _ _); [|discriminate].
  injection Hc as <-.
  destruct (fold_tally_facts items [] Hall) as (Hh & Hnd & Hin).
  { constructor. }
  { constructor. }
  split; [exact Hh|]. split; [exact Hnd|]. split; [exact Hin|].
  intros y. by rewrite get_fold_tally_any.
Qed.

Lemma get_same_canon (counts : list (json * Z)) (x y : json) :
  canon x = canon y -> collections.get counts x = collections.get counts y.
Proof.
  intros Heq. induction counts as [|[k n] counts IH]; simpl; [reflexivity|].
  assert (collections.key_eqb k x = collections.key_eqb k y) as ->; [|by rewrite IH].
  apply eq_true_iff_eq. rewrite !key_eqb_canon.
  split; intros (c & ? & ?); exists c; split; congruence.
Qed.

Lemma get_entry (counts : list (json * Z)) (k : json) (n : Z) :
  hashed counts -> NoDup (canon_keys counts) -> (k, n) ∈ counts ->
  collections.get counts k = n.
Proof.
  unfold hashed. induction counts as [|[k' n'] counts IH]; simpl; intros Hh Hnd Hin.
  - by apply elem_of_nil in Hin.
  - apply Forall_cons in Hh as [[Hk' _] Hh]. apply NoDup_cons in Hnd as [Hfresh Hnd].
    simpl in Hk'. apply elem_of_cons in Hin as [[= <- <-]|Hin].
    + by rewrite key_eqb_refl.
    + destruct (collections.key_eqb k' k) eqn:Hkk; [|by apply IH].
      destruct Hfresh. apply key_eqb_canon in Hkk as (c & -> & <-).
      unfold canon_keys. apply list_elem_of_In, in_map_iff. exists (k, n).
      split; [reflexivity|by apply list_elem_of_In].
Qed.

Lemma insert_by_count_perm (kn : json * Z) (sorted : list (json * Z)) :
  collections.insert_by_count kn sorted ≡ₚ kn :: sorted.
Proof.
  induction sorted as [|[k n] sorted IH]; simpl; [reflexivity|].
  destruct (n <? snd kn)%Z; [reflexivity|]. rewrite IH. apply Permutation_swap.
Qed.

Lemma insert_by_count_sorted (kn : json * Z) (sorted : list (json * Z)) :
  StronglySorted by_count sorted ->
  StronglySorted by_count (collections.insert_by_count kn sorted).
Proof.
  induction sorted as [|[k n] sorted IH]; simpl; intros Hs.
  - constructor; constructor.
  - apply StronglySorted_inv in Hs as [Hs Hall].
    destruct (n <? snd kn)%Z eqn:Hlt.
    + apply Z.ltb_lt in Hlt. constructor; [by constructor|].
      constructor; [unfold by_count; simpl; lia|].
      eapply Forall_impl; [exact Hall|]. unfold by_count. simpl. intros; lia.
    + apply Z.ltb_ge in Hlt. constructor; [by apply IH|].
      rewrite insert_by_count_perm. constructor; [unfold by_count; simpl; lia|exact Hall].
Qed.

Lemma fold_insert_by_count (counts acc : list (json * Z)) :
  StronglySorted by_count acc ->
  let sorted := fold_left (fun s kn => collections.insert_by_count kn s) counts acc in
  sorted ≡ₚ acc ++ counts /\ StronglySorted by_count sorted.
Proof.
  revert acc. induction counts as [|kn counts IH]; intros acc Hacc; simpl.
  - by rewrite app_nil_r.
  - destruct (IH (collections.insert_by_count kn acc)
                (insert_by_count_sorted kn acc Hacc)) as [Hperm Hsorted].
    split; [|exact Hsorted]. rewrite Hperm, insert_by_count_perm.
    by rewrite <- Permutation_middle.
Qed.

(** What [Counter(names).most_common(5)] is made of. *)
Lemma top5_ranking (names top : list json) :
  weekly_report.top5 names = Some top ->
  exists counts sorted,
    collections.Counter names = Some counts
    /\ sorted ≡ₚ counts /\ StronglySorted by_count sorted
    /\ top = map fst (take 5 sorted).
Proof.
  unfold weekly_report.top5, collections.most_common.
  destruct (collections.Counter names) as [counts|]; [|discriminate].
  simpl. intros [= <-].
  destruct (fold_insert_by_count counts []) as [Hperm Hsorted]; [constructor|].
  eauto 10.
Qed.

Lemma top5_is_Some (names : list json) :
  is_Some (weekly_report.top5 names)
  <-> Forall (fun x => collections.hashable x = true) names.
Proof.
  rewrite <- Counter_is_Some. unfold weekly_report.top5.
  destruct (collections.Counter names); simpl; split; intros [? ?]; eauto; discriminate.
Qed.

Lemma StronglySorted_lookup_lt {A} (R : relation A) (l : list A) i j a b :
  StronglySorted R l -> i < j -> l !! i = Some a -> l !! j = Some b -> R a b.
Proof.
  intros Hs. revert i j. induction Hs as [|x l Hs IH Hall]; intros i j Hij Ha Hb.
  - by rewrite lookup_nil in Ha.
  - destruct j as [|j]; [lia|]. destruct i as [|i]; simpl in *.
    + injection Ha as <-. rewrite Forall_forall in Hall. apply Hall.
      by eapply list_elem_of_lookup_2.
    + apply (IH i j); [lia|done|done].
Qed.

Lemma top_lookup (sorted : list (json * Z)) i x :
  map fst (take 5 sorted) !! i = Some x <->
  exists e, sorted !! i = Some e /\ i < 5 /\ fst e = x.
Proof.
  change (map fst (take 5 sorted)) with (fst <$> take 5 sorted).
  rewrite list_lookup_fmap_Some. split.
  - intros (e & -> & [He Hi]%lookup_take_Some). eauto.
  - intros (e & He & Hi & <-). exists e. split; [reflexivity|].
    by apply lookup_take_Some.
Qed.

(** X23. The ranking of [Counter(names).most_common(5)]. The list of top
    names has at most five entries; each was named at least once; no two
    entries are the same key; the entries come by decreasing number of
    mentions; a name that is not listed has no more mentions than any that
    is; and when fewer than five are listed, every name is. Mentions are
    counted as a [Counter] compares keys. *)
Theorem top_entities_ranked (names top : list json) :
  weekly_report.top5 names = Some top ->
  length top <= 5
  /\ (forall x, x ∈ top -> (0 < times_named x names)%Z)
  /\ (forall i j x y, i < j -> top !! i = Some x -> top !! j = Some y ->
        collections.key_eqb x y = false
        /\ (times_named y names <= times_named x names)%Z)
  /\ (forall x y, x ∈ top -> y ∈ names ->
        (forall z, z ∈ top -> collections.key_eqb z y = false) ->
        (times_named y names <= times_named x names)%Z)
  /\ (length top < 5 ->
      forall y, y ∈ names -> exists z, z ∈ top /\ collections.key_eqb z y = true).
Proof.
  intros (counts & sorted & Hcounter & Hperm & Hsorted & ->)%top5_ranking.
  destruct (Counter_facts names counts Hcounter) as (Hh & Hnd & Hin & Hget).
  assert (Hh' : forall e, e ∈ sorted -> is_Some (canon (fst e)) /\ (0 < snd e)%Z).
  { intros e He. unfold hashed in Hh. rewrite Forall_forall in Hh. apply Hh.
    by rewrite <- Hperm. }
  assert (Hnd' : NoDup (canon_keys sorted)).
  { unfold canon_keys. change (NoDup ((fun kn => canon (fst kn)) <$> sorted)).
    rewrite Hperm. exact Hnd. }
  assert (Hcount : forall e, e ∈ sorted -> times_named (fst e) names = snd e).
  { intros [k n] He. rewrite <- Hget. apply get_entry; [exact Hh|exact Hnd|].
    by rewrite <- Hperm. }
  assert (Hrep : forall y, y ∈ names ->
            exists j e, sorted !! j = Some e
                        /\ collections.key_eqb (fst e) y = true
                        /\ times_named y names = snd e).
  { intros y Hy. specialize (Hin y Hy). unfold canon_keys in Hin.
    apply list_elem_of_In, in_map_iff in Hin as (e & He & Hein).
    apply list_elem_of_In in Hein. rewrite <- Hperm in Hein.
    destruct (list_elem_of_lookup_1 _ _ Hein) as [j Hj].
    exists j, e. split; [exact Hj|]. split.
    - apply key_eqb_same_canon; [by apply Hh'|exact He].
    - rewrite <- (Hcount e Hein), <- !Hget. symmetry. by apply get_same_canon. }
  split; [|split; [|split; [|split]]].
  - rewrite length_map, length_take. lia.
  - intros x (i & (e & He & _ & <-)%top_lookup)%list_elem_of_lookup_1.
    apply list_elem_of_lookup_2 in He. rewrite (Hcount e He). by apply Hh'.
  - intros i j x y Hij (ex & Hex & _ & <-)%top_lookup (ey & Hey & _ & <-)%top_lookup.
    split.
    + destruct (collections.key_eqb (fst ex) (fst ey)) eqn:Heq; [|reflexivity].
      apply key_eqb_canon in Heq as (c & Hcx & Hcy).
      assert (i = j); [|lia].
      apply (NoDup_lookup (canon_keys sorted) i j (Some c) Hnd');
        unfold canon_keys;
        change (map (fun kn => canon (fst kn)) sorted)
          with ((fun kn => canon (fst kn)) <$> sorted);
        rewrite list_lookup_fmap.
      * rewrite Hex. simpl. by rewrite Hcx.
      * rewrite Hey. simpl. by rewrite Hcy.
    + rewrite (Hcount ex), (Hcount ey) by (by eapply list_elem_of_lookup_2).
      apply (StronglySorted_lookup_lt by_count sorted i j ex ey Hsorted Hij Hex Hey).
  - intros x y (i & (ex & Hex & Hi & <-)%top_lookup)%list_elem_of_lookup_1 Hy Hnone.
    destruct (Hrep y Hy) as (j & ey & Hey & Hmatch & ->).
    rewrite (Hcount ex) by (by eapply list_elem_of_lookup_2).
    destruct (decide (j < 5)) as [Hj|Hj].
    + rewrite Hnone in Hmatch; [discriminate|].
      apply (list_elem_of_lookup_2 _ j). apply top_lookup. eauto.
    + apply (StronglySorted_lookup_lt by_count sorted i j ex ey Hsorted); [lia|done|done].
  - intros Hshort y Hy. destruct (Hrep y Hy) as (j & ey & Hey & Hmatch & _).
    exists (fst ey). split; [|exact Hmatch].
    apply (list_elem_of_lookup_2 _ j). apply top_lookup. exists ey.
    split; [exact Hey|]. split; [|reflexivity].
    rewrite length_map, length_take in Hshort. apply lookup_lt_Some in Hey. lia.
Qed.

Lemma top_entities_ranked_witness :
  length [JStr "Acme Corp"; JInt 1; JStr "Beta Inc"] <= 5
  /\ (forall x, x ∈ [JStr "Acme Corp"; JInt 1; JStr "Beta Inc"] ->
        (0 < times_named x cases.named_companies)%Z)
  /\ (forall i j x y, i < j ->
        [JStr "Acme Corp"; JInt 1; JStr "Beta Inc"] !! i = Some x ->
        [JStr "Acme Corp"; JInt 1; JStr "Beta Inc"] !! j = Some y ->
        collections.key_eqb x y = false
        /\ (times_named y cases.named_companies
            <= times_named x cases.named_companies)%Z)
  /\ (forall x y, x ∈ [JStr "Acme Corp"; JInt 1; JStr "Beta Inc"] ->
        y ∈ cases.named_companies ->
        (forall z, z ∈ [JStr "Acme Corp"; JInt 1; JStr "Beta Inc"] ->
           collections.key_eqb z y = false) ->
        (times_named y cases.named_companies
         <= times_named x cases.named_companies)%Z)
  /\ (length [JStr "Acme Corp"; JInt 1; JStr "Beta Inc"] < 5 ->
      forall y, y ∈ cases.named_companies ->
        exists z, z ∈ [JStr "Acme Corp"; JInt 1; JStr "Beta Inc"]
                  /\ collections.key_eqb z y = true).
Proof.
  apply (top_entities_ranked cases.named_companies
           [JStr "Acme Corp"; JInt 1; JStr "Beta Inc"]).
  vm_compute. reflexivity.
Defined.

(* ===================================================================== *)
(** * The entities of a week *)
(* ===================================================================== *)

Lemma add_entities_eq (companies people topics : list json)
    (fields : list (string * json)) :
  weekly_report.add_entities (companies, people, topics) (JObj fields)
  = Some (companies ++ names_in "companies" fields,
          people ++ names_in "people" fields,
          topics ++ names_in "topics" fields).
Proof.
  unfold weekly_report.add_entities. f_equal.
  revert companies people topics.
  induction fields as [|[category items] fields IH]; intros companies people topics.
  - unfold names_in. simpl. by rewrite !app_nil_r.
  - cbn [fold_left]. unfold names_in at 1 2 3. cbn [map concat].
    fold (names_in "companies" fields) (names_in "people" fields)
         (names_in "topics" fields).
    destruct items as [| | | |names|]; try (rewrite IH; reflexivity).
    destruct (String.eqb category "companies") eqn:Hc.
    { apply String.eqb_eq in Hc as ->. rewrite IH. simpl. by rewrite <- app_assoc. }
    destruct (String.eqb category "people") eqn:Hp.
    { apply String.eqb_eq in Hp as ->. rewrite IH. simpl. by rewrite <- app_assoc. }
    destruct (String.eqb category "topics") eqn:Ht.
    { apply String.eqb_eq in Ht as ->. rewrite IH. simpl. by rewrite <- app_assoc. }
    rewrite IH. reflexivity.
Qed.

Lemma add_entities_Some (acc acc' : list json * list json * list json)
    (entities : json) :
  weekly_report.add_entities acc entities = Some acc' ->
  exists fields, entities = JObj fields.
Proof. destruct entities; try discriminate. eauto. Qed.

Lemma collect_entities_eq (articles : list json) (companies people topics : list json) :
  Forall (fun a => exists fields, py.get a "entities" (JObj []) = Some (JObj fields))
         articles ->
  weekly_report.collect_entities articles (companies, people, topics)
  = Some (companies ++ concat (map (entity_names "companies") articles),
          people ++ concat (map (entity_names "people") articles),
          topics ++ concat (map (entity_names "topics") articles)).
Proof.
  revert companies people topics.
  induction articles as [|a articles IH]; intros companies people topics Hall.
  - simpl. by rewrite !app_nil_r.
  - apply Forall_cons in Hall as [[fields Hget] Hall].
    cbn [weekly_report.collect_entities]. rewrite Hget. cbn [mbind option_bind].
    rewrite add_entities_eq. cbn [mbind option_bind]. rewrite (IH _ _ _ Hall).
    cbn [map concat]. unfold entity_names. rewrite Hget.
    by rewrite <- !app_assoc.
Qed.

Lemma collect_entities_is_Some (articles : list json)
    (acc : list json * list json * list json) :
  is_Some (weekly_report.collect_entities articles acc) ->
  Forall (fun a => exists fields, py.get a "entities" (JObj []) = Some (JObj fields))
         articles.
Proof.
  revert acc. induction articles as [|a articles IH]; intros acc; [constructor|].
  cbn [weekly_report.collect_entities].
  destruct (py.get a "entities" (JObj [])) as [entities|] eqn:Hget;
    [|by intros [? ?]].
  cbn [mbind option_bind].
  destruct (weekly_report.add_entities acc entities) as [acc'|] eqn:Hadd;
    [|by intros [? ?]].
  cbn [mbind option_bind]. intros Hrest.
  apply add_entities_Some in Hadd as [fields ->].
  constructor; [eauto|by eapply IH].
Qed.

(** X24. When the weekly analysis returns, each of its three top lists is
    the ranking of the names that the articles list under the category,
    taken over all articles in their order: a category bound to something
    that is not a list, and any other category, is ignored. *)
Theorem weekly_top_entities_of_names (articles : list json)
    (summary : weekly_report.sentiment_summary) (top : weekly_report.top_entities) :
  weekly_report.analyze_weekly_trends articles = Some (summary, top) ->
  weekly_report.top5 (concat (map (entity_names "companies") articles))
  = Some (weekly_report.Top_Companies top)
  /\ weekly_report.top5 (concat (map (entity_names "people") articles))
     = Some (weekly_report.Top_People top)
  /\ weekly_report.top5 (concat (map (entity_names "topics") articles))
     = Some (weekly_report.Top_Topics top).
Proof.
  unfold weekly_report.analyze_weekly_trends.
  destruct (mapM _ articles) as [sentiments|]; [|discriminate]. cbn [mbind option_bind].
  destruct (collections.Counter sentiments) as [sentiment_counts|]; [|discriminate].
  cbn [mbind option_bind].
  destruct (weekly_report.collect_entities articles ([], [], [])) as [[[c p] t]|] eqn:Hc;
    [|discriminate].
  rewrite collect_entities_eq in Hc by (eapply collect_entities_is_Some; eauto).
  injection Hc as <- <- <-. cbn [mbind option_bind app].
  destruct (weekly_report.top5 (concat (map (entity_names "companies") articles)))
    as [tc|]; [|discriminate].
  destruct (weekly_report.top5 (concat (map (entity_names "people") articles)))
    as [tp|]; [|discriminate].
  destruct (weekly_report.top5 (concat (map (entity_names "topics") articles)))
    as [tt|]; [|discriminate].
  cbn [mbind option_bind]. by intros [= <- <-].
Qed.

Lemma weekly_top_entities_of_names_witness :
  weekly_report.top5 (concat (map (entity_names "companies") cases.named_week))
  = Some [JStr "Acme Corp"; JStr "Beta Inc"]
  /\ weekly_report.top5 (concat (map (entity_names "people") cases.named_week))
     = Some []
  /\ weekly_report.top5 (concat (map (entity_names "topics") cases.named_week))
     = Some [JStr "Guidance"].
Proof.
  apply (weekly_top_entities_of_names cases.named_week
           {| weekly_report.Positive := "50.0%"; weekly_report.Negative := "0.0%";
              weekly_report.Neutral := "0.0%" |}
           {| weekly_report.Top_Companies := [JStr "Acme Corp"; JStr "Beta Inc"];
              weekly_report.Top_People := [];
              weekly_report.Top_Topics := [JStr "Guidance"] |}).
  vm_compute. reflexivity.
Defined.

Lemma Forall_concat_map {A B} (Q : B -> Prop) (f : A -> list B) (l : list A) :
  Forall Q (concat (map f l)) <-> Forall (fun a => Forall Q (f a)) l.
Proof.
  induction l as [|a l IH]; simpl.
  - split; constructor.
  - rewrite Forall_app, Forall_cons, IH. tauto.
Qed.

(** X25. The weekly analysis returns exactly on the weeks all of whose
    articles it can read: each article is a dict, its sentiment (or the
    default) is hashable, its entities (or the default) are a dict, and the
    items of its companies, people and topics lists are hashable. On any
    other week it raises. *)
Theorem analyze_weekly_trends_returns_iff (articles : list json) :
  is_Some (weekly_report.analyze_weekly_trends articles)
  <-> Forall analysable articles.
Proof.
  unfold weekly_report.analyze_weekly_trends. split.
  - destruct (mapM _ articles) as [sentiments|] eqn:Hs; [|by intros [? ?]].
    cbn [mbind option_bind].
    destruct (collections.Counter sentiments) as [sentiment_counts|] eqn:Hcs;
      [|by intros [? ?]].
    cbn [mbind option_bind].
    destruct (weekly_report.collect_entities articles ([], [], []))
      as [[[c p] t]|] eqn:Hc; [|by intros [? ?]].
    assert (Hdicts := collect_entities_is_Some articles _ (mk_is_Some _ _ Hc)).
    rewrite (collect_entities_eq articles [] [] [] Hdicts) in Hc.
    injection Hc as <- <- <-. cbn [mbind option_bind app].
    destruct (weekly_report.top5 (concat (map (entity_names "companies") articles)))
      as [tc|] eqn:Htc; [|by intros [? ?]].
    destruct (weekly_report.top5 (concat (map (entity_names "people") articles)))
      as [tp|] eqn:Htp; [|by intros [? ?]].
    destruct (weekly_report.top5 (concat (map (entity_names "topics") articles)))
      as [tt|] eqn:Htt; [|by intros [? ?]].
    intros _.
    apply mk_is_Some, top5_is_Some, Forall_concat_map in Htc, Htp, Htt.
    apply mk_is_Some, Counter_is_Some in Hcs.
    apply mapM_Some in Hs.
    apply Forall_forall. intros a Ha.
    rewrite Forall_forall in Hdicts, Htc, Htp, Htt.
    destruct (Hdicts a Ha) as [fields Hget].
    specialize (Htc a Ha). specialize (Htp a Ha). specialize (Htt a Ha).
    unfold entity_names in Htc, Htp, Htt. rewrite Hget in Htc, Htp, Htt.
    split.
    + apply list_elem_of_lookup_1 in Ha as [i Hi].
      destruct (Forall2_lookup_l _ _ _ _ _ Hs Hi) as (s & Hsi & Hsa).
      exists s. split; [exact Hsa|].
      rewrite Forall_forall in Hcs. apply Hcs. by eapply list_elem_of_lookup_2.
    + exists fields. split; [exact Hget|]. rewrite !Forall_app. tauto.
  - intros Hall.
    assert (Hs : exists sentiments,
               mapM (fun a => py.get a "sentiment" (JStr "Unknown")) articles
               = Some sentiments
               /\ Forall (fun x => collections.hashable x = true) sentiments).
    { induction Hall as [|a articles [(s & Hsa & Hhash) _] Hall (ss & Hss & Hsh)].
      - exists []. split; [reflexivity|constructor].
      - exists (s :: ss). split; [|by constructor].
        unfold sentiment_of in Hsa. cbn [mapM]. rewrite Hsa. cbn [mbind option_bind].
        rewrite Hss. reflexivity. }
    destruct Hs as (sentiments & -> & Hhash). cbn [mbind option_bind].
    apply Counter_is_Some in Hhash as [sentiment_counts ->]. cbn [mbind option_bind].
    assert (Hdicts : Forall (fun a => exists fields,
                               py.get a "entities" (JObj []) = Some (JObj fields))
                            articles).
    { eapply Forall_impl; [exact Hall|]. intros a [_ (fields & Hget & _)]. eauto. }
    rewrite (collect_entities_eq articles [] [] [] Hdicts). cbn [mbind option_bind app].
    assert (Hnames : forall category,
               category = "companies" \/ category = "people" \/ category = "topics" ->
               is_Some (weekly_report.top5
                          (concat (map (entity_names category) articles)))).
    { intros category Hcat. apply top5_is_Some, Forall_concat_map.
      eapply Forall_impl; [exact Hall|]. intros a [_ (fields & Hget & Hok)].
      unfold entity_names. rewrite Hget. rewrite !Forall_app in Hok.
      destruct Hcat as [->|[->| ->]]; tauto. }
    destruct (Hnames "companies") as [tc ->]; [tauto|].
    destruct (Hnames "people") as [tp ->]; [tauto|].
    destruct (Hnames "topics") as [tt ->]; [tauto|].
    cbn [mbind option_bind]. eauto.
Qed.

(** A week with an article whose sentiment is a list, as an analysis
    answer can make it, cannot be analysed. *)
Example weekly_analysis_of_list_sentiment :
  weekly_report.analyze_weekly_trends
    [sample.labelled "Positive"; JObj [("sentiment", JArr [JStr "Positive"])]] = None.
Proof. vm_compute. reflexivity. Qed.

(* ===================================================================== *)
(** * Cleaning a model answer *)
(* ===================================================================== *)

Lemma append_nil_r (s : string) : s +:+ "" = s.
Proof.
  induction s as [|c s IH]; [reflexivity|].
  change (String c s +:+ "") with (String c (s +:+ "")). by rewrite IH.
Qed.

Lemma append_assoc (s t u : string) : (s +:+ t) +:+ u = s +:+ t +:+ u.
Proof.
  induction s as [|c s IH]; [reflexivity|].
  change (String c ((s +:+ t) +:+ u) = String c (s +:+ (t +:+ u))). by rewrite IH.
Qed.

Lemma prefix_cons (a c : Ascii.ascii) (old s : string) :
  String.prefix (String a old) (String c s) = Ascii.eqb c a && String.prefix old s.
Proof.
  simpl. destruct (ascii_dec a c) as [<-|Hne].
  - by rewrite Ascii.eqb_refl.
  - rewrite (proj2 (Ascii.eqb_neq c a)); [reflexivity|congruence].
Qed.

Lemma prefix_nil (s : string) : String.prefix "" s = true.
Proof. by destruct s. Qed.

Lemma prefix_append (old s : string) : String.prefix old (old +:+ s) = true.
Proof.
  induction old as [|a old IH]; [apply prefix_nil|].
  change (String a old +:+ s) with (String a (old +:+ s)).
  by rewrite prefix_cons, Ascii.eqb_refl, IH.
Qed.

Lemma replace_from_skip (old new pre s : string) :
  py.replace_from old new (String.length pre) (pre +:+ s) = py.replace_from old new 0 s.
Proof.
  induction pre as [|c pre IH]; [reflexivity|].
  change (String c pre +:+ s) with (String c (pre +:+ s)). exact IH.
Qed.

Lemma replace_match (a : Ascii.ascii) (old new s : string) :
  py.replace (String a old) new (String a old +:+ s)
  = new +:+ py.replace (String a old) new s.
Proof.
  unfold py.replace. change (String a old +:+ s) with (String a (old +:+ s)).
  cbn [py.replace_from]. change (String a (old +:+ s)) with (String a old +:+ s).
  rewrite prefix_append. cbn [String.length]. rewrite Nat.sub_succ, Nat.sub_0_r.
  by rewrite replace_from_skip.
Qed.

Lemma prefix_fence (s : string) :
  String.prefix "```" s = true <-> 3 <= leading_backticks s.
Proof.
  destruct s as [|c0 [|c1 [|c2 s]]]; rewrite ?prefix_cons; cbn [leading_backticks];
    repeat match goal with
           | |- context [Ascii.eqb ?c "`"] => destruct (Ascii.eqb c "`")
           end; simpl; split; intros H; try discriminate; try lia;
    by destruct s.
Qed.

Lemma replace_fence_cases (s : string) :
  (s = "" /\ py.replace "```" "" s = "")
  \/ (exists t, s = "```" +:+ t /\ py.replace "```" "" s = py.replace "```" "" t)
  \/ (exists c rest, s = String c rest /\ String.prefix "```" s = false
                     /\ py.replace "```" "" s = String c (py.replace "```" "" rest)).
Proof.
  destruct s as [|c rest]; [by left|right].
  unfold py.replace. cbn [py.replace_from].
  destruct (String.prefix "```" (String c rest)) eqn:Hp.
  - left. rewrite prefix_cons in Hp. apply andb_true_iff in Hp as [Hc Hp].
    apply Ascii.eqb_eq in Hc as ->.
    destruct rest as [|c1 rest]; [discriminate|].
    rewrite prefix_cons in Hp. apply andb_true_iff in Hp as [Hc Hp].
    apply Ascii.eqb_eq in Hc as ->.
    destruct rest as [|c2 rest]; [discriminate|].
    rewrite prefix_cons in Hp. apply andb_true_iff in Hp as [Hc Hp].
    apply Ascii.eqb_eq in Hc as ->.
    exists rest. split; reflexivity.
  - right. exists c, rest. split; [reflexivity|]. split; reflexivity.
Qed.

Lemma replace_fence_bounded (n : nat) (s : string) :
  String.length s <= n ->
  py.is_substring "```" (py.replace "```" "" s) = false
  /\ leading_backticks (py.replace "```" "" s) <= leading_backticks s.
Proof.
  revert s. induction n as [|n IH]; intros s Hn.
  - destruct s; [|simpl in Hn; lia]. split; [reflexivity|simpl; lia].
  - destruct (replace_fence_cases s) as [[-> ->]|[(t & -> & ->)|(c & rest & -> & Hp & ->)]].
    + split; [reflexivity|simpl; lia].
    + change ("```" +:+ t) with (String "`" (String "`" (String "`" t))) in *.
      destruct (IH t) as [Hsub Hlead]; [simpl in Hn; lia|].
      split; [exact Hsub|]. simpl. lia.
    + destruct (IH rest) as [Hsub Hlead]; [simpl in Hn; lia|].
      assert (Hle : leading_backticks (String c (py.replace "```" "" rest))
                    <= leading_backticks (String c rest)).
      { simpl. destruct (Ascii.eqb c "`"); lia. }
      split; [|exact Hle].
      cbn [py.is_substring]. rewrite Hsub, orb_false_r.
      destruct (String.prefix "```" (String c (py.replace "```" "" rest))) eqn:Hq;
        [|reflexivity].
      apply prefix_fence in Hq.
      assert (String.prefix "```" (String c rest) = true) as Hyes; [|congruence].
      apply prefix_fence. lia.
Qed.

Lemma backtick_free_cons (c : Ascii.ascii) (s : string) :
  backtick_free (String c s) = negb (Ascii.eqb c "`") && backtick_free s.
Proof.
  unfold backtick_free. cbn [py.is_substring]. rewrite prefix_cons, negb_orb.
  assert (String.prefix "" s = true) as -> by (by destruct s).
  by rewrite andb_true_r.
Qed.

Lemma replace_backtick_free (old new : string) (body tail : string) :
  String.prefix "`" old = true ->
  backtick_free body = true ->
  py.replace old new (body +:+ tail) = body +:+ py.replace old new tail.
Proof.
  intros Hold. unfold py.replace.
  induction body as [|c body IH]; intros Hfree; [reflexivity|].
  rewrite backtick_free_cons in Hfree. apply andb_true_iff in Hfree as [Hc Hfree].
  apply negb_true_iff, Ascii.eqb_neq in Hc.
  change (String c body +:+ tail) with (String c (body +:+ tail)).
  cbn [py.replace_from].
  assert (String.prefix old (String c (body +:+ tail)) = false) as ->.
  { destruct old as [|o old]; [discriminate|].
    rewrite prefix_cons in Hold. apply andb_true_iff in Hold as [Ho _].
    apply Ascii.eqb_eq in Ho as ->. rewrite prefix_cons.
    by rewrite (proj2 (Ascii.eqb_neq c "`") Hc). }
  by rewrite IH.
Qed.

Lemma backtick_free_tail (c : Ascii.ascii) (s : string) :
  backtick_free (String c s) = true -> backtick_free s = true.
Proof. rewrite backtick_free_cons. by intros [_ ?]%andb_true_iff. Qed.

Lemma lstrip_backtick_free_bounded (n : nat) (s : string) :
  String.length s <= n ->
  backtick_free s = true -> backtick_free (py.lstrip s) = true.
Proof.
  revert s. induction n as [|n IH]; intros s Hn Hfree.
  { destruct s; [reflexivity|simpl in Hn; lia]. }
  destruct s as [|c rest]; [reflexivity|]. cbn [py.lstrip].
  assert (Hrest := backtick_free_tail _ _ Hfree).
  destruct (py.is_space c); [apply IH; [simpl in Hn; lia|exact Hrest]|].
  destruct rest as [|d rest2]; [exact Hfree|].
  assert (Hrest2 := backtick_free_tail _ _ Hrest).
  destruct (py.is_space2 c d); [apply IH; [simpl in Hn; lia|exact Hrest2]|].
  destruct rest2 as [|e rest3]; [exact Hfree|].
  assert (Hrest3 := backtick_free_tail _ _ Hrest2).
  destruct (py.is_space3 c d e); [apply IH; [simpl in Hn; lia|exact Hrest3]|].
  exact Hfree.
Qed.

Lemma lstrip_backtick_free (s : string) :
  backtick_free s = true -> backtick_free (py.lstrip s) = true.
Proof. by apply (lstrip_backtick_free_bounded (String.length s)). Qed.

Lemma rstrip_backtick_free (s : string) :
  backtick_free s = true -> backtick_free (py.rstrip s) = true.
Proof.
  induction s as [|c s IH]; [done|]. intros Hfree. cbn [py.rstrip].
  destruct (py.blank (String c s)); [reflexivity|].
  rewrite backtick_free_cons in Hfree |- *.
  apply andb_true_iff in Hfree as [Hc Hfree]. by rewrite Hc, IH.
Qed.

(** No byte of a white-space character is a backtick. *)
Lemma not_backtick (c : Ascii.ascii) :
  Ascii.nat_of_ascii c <> 96 -> Ascii.eqb c "`" = false.
Proof. intros Hc. apply Ascii.eqb_neq. intros ->. by apply Hc. Qed.

Lemma is_space_not_backtick (c : Ascii.ascii) :
  py.is_space c = true -> Ascii.nat_of_ascii c <> 96.
Proof.
  unfold py.is_space. cbv zeta.
  rewrite orb_true_iff, !andb_true_iff, !Nat.leb_le. lia.
Qed.

Lemma is_space2_not_backtick (c d : Ascii.ascii) :
  py.is_space2 c d = true ->
  Ascii.nat_of_ascii c <> 96 /\ Ascii.nat_of_ascii d <> 96.
Proof.
  unfold py.is_space2. cbv zeta.
  rewrite andb_true_iff, orb_true_iff, !Nat.eqb_eq. lia.
Qed.

Lemma is_space3_not_backtick (c d e : Ascii.ascii) :
  py.is_space3 c d e = true ->
  Ascii.nat_of_ascii c <> 96 /\ Ascii.nat_of_ascii d <> 96
  /\ Ascii.nat_of_ascii e <> 96.
Proof.
  unfold py.is_space3. cbv zeta.
  rewrite !orb_true_iff, !andb_true_iff, !orb_true_iff, !andb_true_iff,
    !Nat.eqb_eq, !Nat.leb_le. lia.
Qed.

Lemma blank_backtick_free_bounded (n : nat) (s : string) :
  String.length s <= n -> py.lstrip s = "" -> backtick_free s = true.
Proof.
  revert s. induction n as [|n IH]; intros s Hn Hblank.
  { destruct s; [reflexivity|simpl in Hn; lia]. }
  destruct s as [|c rest]; [reflexivity|]. cbn [py.lstrip] in Hblank.
  destruct (py.is_space c) eqn:Hc.
  { rewrite backtick_free_cons, (not_backtick c (is_space_not_backtick c Hc)).
    apply IH; [simpl in Hn; lia|exact Hblank]. }
  destruct rest as [|d rest2]; [discriminate|].
  destruct (py.is_space2 c d) eqn:Hcd.
  { destruct (is_space2_not_backtick c d Hcd) as [H1 H2].
    rewrite !backtick_free_cons, (not_backtick c H1), (not_backtick d H2).
    apply IH; [simpl in Hn; lia|exact Hblank]. }
  destruct rest2 as [|e rest3]; [discriminate|].
  destruct (py.is_space3 c d e) eqn:Hcde; [|discriminate].
  destruct (is_space3_not_backtick c d e Hcde) as (H1 & H2 & H3).
  rewrite !backtick_free_cons, (not_backtick c H1), (not_backtick d H2),
    (not_backtick e H3).
  apply IH; [simpl in Hn; lia|exact Hblank].
Qed.

Lemma fenced_not_backtick_free (s : string) : backtick_free (s +:+ "```") = false.
Proof.
  induction s as [|c s IH]; [reflexivity|].
  change (String c s +:+ "```") with (String c (s +:+ "```")).
  by rewrite backtick_free_cons, IH, andb_false_r.
Qed.

Lemma rstrip_fenced (s : string) : py.rstrip (s +:+ "```") = s +:+ "```".
Proof.
  induction s as [|c s IH]; [reflexivity|].
  change (String c s +:+ "```") with (String c (s +:+ "```")).
  cbn [py.rstrip]. unfold py.blank.
  destruct (py.lstrip (String c (s +:+ "```"))) eqn:Hblank; [|by rewrite IH].
  apply (blank_backtick_free_bounded _ _ (Nat.le_refl _)) in Hblank.
  change (String c (s +:+ "```")) with (String c s +:+ "```") in Hblank.
  by rewrite fenced_not_backtick_free in Hblank.
Qed.

(** X26. What the cleaning of an answer does to the two usual shapes. An
    answer without any backtick is only stripped of surrounding white
    space. An answer that is a fenced block, the opening fence marked
    [json], around a body without backticks is reduced to that body. *)
Theorem cleaned_text_of_usual_answers (body : string) :
  backtick_free body = true ->
  utility.cleaned_text body = py.strip body
  /\ utility.cleaned_text ("```json" +:+ body +:+ "```") = body.
Proof.
  intros Hfree. unfold utility.cleaned_text. split.
  - assert (Hs : backtick_free (py.strip body) = true)
      by (by apply rstrip_backtick_free, lstrip_backtick_free).
    pose proof (replace_backtick_free "```json" "" (py.strip body) "" eq_refl Hs)
      as Hjson.
    pose proof (replace_backtick_free "```" "" (py.strip body) "" eq_refl Hs)
      as Hfence.
    change (py.replace "```json" "" "") with "" in Hjson.
    change (py.replace "```" "" "") with "" in Hfence.
    rewrite append_nil_r in Hjson, Hfence. by rewrite Hjson, Hfence.
  - assert (py.strip ("```json" +:+ body +:+ "```") = "```json" +:+ body +:+ "```")
      as ->.
    { unfold py.strip.
      assert (py.lstrip ("```json" +:+ body +:+ "```")
              = "```json" +:+ body +:+ "```") as -> by reflexivity.
      rewrite <- append_assoc. apply rstrip_fenced. }
    rewrite (replace_match "`" "``json" "" (body +:+ "```")).
    change ("" +:+ ?x) with x.
    rewrite (replace_backtick_free "```json" "" body "```" eq_refl Hfree).
    change (py.replace "```json" "" "```") with "```".
    rewrite (replace_backtick_free "```" "" body "```" eq_refl Hfree).
    change (py.replace "```" "" "```") with "". apply append_nil_r.
Qed.

Lemma cleaned_text_of_usual_answers_witness :
  utility.cleaned_text (cases.nbsp +:+ "{}" +:+ cases.nbsp)
  = py.strip (cases.nbsp +:+ "{}" +:+ cases.nbsp)
  /\ utility.cleaned_text ("```json" +:+ (cases.nbsp +:+ "{}" +:+ cases.nbsp) +:+ "```")
     = cases.nbsp +:+ "{}" +:+ cases.nbsp.
Proof.
  apply (cleaned_text_of_usual_answers (cases.nbsp +:+ "{}" +:+ cases.nbsp)).
  vm_compute. reflexivity.
Defined.

(** White space is what [str.isspace()] says: a no-break space or a next
    line character around the answer is stripped like a blank, a zero width
    space (U+200B, which is no white space) is kept. *)
Example cleaned_text_strips_unicode_space :
  utility.cleaned_text (cases.nbsp +:+ " {} " +:+ cases.next_line) = "{}"
  /\ utility.cleaned_text (cases.zero_width_space +:+ "{}")
     = cases.zero_width_space +:+ "{}".
Proof. split; vm_compute; reflexivity. Qed.

(** X27. Whatever the answer, the cleaned text that is handed to
    [json.loads] contains no code fence: no three backticks in a row. *)
Theorem cleaned_text_has_no_fence (text : string) :
  py.is_substring "```" (utility.cleaned_text text) = false.
Proof.
  unfold utility.cleaned_text.
  apply (replace_fence_bounded (String.length (py.replace "```json" "" (py.strip text)))).
  lia.
Qed.

(* ===================================================================== *)
(** * The time spent sleeping *)
(* ===================================================================== *)

Lemma total_sleep_app (tr1 tr2 : list event) :
  (total_sleep (tr1 ++ tr2) == total_sleep tr1 + total_sleep tr2)%Q.
Proof.
  unfold total_sleep. rewrite sleeps_app.
  induction (sleeps tr1) as [|q l IH]; simpl; [lra|]. rewrite IH. lra.
Qed.

Section sleep_budget.
Context {T : Type}.
Variable max_retries : Z.
Variable try_block : Z -> list event * option T.
Variable rng : nat -> Q.
Variable warn : bool.
Variable sentinel : T.
Variable in_try : Q.

Hypothesis draws : unit_draws rng.
Hypothesis in_try_nonneg : (0 <= in_try)%Q.
Hypothesis try_block_sleep : forall a, (total_sleep (fst (try_block a)) <= in_try)%Q.

Lemma total_sleep_before_retry (a : Z) :
  (total_sleep (sleep_before_retry warn rng a) <= inject_Z (2 ^ a) + 1)%Q.
Proof.
  unfold total_sleep. rewrite sleeps_sleep_before_retry. simpl.
  unfold backoff, uniform, draw_for_backoff.
  destruct (draws (2 * Z.to_nat (a - 1) + 1)) as [_ Hle].
  generalize dependent (rng (2 * Z.to_nat (a - 1) + 1)). intros r Hle. lra.
Qed.

Lemma while_attempt_total_sleep (fuel : nat) (attempt : Z) tr v :
  (0 <= attempt < max_retries)%Z ->
  retry.while_attempt max_retries try_block (sleep_before_retry warn rng) sentinel
    fuel attempt = Some (tr, v) ->
  (total_sleep tr
   <= (in_try + 1) * (inject_Z max_retries - inject_Z attempt)
      + inject_Z (2 ^ max_retries) - inject_Z (2 ^ (attempt + 1)) - 1)%Q.
Proof.
  revert attempt tr v. induction fuel as [|fuel IH]; intros attempt tr v Hrange;
    [discriminate|].
  assert (Hnext : (inject_Z (attempt + 1) == inject_Z attempt + 1)%Q)
    by (rewrite inject_Z_plus; reflexivity).
  assert (Hroom : (inject_Z attempt + 1 <= inject_Z max_retries)%Q).
  { rewrite <- Hnext. rewrite <- Zle_Qle. lia. }
  assert (Hpow : (inject_Z (2 ^ (attempt + 1)) <= inject_Z (2 ^ max_retries))%Q).
  { rewrite <- Zle_Qle. apply Z.pow_le_mono_r; lia. }
  assert (Hdouble : (inject_Z (2 ^ (attempt + 1 + 1)) == 2 * inject_Z (2 ^ (attempt + 1)))%Q).
  { replace (attempt + 1 + 1)%Z with (Z.succ (attempt + 1)) by lia.
    rewrite Z.pow_succ_r by lia. rewrite inject_Z_mult. reflexivity. }
  pose proof (try_block_sleep attempt) as Htry.
  simpl. destruct (Z.ltb_spec attempt max_retries) as [Hlt|Hge]; [|lia].
  destruct (try_block attempt) as [done result]. simpl in Htry.
  destruct result as [value|].
  { intros [= <- <-]. nra. }
  destruct (Z.geb_spec (attempt + 1) max_retries) as [Hlast|Hmore].
  { intros [= <- <-]. rewrite total_sleep_app.
    change (total_sleep [Log ERROR]) with 0%Q. nra. }
  destruct (retry.while_attempt _ _ _ _ fuel (attempt + 1)%Z) as [[rest value]|] eqn:Hrest;
    [|discriminate].
  intros [= <- <-]. apply IH in Hrest; [|lia].
  rewrite !total_sleep_app.
  pose proof (total_sleep_before_retry (attempt + 1)) as Hpause.
  rewrite Hnext in Hrest. nra.
Qed.

Lemma run_total_sleep :
  (1 <= max_retries)%Z ->
  (total_sleep (fst (retry.run max_retries try_block (sleep_before_retry warn rng)
                       sentinel))
   <= (in_try + 1) * inject_Z max_retries + inject_Z (2 ^ max_retries) - 3)%Q.
Proof.
  intros Hn. unfold retry.run.
  destruct (retry_fuel_enough max_retries try_block (sleep_before_retry warn rng) sentinel)
    as [[tr v] Hrun].
  rewrite Hrun. simpl. apply while_attempt_total_sleep in Hrun; [|lia].
  change (inject_Z (2 ^ (0 + 1))) with 2%Q in Hrun.
  change (inject_Z 0) with 0%Q in Hrun. lra.
Qed.

End sleep_budget.

Lemma total_sleep_axios_try (api : nat -> api_outcome) (rng : nat -> Q) (a : Z) :
  unit_draws rng ->
  (total_sleep (fst (daily_report.axios_try api rng a)) <= 3)%Q.
Proof.
  intros Hrng. unfold daily_report.axios_try.
  destruct (Hrng (2 * Z.to_nat a)) as [_ Hle]. unfold draw_in_try.
  generalize dependent (rng (2 * Z.to_nat a)). intros r Hle.
  destruct (api (Z.to_nat a)); unfold total_sleep; simpl; unfold uniform; lra.
Qed.

(** X28. How long a worker can sleep. With draws of [random.random()] in
    [0, 1] and [max_retries >= 1], a summary call sleeps at most
    [4 * max_retries + 2^max_retries - 3] seconds in all, whatever the
    service does, and an analysis call at most
    [max_retries + 2^max_retries - 3]: 17 and 8 seconds with the three
    attempts the program uses. *)
Theorem sleep_budget_of_a_call {P : Platform} (api : nat -> api_outcome)
    (rng : nat -> Q) (max_retries : Z) :
  unit_draws rng ->
  (1 <= max_retries)%Z ->
  (total_sleep (fst (daily_report.generate_axios_summary api rng max_retries))
   <= 4 * inject_Z max_retries + inject_Z (2 ^ max_retries) - 3)%Q
  /\ (total_sleep (fst (utility.analyze_content api rng max_retries))
      <= inject_Z max_retries + inject_Z (2 ^ max_retries) - 3)%Q.
Proof.
  intros Hrng Hn. split.
  - unfold daily_report.generate_axios_summary.
    pose proof (run_total_sleep max_retries (daily_report.axios_try api rng) rng true
                  (None : option string) 3 Hrng ltac:(lra)
                  (fun a => total_sleep_axios_try api rng a Hrng) Hn) as Hrun.
    lra.
  - unfold utility.analyze_content.
    pose proof (run_total_sleep max_retries (utility.analyze_content_try api) rng false
                  utility.analyze_content_failed 0 Hrng ltac:(lra)) as Hrun.
    destruct (retry.run _ _ _ _) as [tr v]. simpl in *.
    change (total_sleep (Log INFO :: tr)) with (total_sleep tr).
    assert (Htry : forall a, (total_sleep (fst (utility.analyze_content_try api a)) <= 0)%Q).
    { intros a. unfold utility.analyze_content_try.
      destruct (api (Z.to_nat a)); unfold total_sleep; simpl; lra. }
    specialize (Hrun Htry Hn). lra.
Qed.

Lemma sleep_budget_of_a_call_witness :
  (total_sleep (fst (daily_report.generate_axios_summary sample.third_time_lucky
                       sample.no_jitter 3))
   <= 4 * inject_Z 3 + inject_Z (2 ^ 3) - 3)%Q
  /\ (total_sleep (fst (utility.analyze_content (P := reference.platform)
                          sample.third_time_lucky sample.no_jitter 3))
      <= inject_Z 3 + inject_Z (2 ^ 3) - 3)%Q.
Proof.
  apply (sleep_budget_of_a_call (P := reference.platform) sample.third_time_lucky
           sample.no_jitter 3).
  - intros i. vm_compute. split; discriminate.
  - lia.
Defined.
